(** * gpustat: aggregation and rendering of GPU status, verified against the source

    This development embeds the two source files of the repository:

    - [src/gpustat.py]: [ANSIColors], [GPUStat] (one device with its
      processes, rendered by [print_to]) and [GPUStatCollection] (the snapshot:
      an [OrderedDict] from uuid to [GPUStat], filled by [__init__],
      [running_processes] and [update_process_information], rendered by
      [print_formatted]);
    - [src/gpustat/cli.py]: [print_gpustat], [loop_gpustat] and the part of
      [main] that follows argument parsing.

    Python values are modelled as the code has them: every table cell read
    from [nvidia-smi] or [ps] is a string, a device or process entry is a
    [dict] from column name to string ([gmap string string]), and a missing
    key or a malformed number raises.  Exceptions are explicit ([res]);
    output and the external commands go through a small reader/writer monad
    ([M]).  Strings are sequences of [ascii] characters, read as the code
    points 0 to 255; times are binary64 floats, as Python's are. *)

From Stdlib Require Import ZArith Floats Ascii String Bool Lia.
From stdpp Require Import base gmap strings list fin_maps.

(** ** Python primitives *)

Module Py.

(** The exceptions the modelled code can raise or meet.  [Exception cls]
    stands for an instance of any other class derived from [Exception], by
    the name of the class (an [NVMLError] of the query, an [OSError] of a
    write). *)
Inductive exc : Type :=
  | KeyError
  | ValueError
  | TypeError
  | UnboundLocalError
  | CalledProcessError
  | KeyboardInterrupt
  | SystemExit (code : Z)
  | OverflowError
  | Exception (cls : string).

(** The result of an expression or statement: a value, or a raised exception. *)
Inductive res (A : Type) : Type :=
  | Ok (a : A)
  | Raise (e : exc).
Arguments Ok {A} a.
Arguments Raise {A} e.

Definition rbind {A B} (r : res A) (k : A -> res B) : res B :=
  match r with
  | Ok a => k a
  | Raise e => Raise e
  end.

Declare Scope res_scope.
Delimit Scope res_scope with res.
Notation "x <- r ;; k" := (rbind r (fun x => k))
  (at level 100, r at next level, right associativity) : res_scope.

(** [for x in l: acc = f(acc, x)], stopping at the first exception. *)
Fixpoint rfold {A B} (f : B -> A -> res B) (acc : B) (l : list A) : res B :=
  match l with
  | [] => Ok acc
  | x :: l' => rbind (f acc x) (fun acc' => rfold f acc' l')
  end.

(** [[f(x) for x in l]], stopping at the first exception. *)
Fixpoint rmap {A B} (f : A -> res B) (l : list A) : res (list B) :=
  match l with
  | [] => Ok []
  | x :: l' => rbind (f x) (fun y => rbind (rmap f l') (fun ys => Ok (y :: ys)))
  end.

(** [d[k]] on a dict with string keys: [KeyError] when the key is missing. *)
Definition getitem (d : gmap string string) (k : string) : res string :=
  match d !! k with
  | Some v => Ok v
  | None => Raise KeyError
  end.

(** *** Characters and whitespace *)

Definition chr (n : nat) : ascii := ascii_of_nat n.
Definition ord (c : ascii) : nat := nat_of_ascii c.

Definition NL : ascii := "010"%char.

(** [str.isspace] on one character: TAB, LF, VT, FF, CR, the four
    separators 0x1c..0x1f, the space and, above ASCII, NEL (0x85) and NBSP
    (0xa0). *)
Definition isspace (c : ascii) : bool :=
  let n := ord c in
  ((9 <=? n)%nat && (n <=? 13)%nat) || ((28 <=? n)%nat && (n <=? 32)%nat)
  || (n =? 133)%nat || (n =? 160)%nat.

Definition isdigit (c : ascii) : bool :=
  let n := ord c in (48 <=? n)%nat && (n <=? 57)%nat.

Definition digit_value (c : ascii) : Z := Z.of_nat (ord c) - 48.

(** *** [str] methods *)

Fixpoint lstrip (s : string) : string :=
  match s with
  | String c s' => if isspace c then lstrip s' else s
  | EmptyString => EmptyString
  end.

(** [rstrip]: a character is kept iff a non-blank character stands at or
    after it. *)
Fixpoint rstrip (s : string) : string :=
  match s with
  | EmptyString => EmptyString
  | String c s' =>
      match rstrip s' with
      | EmptyString => if isspace c then EmptyString else String c EmptyString
      | t => String c t
      end
  end.

Definition strip (s : string) : string := rstrip (lstrip s).

(** [s.split(sep)] for a one-character separator: always at least one field. *)
Fixpoint split (sep : ascii) (s : string) : list string :=
  match s with
  | EmptyString => [EmptyString]
  | String c s' =>
      if Ascii.eqb c sep then EmptyString :: split sep s'
      else match split sep s' with
           | [] => [String c EmptyString]
           | w :: ws => String c w :: ws
           end
  end.

(** [s.split()]: the maximal runs of non-blank characters.  [cur] is the run
    being read. *)
Fixpoint split_ws_aux (cur : string) (s : string) : list string :=
  match s with
  | EmptyString =>
      match cur with EmptyString => [] | _ => [cur] end
  | String c s' =>
      if isspace c then
        match cur with
        | EmptyString => split_ws_aux EmptyString s'
        | _ => cur :: split_ws_aux EmptyString s'
        end
      else split_ws_aux (cur +:+ String c EmptyString) s'
  end.

Definition split_ws (s : string) : list string := split_ws_aux EmptyString s.

(** [sub in s]. *)
Fixpoint contains (sub s : string) : bool :=
  String.prefix sub s ||
  match s with
  | EmptyString => false
  | String _ s' => contains sub s'
  end.

Fixpoint spaces (n : nat) : string :=
  match n with
  | O => EmptyString
  | S n' => String " " (spaces n')
  end.

(** [format(s, '<w')] / [format(s, 'w')] on a string: pad on the right with
    spaces up to width [w]; longer strings are not cut. *)
Definition ljust (w : nat) (s : string) : string :=
  s +:+ spaces (w - String.length s).

(** [format(s, '>w')]: pad on the left with spaces up to width [w]. *)
Definition rjust (w : nat) (s : string) : string :=
  spaces (w - String.length s) +:+ s.

(** *** [int(s)] on a string

    Blanks around the literal are ignored; an optional sign is followed by
    decimal digits, with single underscores allowed between digits (Python
    3.6 and later).  Anything else is a [ValueError].

    The blanks that [int] ignores are not those of [str.strip]: they are the
    six of C's [isspace] (TAB to CR, and the space), and NEL (0x85) and NBSP
    (0xa0), which [int] turns into spaces first in text that is not pure
    ASCII.  The separators 0x1c to 0x1f are no blanks here: [int] raises
    [ValueError] on a literal that one of them precedes or follows. *)
Definition int_isspace (c : ascii) : bool :=
  let n := ord c in
  ((9 <=? n)%nat && (n <=? 13)%nat) || (n =? 32)%nat
  || (n =? 133)%nat || (n =? 160)%nat.

Fixpoint int_lstrip (s : string) : string :=
  match s with
  | String c s' => if int_isspace c then int_lstrip s' else s
  | EmptyString => EmptyString
  end.

Fixpoint int_rstrip (s : string) : string :=
  match s with
  | EmptyString => EmptyString
  | String c s' =>
      match int_rstrip s' with
      | EmptyString => if int_isspace c then EmptyString else String c EmptyString
      | t => String c t
      end
  end.

Fixpoint int_digits (acc : Z) (after_digit : bool) (s : string) : option Z :=
  match s with
  | EmptyString => if after_digit then Some acc else None
  | String c s' =>
      if isdigit c then int_digits (10 * acc + digit_value c) true s'
      else if Ascii.eqb c "_" then
        if after_digit then int_digits acc false s' else None
      else None
  end.

Definition int_literal (s : string) : option Z :=
  match s with
  | String "+" r => int_digits 0 false r
  | String "-" r => Z.opp <$> int_digits 0 false r
  | _ => int_digits 0 false s
  end.

(** The number of decimal digits of a literal. *)
Fixpoint count_digits (s : string) : nat :=
  match s with
  | EmptyString => O
  | String c s' => if isdigit c then S (count_digits s') else count_digits s'
  end.

(** [sys.get_int_max_str_digits()] as CPython 3.11 and later set it by
    default: a decimal literal with more digits is a [ValueError]. *)
Definition int_max_str_digits : nat := 4300.

Definition int (s : string) : res Z :=
  let literal := int_rstrip (int_lstrip s) in
  match int_literal literal with
  | Some z =>
      if (int_max_str_digits <? count_digits literal)%nat then Raise ValueError
      else Ok z
  | None => Raise ValueError
  end.

End Py.

Import Py.
Local Open Scope res_scope.

(** ** The environment: external commands, clock, locale and output streams *)

(** [datetime]: the fields of a [datetime.datetime] value. *)
Record datetime : Type := Datetime {
  year : nat; month : nat; day : nat;
  hour : nat; minute : nat; second : nat; microsecond : nat
}.

(** The process locale's [LC_TIME] category, as the code uses it:
    [locale.nl_langinfo(locale.D_T_FMT)] and the C library's [strftime]. *)
Record Locale : Type := {
  D_T_FMT : string;
  strftime : datetime -> string -> string
}.

(** The file objects the code writes to. *)
Inductive file : Type :=
  | sys_stdout
  | sys_stderr
  | StringIO.

#[global] Instance file_eq_dec : EqDecision file.
Proof. solve_decision. Defined.

(** What the code reads from outside: the decoded output of the two
    [nvidia-smi] queries and of [ps] (given the pids it is asked about), each
    of which may fail with [CalledProcessError]; the host name; the clock; the
    locale. *)
Record Env : Type := {
  nvidia_smi_query_gpu : res string;
  nvidia_smi_query_compute_apps : res string;
  ps : list Z -> res string;
  platform_node : string;
  datetime_now : datetime;
  lc_time : Locale
}.

(** One [write] call on a file object. *)
Definition output := list (file * string).

(** Computations that read the environment, write to files and may raise.
    What was written before an exception stays written. *)
Definition M (A : Type) : Type := Env -> output * res A.

Definition ret {A} (a : A) : M A := fun _ => ([], Ok a).

Definition bind {A B} (m : M A) (k : A -> M B) : M B :=
  fun env =>
    match m env with
    | (o1, Ok a) => let '(o2, r) := k a env in (o1 ++ o2, r)
    | (o1, Raise e) => (o1, Raise e)
    end.

Definition lift {A} (r : res A) : M A := fun _ => ([], r).
Definition ask {A} (f : Env -> A) : M A := fun env => ([], Ok (f env)).
Definition call {A} (f : Env -> res A) : M A := fun env => ([], f env).
Definition write (fp : file) (s : string) : M unit := fun _ => ([(fp, s)], Ok tt).

Declare Scope m_scope.
Delimit Scope m_scope with M.
Notation "x <- m ;; k" := (bind m (fun x => k))
  (at level 100, m at next level, right associativity) : m_scope.
Notation "m ;;; k" := (bind m (fun _ => k))
  (at level 100, right associativity) : m_scope.

(** [for x in l: body(x)]. *)
Fixpoint for_each {A} (l : list A) (body : A -> M unit) : M unit :=
  match l with
  | [] => ret tt
  | x :: l' => bind (body x) (fun _ => for_each l' body)
  end.

(** Everything written to [fp], in order. *)
Definition written (fp : file) (o : output) : string :=
  String.concat EmptyString (snd <$> filter (fun w => fst w = fp) o).

(** ** [ANSIColors] *)

Module ANSIColors.
Definition ESC : ascii := "027"%char.
Definition RESET : string := String ESC "[0m".
Definition WHITE : string := String ESC "[1m".
Definition RED : string := String ESC "[0;31m".
Definition GREEN : string := String ESC "[0;32m".
Definition YELLOW : string := String ESC "[0;33m".
Definition BLUE : string := String ESC "[0;34m".
Definition MAGENTA : string := String ESC "[0;35m".
Definition CYAN : string := String ESC "[0;36m".
Definition GRAY : string := String ESC "[1;30m".
Definition BOLD_RED : string := String ESC "[1;31m".
Definition BOLD_GREEN : string := String ESC "[1;32m".
Definition BOLD_YELLOW : string := String ESC "[1;33m".

Definition wrap (color msg : string) : string := color +:+ msg +:+ RESET.

(** The colour constants of [ANSIColors.__dict__].  The other entries of the
    class dictionary ([wrap], [__module__], [__doc__], ...) are not modelled:
    the header template reads [WHITE] and [RESET] only, and the statements
    about the header are made for host names and time strings that name no
    key. *)
Definition __dict__ : gmap string string :=
  list_to_map [
    ("RESET", RESET); ("WHITE", WHITE); ("RED", RED); ("GREEN", GREEN);
    ("YELLOW", YELLOW); ("BLUE", BLUE); ("MAGENTA", MAGENTA); ("CYAN", CYAN);
    ("GRAY", GRAY); ("BOLD_RED", BOLD_RED); ("BOLD_GREEN", BOLD_GREEN);
    ("BOLD_YELLOW", BOLD_YELLOW) ].
End ANSIColors.

(** ** [GPUStat]: one device and the processes attached to it *)

Record GPUStat : Type := {
  entry : gmap string string;
  processes : list (gmap string string)
}.

(** [GPUStat(entry)]: the process list starts empty. *)
Definition GPUStat_init (e : gmap string string) : GPUStat :=
  {| entry := e; processes := [] |}.

(** The [uuid] property: [self.entry['uuid']]. *)
Definition uuid (self : GPUStat) : res string := getitem (entry self) "uuid".

(** [add_process]: append to the device's process list. *)
Definition add_process (p : gmap string string) (self : GPUStat) : GPUStat :=
  {| entry := entry self; processes := processes self ++ [p] |}.

(** The [colors] dictionary of [print_to]; its keys are fixed. *)
Record Colors : Type := {
  C0 : string; C1 : string; CName : string; CTemp : string;
  CMemU : string; CMemT : string; CMemP : string; CUser : string;
  CUtil : string
}.

(** Lines 63-80 of [print_to]: the colour of the temperature and utilization
    tokens follows the readings (both are parsed even when colours are off);
    without colours every entry becomes the empty string. *)
Definition color_settings (e : gmap string string) (with_colors : bool) : res Colors :=
  t <- getitem e "temperature.gpu" ;;
  t <- int t ;;
  u <- getitem e "utilization.gpu" ;;
  u <- int u ;;
  let colors := {|
    C0 := ANSIColors.RESET;
    C1 := ANSIColors.CYAN;
    CName := ANSIColors.BLUE;
    CTemp := if (t <? 50)%Z then ANSIColors.RED else ANSIColors.BOLD_RED;
    CMemU := ANSIColors.BOLD_YELLOW;
    CMemT := ANSIColors.YELLOW;
    CMemP := ANSIColors.YELLOW;
    CUser := ANSIColors.GRAY;
    CUtil := if (u <? 30)%Z then ANSIColors.GREEN else ANSIColors.BOLD_GREEN
  |} in
  Ok (if with_colors then colors
      else {| C0 := EmptyString; C1 := EmptyString; CName := EmptyString;
              CTemp := EmptyString; CMemU := EmptyString; CMemT := EmptyString;
              CMemP := EmptyString; CUser := EmptyString; CUtil := EmptyString |}).

(** Lines 83-89: the template after [% colors] and [.format(entry=...,
    gpuname_width=...)], followed by [" |"].  [gpuname_width] is a
    non-negative integer. *)
Definition device_repr (colors : Colors) (e : gmap string string)
    (gpuname_width : nat) : res string :=
  index <- getitem e "index" ;;
  name <- getitem e "name" ;;
  temp <- getitem e "temperature.gpu" ;;
  util <- getitem e "utilization.gpu" ;;
  mem_used <- getitem e "memory.used" ;;
  mem_total <- getitem e "memory.total" ;;
  Ok (C1 colors +:+ "[" +:+ index +:+ "]" +:+ C0 colors +:+ " "
      +:+ CName colors +:+ ljust gpuname_width name +:+ C0 colors +:+ " |"
      +:+ CTemp colors +:+ rjust 3 temp +:+ "'C" +:+ C0 colors +:+ ", "
      +:+ CUtil colors +:+ rjust 3 util +:+ " %" +:+ C0 colors +:+ " | "
      +:+ C1 colors +:+ CMemU colors +:+ rjust 5 mem_used +:+ C0 colors +:+ " / "
      +:+ CMemT colors +:+ rjust 5 mem_total +:+ C0 colors +:+ " MB"
      +:+ " |").

(** [bool(r)] for a string. *)
Definition nonempty (r : string) : bool :=
  match r with EmptyString => false | _ => true end.

(** Lines 91-101, the local function [process_repr].  [p.get('comm', p['pid'])]
    reads [p['pid']] before the lookup of ['comm']. *)
Definition process_repr (colors : Colors) (show_cmd show_user show_pid : bool)
    (p : gmap string string) : res string :=
  let r := EmptyString in
  r <- (if negb show_cmd || show_user then
          user <- getitem p "user" ;;
          Ok (r +:+ CUser colors +:+ user +:+ C0 colors)
        else Ok r) ;;
  r <- (if show_cmd then
          let r := if nonempty r then r +:+ ":" else r in
          pid <- getitem p "pid" ;;
          Ok (r +:+ C1 colors +:+ default pid (p !! "comm") +:+ C0 colors)
        else Ok r) ;;
  r <- (if show_pid then
          pid <- getitem p "pid" ;;
          Ok (r +:+ "/" +:+ pid)
        else Ok r) ;;
  used_memory <- getitem p "used_memory" ;;
  Ok (r +:+ "(" +:+ CMemP colors +:+ used_memory +:+ "M" +:+ C0 colors +:+ ")").

(** The string [reps] that [print_to] builds (lines 62-104). *)
Definition print_to_reps (self : GPUStat)
    (with_colors show_cmd show_user show_pid : bool) (gpuname_width : nat)
    : res string :=
  colors <- color_settings (entry self) with_colors ;;
  reps <- device_repr colors (entry self) gpuname_width ;;
  rfold (fun reps p =>
           t <- process_repr colors show_cmd show_user show_pid p ;;
           Ok (reps +:+ " " +:+ t))
        reps (processes self).

(** [print_to]: build the line, write it to [fp] in one call, return [fp]. *)
Definition print_to (self : GPUStat) (fp : file)
    (with_colors show_cmd show_user show_pid : bool) (gpuname_width : nat)
    : M file :=
  (reps <- lift (print_to_reps self with_colors show_cmd show_user show_pid
                   gpuname_width) ;;
   write fp reps ;;;
   ret fp)%M.

(** [__repr__]: [print_to(StringIO()).getvalue()] with the default arguments. *)
Definition GPUStat_repr (self : GPUStat) : res string :=
  print_to_reps self true false false false 16.

(** ** Insertion-ordered dictionaries

    [OrderedDict] (and the plain [dict] where the order of its keys is used):
    a list of key/value pairs with distinct keys, in order of first insertion.
    Assigning to a key that is present replaces the value in place. *)

Section odict.
Context {K V : Type} `{EqDecision K}.

Fixpoint od_get (k : K) (d : list (K * V)) : option V :=
  match d with
  | [] => None
  | (k', v) :: d' => if decide (k = k') then Some v else od_get k d'
  end.

(** [d[k] = v]. *)
Fixpoint od_set (k : K) (v : V) (d : list (K * V)) : list (K * V) :=
  match d with
  | [] => [(k, v)]
  | (k', v') :: d' =>
      if decide (k = k') then (k', v) :: d' else (k', v') :: od_set k v d'
  end.

Definition od_keys (d : list (K * V)) : list K := fst <$> d.
Definition od_values (d : list (K * V)) : list V := snd <$> d.
End odict.

(** ** [GPUStatCollection]: the snapshot *)

Record GPUStatCollection : Type := {
  gpus : list (string * GPUStat);
  hostname : string;
  query_time : datetime
}.

(** [zip(columns, values)] read into a dict, each value stripped. *)
Definition row_dict (columns : list string) (query_results : list string)
    : gmap string string :=
  list_to_map (zip columns (strip <$> query_results)).

Definition gpu_query_columns : list string :=
  ["index"; "uuid"; "name"; "temperature.gpu"; "utilization.gpu";
   "memory.used"; "memory.total"].

Definition process_query_columns : list string :=
  ["gpu_uuid"; "pid"; "used_memory"].

(** The non-empty lines of a command's output as dicts (lines 144-151 and
    164-171). *)
Definition parse_rows (columns : list string) (smi_output : string)
    : list (gmap string string) :=
  (fun line => row_dict columns (split "," line))
    <$> filter (fun line => nonempty line = true) (split NL smi_output).

(** Line 173: [{int(e['pid']) : None for e in process_entries}]. *)
Definition pid_map_init (process_entries : list (gmap string string))
    : res (list (Z * option (gmap string string))) :=
  rfold (fun pid_map e =>
           pid <- getitem e "pid" ;;
           pid <- int pid ;;
           Ok (od_set pid None pid_map))
        [] process_entries.

(** [a, b, c = l[:3]]: exactly three values are needed. *)
Definition unpack3 (l : list string) : res (string * string * string) :=
  match l with
  | a :: b :: c :: _ => Ok (a, b, c)
  | _ => Raise ValueError
  end.

(** Lines 181-187: every line of the [ps] output that is not empty and does
    not contain ["PID"] gives the owner of one pid. *)
Definition read_pid_output (pid_map : list (Z * option (gmap string string)))
    (pid_output : string) : res (list (Z * option (gmap string string))) :=
  rfold (fun pid_map line =>
           if negb (nonempty line) || contains "PID" line then Ok pid_map
           else
             fields <- unpack3 (split_ws line) ;;
             let '(pid, user, comm) := fields in
             pid <- int pid ;;
             Ok (od_set pid (Some {[ "user" := user; "comm" := comm ]}) pid_map))
        pid_map (split NL pid_output).

(** Lines 176-187: [ps] is run only when some pid is listed. *)
Definition resolve_owners (pid_map : list (Z * option (gmap string string)))
    : M (list (Z * option (gmap string string))) :=
  match pid_map with
  | [] => ret pid_map
  | _ =>
      (pid_output <- call (fun env => ps env (od_keys pid_map)) ;;
       lift (read_pid_output pid_map (strip pid_output)))%M
  end.

(** [l.remove(x)]: drop the first element equal to [x]; [ValueError] when
    there is none.  The elements of [l] are references into [heap] and are
    compared by the values they point to, as [==] on dicts does. *)
Fixpoint list_remove (heap : list (gmap string string)) (x : gmap string string)
    (l : list nat) : res (list nat) :=
  match l with
  | [] => Raise ValueError
  | r :: l' =>
      if decide (heap !! r = Some x) then Ok l'
      else l'' <- list_remove heap x l' ;; Ok (r :: l'')
  end.

(** Lines 190-198, one iteration on the entry at reference [r].  The state is
    the heap of entry objects and the list [process_entries] of references;
    [update] changes the object in place, so the change shows in the list. *)
Definition attach_step (pid_map : list (Z * option (gmap string string)))
    (st : list (gmap string string) * list nat) (r : nat)
    : res (list (gmap string string) * list nat) :=
  let '(heap, process_entries) := st in
  match heap !! r with
  | None => Raise KeyError
  | Some process_entry =>
      pid <- getitem process_entry "pid" ;;
      pid <- int pid ;;
      match od_get pid pid_map with
      | None => Raise KeyError
      | Some None =>
          process_entries <- list_remove heap process_entry process_entries ;;
          Ok (heap, process_entries)
      | Some (Some info) =>
          Ok (<[r := info ∪ process_entry]> heap, process_entries)
      end
  end.

(** Lines 190-200: the loop runs over a copy of the list (the references
    [0 .. n-1]) and the list itself is returned. *)
Definition attach_process_information
    (pid_map : list (Z * option (gmap string string)))
    (process_entries : list (gmap string string))
    : res (list (gmap string string)) :=
  let refs := seq 0 (length process_entries) in
  st <- rfold (attach_step pid_map) (process_entries, refs) refs ;;
  let '(heap, live) := st in
  Ok (omap (fun r => heap !! r) live).

(** Lines 173-200 of [running_processes], from the parsed rows on. *)
Definition running_processes_from (process_entries : list (gmap string string))
    : M (list (gmap string string)) :=
  (pid_map <- lift (pid_map_init process_entries) ;;
   pid_map <- resolve_owners pid_map ;;
   lift (attach_process_information pid_map process_entries))%M.

(** [running_processes]. *)
Definition running_processes : M (list (gmap string string)) :=
  (smi_output <- call nvidia_smi_query_compute_apps ;;
   running_processes_from (parse_rows process_query_columns smi_output))%M.

(** The loop of [update_process_information] (lines 204-210).  [g] is the
    local variable of that name: unbound at first, and left as it was when the
    lookup raises [KeyError] (either [p] has no ['gpu_uuid'] or [self.gpus]
    has no such key), because the [except] clause only passes.  It refers to
    an object held in [self.gpus], named here by its key. *)
Fixpoint attach_processes (gpus : list (string * GPUStat)) (g : option string)
    (processes : list (gmap string string)) : res (list (string * GPUStat)) :=
  match processes with
  | [] => Ok gpus
  | p :: processes' =>
      let g :=
        match p !! "gpu_uuid" with
        | Some u => match od_get u gpus with
                    | Some _ => Some u
                    | None => g
                    end
        | None => g
        end in
      match g with
      | None => Raise UnboundLocalError
      | Some k =>
          match od_get k gpus with
          | Some obj => attach_processes (od_set k (add_process p obj) gpus) g processes'
          | None => Raise KeyError
          end
      end
  end.

(** [update_process_information]. *)
Definition update_process_information (gpus : list (string * GPUStat))
    : M (list (string * GPUStat)) :=
  (processes <- running_processes ;;
   lift (attach_processes gpus None processes))%M.

(** Lines 121-123: [self.gpus[g.uuid] = g] for every [g] of [gpu_list]. *)
Definition collect_gpus (gpu_list : list GPUStat) : res (list (string * GPUStat)) :=
  rfold (fun gpus g => u <- uuid g ;; Ok (od_set u g gpus)) [] gpu_list.

(** [GPUStatCollection.__init__]. *)
Definition GPUStatCollection_init (gpu_list : list GPUStat) : M GPUStatCollection :=
  (gpus <- lift (collect_gpus gpu_list) ;;
   gpus <- update_process_information gpus ;;
   hostname <- ask platform_node ;;
   query_time <- ask datetime_now ;;
   ret {| gpus := gpus; hostname := hostname; query_time := query_time |})%M.

(** [GPUStatCollection.new_query]. *)
Definition new_query : M GPUStatCollection :=
  (smi_output <- call nvidia_smi_query_gpu ;;
   let gpu_list := GPUStat_init <$> parse_rows gpu_query_columns (strip smi_output) in
   GPUStatCollection_init gpu_list)%M.

(** [__len__], [__iter__]. *)
Definition GPUStatCollection_len (self : GPUStatCollection) : nat := length (gpus self).
Definition GPUStatCollection_iter (self : GPUStatCollection) : list GPUStat :=
  od_values (gpus self).

(** *** The [%] operator with a mapping on the right

    Modelled for the two forms the header template uses: [%%] and
    [%(key)s].  A key is looked up when its closing parenthesis is read
    (nested parentheses are counted).  Every other conversion specification
    (a flag, a width, another conversion type, a conversion without a key)
    is outside the model, which answers [ValueError] there; Python formats
    some of them and raises [TypeError] on others.  The statements about the
    header are therefore made for host names and time strings in which
    every [%] is doubled, where the model and Python agree. *)
Inductive pstate : Type :=
  | PLit
  | PPercent
  | PKey (key : string) (depth : nat)
  | PConv (value : string).

Fixpoint percent_scan (d : string -> res string) (st : pstate) (s : string)
    : res string :=
  match s with
  | EmptyString =>
      match st with PLit => Ok EmptyString | _ => Raise ValueError end
  | String c s' =>
      match st with
      | PLit =>
          if Ascii.eqb c "%" then percent_scan d PPercent s'
          else r <- percent_scan d PLit s' ;; Ok (String c r)
      | PPercent =>
          if Ascii.eqb c "%" then r <- percent_scan d PLit s' ;; Ok (String "%" r)
          else if Ascii.eqb c "(" then percent_scan d (PKey EmptyString 0) s'
          else Raise ValueError
      | PKey key depth =>
          if Ascii.eqb c ")" then
            match depth with
            | O => v <- d key ;; percent_scan d (PConv v) s'
            | S depth' => percent_scan d (PKey (key +:+ ")") depth') s'
            end
          else if Ascii.eqb c "(" then percent_scan d (PKey (key +:+ "(") (S depth)) s'
          else percent_scan d (PKey (key +:+ String c EmptyString) depth) s'
      | PConv v =>
          if Ascii.eqb c "s" then r <- percent_scan d PLit s' ;; Ok (v +:+ r)
          else Raise ValueError
      end
  end.

Definition percent_format (d : string -> res string) (s : string) : res string :=
  percent_scan d PLit s.

(** The mapping of the header: [defaultdict(str)] without colours,
    [ANSIColors.__dict__] with them. *)
Definition header_colors (no_color : bool) (key : string) : res string :=
  if no_color then Ok EmptyString else getitem ANSIColors.__dict__ key.

(** Lines 233-238: the template is filled by [format] first, and the result
    (host name and time string included) then goes through [%]. *)
Definition header_msg (lc : Locale) (self : GPUStatCollection) (no_color : bool)
    : res string :=
  let time_format := D_T_FMT lc in
  let timestr := strftime lc (query_time self) time_format in
  percent_format (header_colors no_color)
    ("%(WHITE)s" +:+ hostname self +:+ "%(RESET)s  " +:+ timestr).

(** [print(s)]: the text, then the newline, in two calls of
    [sys.stdout.write]. *)
Definition print (s : string) : M unit :=
  (write sys_stdout s ;;; write sys_stdout (String NL EmptyString))%M.

(** [max([16] + [len(g.entry['name']) for g in self])]. *)
Definition auto_gpuname_width (self : GPUStatCollection) : res nat :=
  names <- rmap (fun g => getitem (entry g) "name") (GPUStatCollection_iter self) ;;
  Ok (foldr Nat.max 0%nat (16%nat :: (String.length <$> names))).

(** [print_formatted].  The header goes to [sys.stdout] through [print], the
    device lines to [fp]. *)
Definition print_formatted (self : GPUStatCollection) (fp : file)
    (no_color show_cmd show_user show_pid : bool) : M unit :=
  (lc <- ask lc_time ;;
   header <- lift (header_msg lc self no_color) ;;
   print header ;;;
   gpuname_width <- lift (auto_gpuname_width self) ;;
   for_each (GPUStatCollection_iter self) (fun g =>
     print_to g fp (negb no_color) show_cmd show_user show_pid gpuname_width ;;;
     write fp (String NL EmptyString)))%M.

(** [try: m except exc: handler]. *)
Definition try_except {A} (m : M A) (catches : exc -> bool) (handler : M A) : M A :=
  fun env =>
    match m env with
    | (o, Raise e) =>
        if catches e then let '(o', r) := handler env in (o ++ o', r)
        else (o, Raise e)
    | ok => ok
    end.

Definition sys_exit {A} (code : Z) : M A := lift (Raise (SystemExit code)).

(** [print_gpustat] of [src/gpustat.py]. *)
Definition print_gpustat (no_color show_cmd show_user show_pid : bool) : M unit :=
  (gpu_stats <- try_except new_query
       (fun e => match e with CalledProcessError => true | _ => false end)
       (write sys_stderr ("Error on calling nvidia-smi" +:+ String NL EmptyString) ;;;
        sys_exit 1) ;;
   print_formatted gpu_stats sys_stdout no_color show_cmd show_user show_pid)%M.

(** ** [src/gpustat/cli.py]

    The command line front end of the later version.  Its collaborators
    ([gpustat.core.GPUStatCollection], [blessed.Terminal], [time]) are not in
    the repository's files under study: their calls are recorded as events,
    and what they answer (does the query, the printing or the sleep return
    or raise, and what, what does the clock read) comes from an oracle, one
    [tick] per call of [print_gpustat].  A [KeyboardInterrupt] is one of the
    exceptions a call can raise.  Times and intervals are binary64 floats,
    with the subtraction and comparison of the machine. *)

Module cli.

(** The namespace that [parse_args] returns. *)
Record Args : Type := {
  force_color : bool;
  no_color : bool;
  show_all : bool;
  show_cmd : bool;
  show_full_cmd : bool;
  show_user : bool;
  show_pid : bool;
  show_fan_speed : bool;
  show_codec : string;
  show_power : option string;
  json : bool;
  interval : option float;   (* [None]: [-i] given without a value; 0 by default *)
  show_header : bool;
  gpuname_width : option nat;
  debug : bool;
  no_processes : bool
}.

(** The value of [eol_char] in watch mode, [term.clear_eol + os.linesep]:
    what the terminal and the platform make of it is theirs to say. *)
Inductive eol : Type :=
  | clear_eol_linesep.

(** The keyword arguments that reach [print_formatted]: the namespace without
    [show_all], [interval], [json] and [debug], and [eol_char] in watch mode. *)
Record Kwargs : Type := {
  kw_eol_char : option eol;
  kw_force_color : bool;
  kw_no_color : bool;
  kw_show_cmd : bool;
  kw_show_full_cmd : bool;
  kw_show_user : bool;
  kw_show_pid : bool;
  kw_show_fan_speed : bool;
  kw_show_codec : string;
  kw_show_power : option string;
  kw_show_header : bool;
  kw_gpuname_width : option nat;
  kw_no_processes : bool
}.

Definition kwargs_of (eol_char : option eol) (args : Args) : Kwargs := {|
  kw_eol_char := eol_char;
  kw_force_color := force_color args;
  kw_no_color := no_color args;
  kw_show_cmd := show_cmd args;
  kw_show_full_cmd := show_full_cmd args;
  kw_show_user := show_user args;
  kw_show_pid := show_pid args;
  kw_show_fan_speed := show_fan_speed args;
  kw_show_codec := show_codec args;
  kw_show_power := show_power args;
  kw_show_header := show_header args;
  kw_gpuname_width := gpuname_width args;
  kw_no_processes := no_processes args
|}.

(** What the program does to the outside, in order. *)
Inductive event : Type :=
  | StderrWrite (s : string)
  | PrintTraceback                   (* [traceback.print_exc] is attempted *)
  | NewQuery (debug : bool)          (* [GPUStatCollection.new_query(debug=debug)] *)
  | PrintJson                        (* [gpu_stats.print_json(sys.stdout)] *)
  | PrintFormatted (kwargs : Kwargs) (* [gpu_stats.print_formatted(sys.stdout, **kwargs)] *)
  | EnterFullscreen
  | LeaveFullscreen
  | MoveCursorHome                   (* [print(term.move(0, 0), end='')] *)
  | ClearEos                         (* [print(term.clear_eos, end='')] *)
  | Sleep (seconds : float).          (* [time.sleep(seconds)] *)

(** How a call ends: it returns, raises, or is still running when the oracle
    has no more answers. *)
Inductive outcome : Type :=
  | Returns (value : option Z)
  | Raises (e : exc)
  | Running.

(** [isinstance(e, Exception)]: every exception of the model but
    [KeyboardInterrupt] and [SystemExit]. *)
Definition is_Exception (e : exc) : bool :=
  match e with
  | KeyboardInterrupt | SystemExit _ => false
  | _ => true
  end.

(** The oracle for one call of [print_gpustat] and the rest of the pass of
    the loop that makes it: the two clock readings around the call, and for
    each call of a collaborator whether it returns ([None]) or raises. *)
Record tick : Type := {
  time_before : float;      (* [time.time()] before the call *)
  query : option exc;       (* [GPUStatCollection.new_query(debug=debug)] *)
  traceback : option exc;   (* [import traceback; traceback.print_exc(...)] *)
  render : option exc;      (* [print_json] or [print_formatted] *)
  time_after : float;       (* [time.time()] after the call *)
  sleep : option exc        (* [time.sleep(sleep_duration)] *)
}.

(** [x > y] on floats. *)
Definition gt (x y : float) : bool := PrimFloat.ltb y x.

(** [max(a, b)]: the first argument unless the second is greater. *)
Definition py_max (a b : float) : float := if gt b a then b else a.

(** [print_gpustat(json=..., debug=..., **kwargs)].  [except Exception]
    catches the exceptions of the query that are instances of [Exception]:
    the message goes to the standard error and the program exits with status
    1, unless printing the traceback under [--debug] raises an [Exception]
    in turn, which makes the handler raise the exception of the query again.
    What the printing of the snapshot raises is not caught. *)
Definition print_gpustat (json debug : bool) (kwargs : Kwargs) (t : tick)
    : list event * outcome :=
  match query t with
  | Some e =>
      if is_Exception e then
        let message :=
          StderrWrite ("Error on querying NVIDIA devices. Use --debug flag for details"
                       +:+ String NL EmptyString) in
        if debug then
          ([NewQuery debug; message; PrintTraceback],
           match traceback t with
           | None => Raises (SystemExit 1)
           | Some e' => if is_Exception e' then Raises e else Raises e'
           end)
        else ([NewQuery debug; message], Raises (SystemExit 1))
      else ([NewQuery debug], Raises e)
  | None =>
      ([NewQuery debug; if json then PrintJson else PrintFormatted kwargs],
       match render t with
       | None => Returns None
       | Some e => Raises e
       end)
  end.

(** The body of [while 1] in [loop_gpustat], then the rest of the loop.
    [KeyboardInterrupt] makes the function return 0; any other exception
    leaves it (and the full-screen context). *)
Fixpoint loop_body (interval : float) (json debug : bool) (kwargs : Kwargs)
    (ticks : list tick) : list event * outcome :=
  match ticks with
  | [] => ([], Running)
  | t :: ticks' =>
      let query_start := time_before t in
      let '(ev, out) := print_gpustat json debug kwargs t in
      match out with
      | Raises KeyboardInterrupt => (MoveCursorHome :: ev, Returns (Some 0%Z))
      | Raises e => (MoveCursorHome :: ev, Raises e)
      | _ =>
          let query_duration := PrimFloat.sub (time_after t) query_start in
          let sleep_duration := PrimFloat.sub interval query_duration in
          if gt sleep_duration 0 then
            match sleep t with
            | Some KeyboardInterrupt =>
                (MoveCursorHome :: ev ++ [ClearEos; Sleep sleep_duration],
                 Returns (Some 0%Z))
            | Some e =>
                (MoveCursorHome :: ev ++ [ClearEos; Sleep sleep_duration], Raises e)
            | None =>
                let '(ev', out') := loop_body interval json debug kwargs ticks' in
                (MoveCursorHome :: ev ++ [ClearEos; Sleep sleep_duration] ++ ev', out')
            end
          else
            let '(ev', out') := loop_body interval json debug kwargs ticks' in
            (MoveCursorHome :: ev ++ [ClearEos] ++ ev', out')
      end
  end.

(** [loop_gpustat(interval, **kwargs)]: the loop runs inside
    [term.fullscreen()], and every pass prints with
    [eol_char=term.clear_eol + os.linesep]. *)
Definition loop_gpustat (interval : float) (args : Args) (ticks : list tick)
    : list event * outcome :=
  let kwargs := kwargs_of (Some clear_eol_linesep) args in
  let '(ev, out) := loop_body interval (json args) (debug args) kwargs ticks in
  match out with
  | Running => (EnterFullscreen :: ev, Running)
  | _ => (EnterFullscreen :: ev ++ [LeaveFullscreen], out)
  end.

(** Lines 132-139 of [main]: [--show-all] switches every display option on. *)
Definition apply_show_all (args : Args) : Args :=
  if show_all args then
    {| force_color := force_color args; no_color := no_color args;
       show_all := show_all args;
       show_cmd := true; show_full_cmd := show_full_cmd args;
       show_user := true; show_pid := true; show_fan_speed := true;
       show_codec := "enc,dec"; show_power := Some "draw,limit";
       json := json args; interval := interval args;
       show_header := show_header args; gpuname_width := gpuname_width args;
       debug := debug args; no_processes := no_processes args |}
  else args.

(** Lines 141-144: the interval the program works with.  [-i] without a
    value means one second; a positive interval is raised to 0.1 at least. *)
Definition requested_interval (args : Args) : float :=
  match interval args with
  | None => 1%float
  | Some i => i
  end.

(** The float nearest to one tenth, which the literal [0.1] denotes. *)
Definition one_tenth : float := 0x1.999999999999ap-4%float.

Definition effective_interval (i : float) : float := py_max one_tenth i.

(** [main], from the parsed arguments on (lines 132-153).  Falling off the
    end of [main] returns [None]. *)
Definition main (args : Args) (ticks : list tick) : list event * outcome :=
  let args := apply_show_all args in
  let interval := requested_interval args in
  if gt interval 0 then
    let interval := effective_interval interval in
    if json args then
      ([StderrWrite ("Error: --json and --interval/-i can't be used together."
                     +:+ String NL EmptyString)],
       Raises (SystemExit 1))
    else
      let '(ev, out) := loop_gpustat interval args ticks in
      match out with
      | Returns _ => (ev, Returns None)
      | _ => (ev, out)
      end
  else
    match ticks with
    | [] => ([], Running)
    | t :: _ =>
        print_gpustat (json args) (debug args) (kwargs_of None args) t
    end.

(** The snapshot queries of a run. *)
Definition is_query (e : event) : bool :=
  match e with NewQuery _ => true | _ => false end.

Definition queries (ev : list event) : list event := List.filter is_query ev.

End cli.

(** * Vocabulary of the statements

    Closed forms and predicates in which the properties below are stated. *)

(** The process token as the specification describes it, part by part, with
    the separator on its own: [user][:][cmd][/pid](<used_memory>M). *)
Definition process_token (colors : Colors) (show_cmd show_user show_pid : bool)
    (user cmd pid used_memory : string) : string :=
  let user_part :=
    if show_cmd && negb show_user then EmptyString
    else CUser colors +:+ user +:+ C0 colors in
  let separator :=
    if show_cmd && nonempty user_part then ":" else EmptyString in
  let cmd_part :=
    if show_cmd then C1 colors +:+ cmd +:+ C0 colors else EmptyString in
  let pid_part := if show_pid then "/" +:+ pid else EmptyString in
  user_part +:+ separator +:+ cmd_part +:+ pid_part
  +:+ "(" +:+ CMemP colors +:+ used_memory +:+ "M" +:+ C0 colors +:+ ")".

(** The [colors] dictionary when colours are off. *)
Definition no_colors : Colors :=
  {| C0 := EmptyString; C1 := EmptyString; CName := EmptyString;
     CTemp := EmptyString; CMemU := EmptyString; CMemT := EmptyString;
     CMemP := EmptyString; CUser := EmptyString; CUtil := EmptyString |}.

(** The colour of the temperature token, given the reading. *)
Definition temperature_color (t : Z) : string :=
  if (50 <=? t)%Z then ANSIColors.BOLD_RED else ANSIColors.RED.

(** The colour of the utilization token, given the reading. *)
Definition utilization_color (u : Z) : string :=
  if (30 <=? u)%Z then ANSIColors.BOLD_GREEN else ANSIColors.GREEN.

(** The distinct elements of a list, in order of first occurrence. *)
Fixpoint first_occurrences {K} `{EqDecision K} (l : list K) : list K :=
  match l with
  | [] => []
  | k :: l' => k :: filter (fun k' => k' <> k) (first_occurrences l')
  end.

(** Assigning a run of key/value pairs, as a [for] loop does. *)
Definition od_set_all {K V} `{EqDecision K} (d : list (K * V)) (kvs : list (K * V))
    : list (K * V) :=
  foldl (fun d kv => od_set kv.1 kv.2 d) d kvs.

(** The pid of a process row. *)
Definition pid_of (e : gmap string string) : res Z :=
  pid <- getitem e "pid" ;; int pid.

(** What [pid_map] says about the owner of a row: [Some (Some info)] when
    resolved, [Some None] when the pid is listed without an owner. *)
Definition owner_of (pid_map : list (Z * option (gmap string string)))
    (e : gmap string string) : option (option (gmap string string)) :=
  match pid_of e with
  | Ok pid => od_get pid pid_map
  | Raise _ => None
  end.

(** A row after the join: a resolved row is updated with its owner's fields,
    any other row is dropped. *)
Definition with_owner (pid_map : list (Z * option (gmap string string)))
    (e : gmap string string) : option (gmap string string) :=
  match owner_of pid_map e with
  | Some (Some info) => Some (info ∪ e)
  | _ => None
  end.

(** The entry objects once the loop of lines 190-198 has gone over the rows
    [l]. *)
Definition heap_after (pid_map : list (Z * option (gmap string string)))
    (l : list (gmap string string)) : list (gmap string string) :=
  (fun e => default e (with_owner pid_map e)) <$> l.

(** The references still in [process_entries] among those of the rows [l],
    which start at reference [start]. *)
Fixpoint live_of (pid_map : list (Z * option (gmap string string)))
    (start : nat) (l : list (gmap string string)) : list nat :=
  match l with
  | [] => []
  | e :: l' =>
      match with_owner pid_map e with
      | Some _ => start :: live_of pid_map (S start) l'
      | None => live_of pid_map (S start) l'
      end
  end.

(** Does the text contain the escape character, with which every ANSI escape
    sequence starts? *)
Fixpoint has_esc (s : string) : bool :=
  match s with
  | EmptyString => false
  | String c s' => Ascii.eqb c ANSIColors.ESC || has_esc s'
  end.

(** All the text fields of a dict are free of escape characters. *)
Definition plain_dict (d : gmap string string) : Prop :=
  map_Forall (fun _ v => has_esc v = false) d.

(** A device whose entry and processes are free of escape characters. *)
Definition plain_device (g : GPUStat) : Prop :=
  plain_dict (entry g) /\ Forall plain_dict (processes g).

(** The fields that [print_to] reads from the device entry: six columns, of
    which the temperature and the utilization must be integers. *)
Definition renderable_entry (e : gmap string string) : Prop :=
  is_Some (e !! "index") /\ is_Some (e !! "name")
  /\ is_Some (e !! "memory.used") /\ is_Some (e !! "memory.total")
  /\ (exists temp t, e !! "temperature.gpu" = Some temp /\ int temp = Ok t)
  /\ (exists util u, e !! "utilization.gpu" = Some util /\ int util = Ok u).

(** The fields that [process_repr] reads from a process, given the options. *)
Definition renderable_process (show_cmd show_user show_pid : bool)
    (p : gmap string string) : Prop :=
  (negb show_cmd || show_user = true -> is_Some (p !! "user"))
  /\ (show_cmd || show_pid = true -> is_Some (p !! "pid"))
  /\ is_Some (p !! "used_memory").

(** Every [%] of the text is followed by a second one: the text holds no
    conversion specification but [%%]. *)
Fixpoint percent_escaped (s : string) : bool :=
  match s with
  | EmptyString => true
  | String c s' =>
      if Ascii.eqb c "%" then
        match s' with
        | String c' s'' => Ascii.eqb c' "%" && percent_escaped s''
        | EmptyString => false
        end
      else percent_escaped s'
  end.

(** The text with every [%%] turned into [%]. *)
Fixpoint unescape_percent (s : string) : string :=
  match s with
  | EmptyString => EmptyString
  | String c s' =>
      if Ascii.eqb c "%" then
        match s' with
        | String _ s'' => String "%" (unescape_percent s'')
        | EmptyString => String "%" EmptyString
        end
      else String c (unescape_percent s')
  end.

(** The header for a host name and a time string: the host name in bold
    (with colours), two spaces, the time string. *)
Definition header_text (no_color : bool) (hostname timestr : string) : string :=
  (if no_color then EmptyString else ANSIColors.WHITE)
  +:+ unescape_percent hostname
  +:+ (if no_color then EmptyString else ANSIColors.RESET)
  +:+ "  " +:+ unescape_percent timestr.

(** The writes that put the lines [lines] on [fp], each followed by a
    newline. *)
Definition device_lines (fp : file) (lines : list string) : output :=
  lines ≫= (fun line => [(fp, line); (fp, String NL EmptyString)]).

(** The lines of the devices before the first that [line_of] cannot render,
    and how the loop over the devices ends: with the exception of that
    device, or normally. *)
Fixpoint render_lines (line_of : GPUStat -> res string) (devices : list GPUStat)
    : list string * res unit :=
  match devices with
  | [] => ([], Ok tt)
  | g :: devices' =>
      match line_of g with
      | Ok line =>
          let '(lines, r) := render_lines line_of devices' in (line :: lines, r)
      | Raise e => ([], Raise e)
      end
  end.

(** What [print_formatted] writes and how it ends, as a function of the
    snapshot, the file, the options and the time string: the header and a
    newline on [sys.stdout], then on [fp] the lines of the devices. *)
Definition render (timestr : string) (self : GPUStatCollection) (fp : file)
    (no_color show_cmd show_user show_pid : bool) : output * res unit :=
  let header := header_text no_color (hostname self) timestr in
  match auto_gpuname_width self with
  | Raise e =>
      ([(sys_stdout, header); (sys_stdout, String NL EmptyString)], Raise e)
  | Ok w =>
      let '(lines, r) :=
        render_lines
          (fun g => print_to_reps g (negb no_color) show_cmd show_user show_pid w)
          (GPUStatCollection_iter self) in
      ((sys_stdout, header) :: (sys_stdout, String NL EmptyString)
         :: device_lines fp lines, r)
  end.

(** A result of rounding has the sign it was given, or is not a number. *)
Definition signed_or_nan (s : bool) (x : spec_float) : Prop :=
  match x with
  | S754_zero s' | S754_infinity s' | S754_finite s' _ _ => s' = s
  | S754_nan => True
  end.

(** The time one pass takes: [query_duration]. *)
Definition elapsed (t : cli.tick) : float :=
  PrimFloat.sub (cli.time_after t) (cli.time_before t).

(** The sleep that follows a pass, if any: [interval - elapsed] when that is
    positive. *)
Definition sleep_after (interval : float) (t : cli.tick) : option float :=
  let sleep_duration := PrimFloat.sub interval (elapsed t) in
  if PrimFloat.ltb 0 sleep_duration then Some sleep_duration else None.

(** A pass in which the query, the printing and the sleep return. *)
Definition completes (t : cli.tick) : Prop :=
  cli.query t = None /\ cli.render t = None /\ cli.sleep t = None.

(** What a pass that completes does in watch mode, in order: the cursor goes
    home, the snapshot is taken and printed, the rest of the screen is
    cleared, and then the loop sleeps, if it does. *)
Definition pass_events (interval : float) (debug : bool) (kwargs : cli.Kwargs)
    (t : cli.tick) : list cli.event :=
  [cli.MoveCursorHome; cli.NewQuery debug; cli.PrintFormatted kwargs; cli.ClearEos]
  ++ match sleep_after interval t with
     | Some d => [cli.Sleep d]
     | None => []
     end.

(** The value under [k], when there is one, is at most [n] characters long. *)
Definition at_most (n : nat) (e : gmap string string) (k : string) : Prop :=
  forall v, e !! k = Some v -> (String.length v <= n)%nat.

(** The readings of a device fit the widths the template gives them. *)
Definition readings_fit (e : gmap string string) : Prop :=
  at_most 3 e "temperature.gpu" /\ at_most 3 e "utilization.gpu"
  /\ at_most 5 e "memory.used" /\ at_most 5 e "memory.total".

(** Does the character occur in the text? *)
Fixpoint has_char (c : ascii) (s : string) : bool :=
  match s with
  | EmptyString => false
  | String c' s' => Ascii.eqb c' c || has_char c s'
  end.

(** [', '.join(fields)]: a line as [nvidia-smi --format=csv] writes it. *)
Fixpoint csv_line (fields : list string) : string :=
  match fields with
  | [] => EmptyString
  | [f] => f
  | f :: fs => f +:+ ", " +:+ csv_line fs
  end.

(** The lines of a table, each ended by a newline. *)
Definition csv_text (rows : list (list string)) : string :=
  foldr (fun row t => csv_line row +:+ String NL t) EmptyString rows.

(** A value with no comma, no newline and no blank at either end. *)
Definition csv_field (f : string) : Prop :=
  has_char "," f = false /\ has_char NL f = false /\ strip f = f.

(** A row of such values whose line is not empty. *)
Definition csv_row (row : list string) : Prop :=
  Forall csv_field row /\ nonempty (csv_line row) = true.

(** The device under key [k] with the rows of [ps] reported against [k]
    appended to its processes. *)
Definition with_processes (ps : list (gmap string string)) (kg : string * GPUStat)
    : string * GPUStat :=
  (kg.1, {| entry := entry kg.2;
            processes := processes kg.2
                         ++ filter (fun p => p !! "gpu_uuid" = Some kg.1) ps |}).

(** The same host with another [ps]. *)
Definition with_ps (env : Env) (ps' : list Z -> res string) : Env := {|
  nvidia_smi_query_gpu := nvidia_smi_query_gpu env;
  nvidia_smi_query_compute_apps := nvidia_smi_query_compute_apps env;
  ps := ps';
  platform_node := platform_node env;
  datetime_now := datetime_now env;
  lc_time := lc_time env
|}.

(** The external commands fail with [CalledProcessError] only. *)
Definition commands_raise_CalledProcessError (env : Env) : Prop :=
  (forall e, nvidia_smi_query_gpu env = Raise e -> e = CalledProcessError)
  /\ (forall e, nvidia_smi_query_compute_apps env = Raise e -> e = CalledProcessError)
  /\ (forall pids e, ps env pids = Raise e -> e = CalledProcessError).

(** [m] writes nothing in [env], and raises only exceptions of [P]. *)
Definition quiet_raising {A} (P : exc -> Prop) (m : M A) (env : Env) : Prop :=
  (m env).1 = [] /\ forall e, (m env).2 = Raise e -> P e.

(** What a query can raise. *)
Definition query_exception (e : exc) : Prop :=
  e = CalledProcessError \/ e = KeyError \/ e = ValueError \/ e = UnboundLocalError.


(** * Sample inputs

    The scenarios of the specification and a few environments and snapshots
    on which the definitions above are run. *)

(** The device of scenario A: no uuid is needed to print it. *)
Definition scenario_A_entry : gmap string string :=
  list_to_map [("index", "0"); ("name", "GPU0"); ("temperature.gpu", "45");
               ("utilization.gpu", "10"); ("memory.used", "100");
               ("memory.total", "8000")].

Definition scenario_A : GPUStat := GPUStat_init scenario_A_entry.

(** The line the code prints for scenario A: the two memory fields are
    right-aligned in five columns. *)
Definition scenario_A_line : string :=
  "[0] GPU0             | 45'C,  10 % |   100 /  8000 MB |".

(** The process of scenario B. *)
Definition scenario_B_process : gmap string string :=
  list_to_map [("pid", "123"); ("user", "alice"); ("used_memory", "50")].

Definition scenario_B : GPUStat := add_process scenario_B_process scenario_A.

(** A process with a command name, shown with [show_cmd] only. *)
Definition python_process : gmap string string :=
  list_to_map [("pid", "123"); ("user", "alice"); ("comm", "python");
               ("used_memory", "50")].

(** A device that reads [temp] degrees. *)
Definition at_temperature (temp : string) : GPUStat :=
  GPUStat_init (<["temperature.gpu" := temp]> scenario_A_entry).

(** The line of a device at 65 degrees, with colours. *)
Definition scenario_C_hot_line : string :=
  ANSIColors.wrap ANSIColors.CYAN "[0]" +:+ " "
  +:+ ANSIColors.wrap ANSIColors.BLUE "GPU0            " +:+ " |"
  +:+ ANSIColors.wrap ANSIColors.BOLD_RED " 65'C" +:+ ", "
  +:+ ANSIColors.wrap ANSIColors.GREEN " 10 %" +:+ " | "
  +:+ ANSIColors.CYAN +:+ ANSIColors.wrap ANSIColors.BOLD_YELLOW "  100" +:+ " / "
  +:+ ANSIColors.wrap ANSIColors.YELLOW " 8000" +:+ " MB |".

(** The newline, as a string. *)
Definition nl : string := String NL EmptyString.

(** Decimal digits, for the numeric directives of [strftime]. *)
Definition digit (n : nat) : ascii := chr (48 + n mod 10).

Definition two_digits (n : nat) : string :=
  String (digit (n / 10)) (String (digit n) EmptyString).

Definition four_digits (n : nat) : string :=
  two_digits (n / 100) +:+ two_digits n.

(** [strftime] for the numeric directives, which do not depend on the
    locale; any other character is copied. *)
Fixpoint strftime_numeric (d : datetime) (fmt : string) : string :=
  match fmt with
  | EmptyString => EmptyString
  | String "%" (String c rest) =>
      (if Ascii.eqb c "Y" then four_digits (year d)
       else if Ascii.eqb c "m" then two_digits (month d)
       else if Ascii.eqb c "d" then two_digits (day d)
       else if Ascii.eqb c "H" then two_digits (hour d)
       else if Ascii.eqb c "M" then two_digits (minute d)
       else if Ascii.eqb c "S" then two_digits (second d)
       else String c EmptyString)
      +:+ strftime_numeric d rest
  | String c rest => String c (strftime_numeric d rest)
  end.

(** Two locales that differ in their date and time format only. *)
Definition locale_ymd : Locale :=
  {| D_T_FMT := "%Y-%m-%d %H:%M:%S"; strftime := strftime_numeric |}.

Definition locale_dmy : Locale :=
  {| D_T_FMT := "%d.%m.%Y %H:%M:%S"; strftime := strftime_numeric |}.

(** A host with one device and two compute processes, of which [ps] knows
    one: process 456 has exited between the two queries. *)
Definition sample_env (lc : Locale) (now : datetime) : Env := {|
  nvidia_smi_query_gpu :=
    Ok ("0, GPU-aaa, GeForce GTX 1080, 65, 10, 100, 8000" +:+ nl);
  nvidia_smi_query_compute_apps :=
    Ok ("GPU-aaa, 123, 50" +:+ nl +:+ "GPU-aaa, 456, 70" +:+ nl);
  ps := fun _ => Ok ("  PID USER     COMMAND" +:+ nl +:+ "  123 alice    python" +:+ nl);
  platform_node := "host1";
  datetime_now := now;
  lc_time := lc
|}.

(** Two instants. *)
Definition noon : datetime := Datetime 2026 11 4 12 30 0 0.

Definition midnight : datetime := Datetime 2026 11 5 0 0 0 0.

(** A snapshot taken at [noon] on [host1]: the device of scenario B. *)
Definition sample_snapshot : GPUStatCollection :=
  {| gpus := [("GPU-aaa", scenario_B)]; hostname := "host1"; query_time := noon |}.

(** The same snapshot with an escape sequence in the name of the device. *)
Definition escape_named_snapshot : GPUStatCollection :=
  {| gpus := [("GPU-aaa",
               GPUStat_init (<["name" := String ANSIColors.ESC "[31mGPU0"]>
                               scenario_A_entry))];
     hostname := "host1"; query_time := noon |}.

(** The sample snapshot printed at noon and at midnight, on two hosts. *)
Definition other_host_env : Env := {|
  nvidia_smi_query_gpu := Raise CalledProcessError;
  nvidia_smi_query_compute_apps := Raise CalledProcessError;
  ps := fun _ => Raise CalledProcessError;
  platform_node := "host2";
  datetime_now := midnight;
  lc_time := locale_ymd
|}.

(** A device with a uuid, and process rows that name a device. *)
Definition gpu_aaa : GPUStat :=
  GPUStat_init (<["uuid" := "GPU-aaa"]> scenario_A_entry).

Definition gpu_bbb : GPUStat :=
  GPUStat_init (<["uuid" := "GPU-bbb"]> (<["index" := "1"]> scenario_A_entry)).

Definition process_on (gpu_uuid pid : string) : gmap string string :=
  list_to_map [("gpu_uuid", gpu_uuid); ("pid", pid); ("used_memory", "50");
               ("user", "alice"); ("comm", "python")].

(** One device, and one compute process reported against another device. *)
Definition orphan_env : Env := {|
  nvidia_smi_query_gpu :=
    Ok ("0, GPU-aaa, GeForce GTX 1080, 65, 10, 100, 8000" +:+ nl);
  nvidia_smi_query_compute_apps := Ok ("GPU-zzz, 123, 50" +:+ nl);
  ps := fun _ => Ok ("  PID USER     COMMAND" +:+ nl +:+ "  123 alice    python" +:+ nl);
  platform_node := "host1";
  datetime_now := noon;
  lc_time := locale_ymd
|}.

(** The rows of [sample_env]: process 123 has an owner, process 456 has not. *)
Definition sample_rows : list (gmap string string) :=
  parse_rows process_query_columns
    ("GPU-aaa, 123, 50" +:+ nl +:+ "GPU-aaa, 456, 70" +:+ nl).

Definition sample_pid_map : list (Z * option (gmap string string)) :=
  [(123%Z, Some {[ "user" := "alice"; "comm" := "python" ]}); (456%Z, None)].

(** [--json --interval 2]: scenario D. *)
Definition scenario_D : cli.Args := {|
  cli.force_color := false; cli.no_color := false; cli.show_all := false;
  cli.show_cmd := false; cli.show_full_cmd := false; cli.show_user := false;
  cli.show_pid := false; cli.show_fan_speed := false;
  cli.show_codec := EmptyString; cli.show_power := None;
  cli.json := true; cli.interval := Some 2%float;
  cli.show_header := true; cli.gpuname_width := None;
  cli.debug := false; cli.no_processes := false
|}.

(** A pass of the loop that takes [d] seconds, starting at time [t]: every
    call returns. *)
Definition pass (t d : float) : cli.tick :=
  {| cli.time_before := t; cli.query := None; cli.traceback := None;
     cli.render := None; cli.time_after := PrimFloat.add t d; cli.sleep := None |}.

(** The watch mode of scenario D: [--interval 0.0625] without [--json]. *)
Definition watch_args : cli.Args := {|
  cli.force_color := false; cli.no_color := false; cli.show_all := false;
  cli.show_cmd := false; cli.show_full_cmd := false; cli.show_user := false;
  cli.show_pid := false; cli.show_fan_speed := false;
  cli.show_codec := EmptyString; cli.show_power := None;
  cli.json := false; cli.interval := Some 0.0625%float;
  cli.show_header := true; cli.gpuname_width := None;
  cli.debug := false; cli.no_processes := false
|}.

(** A device for which [nvidia-smi] does not report the temperature. *)
Definition unsupported_temperature : GPUStat :=
  GPUStat_init (<["temperature.gpu" := "[Not Supported]"]> scenario_A_entry).

(** A snapshot whose second device has a name of nineteen characters. *)
Definition long_name_snapshot : GPUStatCollection :=
  {| gpus := [("GPU-aaa", gpu_aaa);
              ("GPU-ccc", GPUStat_init (<["name" := "GeForce GTX 1080 Ti"]>
                                          (<["uuid" := "GPU-ccc"]> scenario_A_entry)))];
     hostname := "host1"; query_time := noon |}.

(** The sample snapshot with a second device that has no memory figures:
    the header and the line of the first device are written, then the
    renderer raises [KeyError]. *)
Definition half_snapshot : GPUStatCollection :=
  {| gpus := [("GPU-aaa", gpu_aaa);
              ("GPU-ddd", GPUStat_init {[ "uuid" := "GPU-ddd"; "index" := "1";
                                           "name" := "GPU1";
                                           "temperature.gpu" := "40";
                                           "utilization.gpu" := "0" ]})];
     hostname := "host1"; query_time := noon |}.

(** The line of the device of [sample_env]. *)
Definition sample_gpu_row : list string :=
  ["0"; "GPU-aaa"; "GeForce GTX 1080"; "65"; "10"; "100"; "8000"].

(** Two devices, and three rows that name them in turn. *)
Definition two_gpus : list (string * GPUStat) :=
  [("GPU-aaa", gpu_aaa); ("GPU-bbb", gpu_bbb)].

Definition rows_on_two_gpus : list (gmap string string) :=
  [process_on "GPU-bbb" "1"; process_on "GPU-aaa" "2"; process_on "GPU-bbb" "3"].

(** A snapshot of [two_gpus], taken at [noon] on [host1]. *)
Definition two_gpu_snapshot : GPUStatCollection :=
  {| gpus := two_gpus; hostname := "host1"; query_time := noon |}.

(** The host of [sample_env] with no compute process, and a [ps] that fails. *)
Definition idle_env : Env := {|
  nvidia_smi_query_gpu :=
    Ok ("0, GPU-aaa, GeForce GTX 1080, 65, 10, 100, 8000" +:+ nl);
  nvidia_smi_query_compute_apps := Ok EmptyString;
  ps := fun _ => Ok EmptyString;
  platform_node := "host1";
  datetime_now := noon;
  lc_time := locale_ymd
|}.

(** A host where [nvidia-smi] fails. *)
Definition failing_env : Env := {|
  nvidia_smi_query_gpu := Raise CalledProcessError;
  nvidia_smi_query_compute_apps := Raise CalledProcessError;
  ps := fun _ => Raise CalledProcessError;
  platform_node := "host1";
  datetime_now := noon;
  lc_time := locale_ymd
|}.

(** * Properties *)

(** ** Python primitives on sample inputs *)

Example strip_ex : strip (String NL "  1234 alice  " +:+ String NL EmptyString) = "1234 alice".
Proof. reflexivity. Qed.

Example split_ex : split "," "GPU-a, 1234, 50" = ["GPU-a"; " 1234"; " 50"].
Proof. reflexivity. Qed.

Example split_ws_ex : split_ws " 1234 alice    python  " = ["1234"; "alice"; "python"].
Proof. reflexivity. Qed.

Example int_ex : int " 1_0" = Ok 10%Z /\ int "-7" = Ok (-7)%Z /\ int "4x" = Raise ValueError
  /\ int "N/A" = Raise ValueError.
Proof. repeat split; reflexivity. Qed.

Example rjust_ex : rjust 3 "45" = " 45" /\ rjust 5 "8000" = " 8000" /\ ljust 6 "GPU0" = "GPU0  "
  /\ rjust 3 "1000" = "1000".
Proof. repeat split; reflexivity. Qed.

(** [str.strip] removes the separator 0x1c, [int] does not accept it. *)
Example int_separator_ex :
  strip (String "028" "45") = "45" /\ int (String "028" "45") = Raise ValueError
  /\ int (String "009" "45" +:+ String NL EmptyString) = Ok 45%Z.
Proof. repeat split; reflexivity. Qed.

(** ** Strings *)

(** stdpp keeps [String.append] from unfolding under [simpl]; these are its
    equations. *)
Lemma append_nil_l (s : string) : EmptyString +:+ s = s.
Proof. reflexivity. Qed.

Lemma append_cons (c : ascii) (s t : string) : String c s +:+ t = String c (s +:+ t).
Proof. reflexivity. Qed.

Lemma append_assoc (a b c : string) : (a +:+ b) +:+ c = a +:+ (b +:+ c).
Proof.
  induction a as [|x a IH]; [reflexivity|].
  rewrite !append_cons. now rewrite IH.
Qed.

Lemma append_empty_r (a : string) : a +:+ EmptyString = a.
Proof.
  induction a as [|x a IH]; [reflexivity|].
  rewrite append_cons. now rewrite IH.
Qed.

Create Rewrite HintDb str.
#[local] Hint Rewrite append_assoc append_nil_l append_cons append_empty_r : str.

(** ** Rendering one device ([GPUStat.print_to]) *)

(** C3, as stated, fails: for the entry of scenario A without processes,
    colours off and width 16, the line built by [print_to] is not
    ["[0] GPU0             | 45'C,  10 % | 100 / 8000 MB |"]: the memory fields
    are padded to five columns. *)
Lemma scenario_A_line_is_padded :
  print_to_reps scenario_A false false false false 16
  = Ok "[0] GPU0             | 45'C,  10 % |   100 /  8000 MB |"
  /\ String.eqb "[0] GPU0             | 45'C,  10 % |   100 /  8000 MB |"
                "[0] GPU0             | 45'C,  10 % | 100 / 8000 MB |" = false.
Proof. split; reflexivity. Qed.

(** C3 (amended): for the entry of scenario A without processes, colours
    off and the default name width 16, [print_to] writes exactly one string to
    [fp], the line
    ["[0] GPU0             | 45'C,  10 % |   100 /  8000 MB |"], which ends
    after the [" |"] that follows the memory field: no process token comes
    after it. *)
Theorem scenario_A_renders (fp : file) (env : Env) :
  processes scenario_A = []
  /\ print_to scenario_A fp false false false false 16 env
     = ([(fp, "[0] GPU0             | 45'C,  10 % |   100 /  8000 MB |")], Ok fp).
Proof. split; reflexivity. Qed.

(** C6, as stated, fails: with show-cmd set and show-user unset the user part
    is left out and the command is appended, but no [":"] stands before it:
    the token is ["python(50M)"], not [":python(50M)"]. *)
Lemma cmd_without_user_has_no_colon :
  process_repr no_colors true false false python_process = Ok "python(50M)"
  /\ String.eqb "python(50M)" ":python(50M)" = false.
Proof. split; reflexivity. Qed.

(** C6 (amended): for every process sample that has a user, a pid and a
    used-memory field, the token is [user][:][cmd][/pid](usedMemM): the user
    part is left out exactly when show-cmd is set and show-user is not; the
    command (the ['comm'] field, or the pid when there is none) is appended
    exactly when show-cmd is set, and a [":"] stands before it exactly when
    the text built so far is not empty; [/pid] is appended exactly when
    show-pid is set; the [(<used_memory>M)] suffix is always there.  With
    colours off, the process of scenario B with show-user and show-pid set
    adds [" alice/123(50M)"] to the device line. *)
Theorem process_repr_shape (colors : Colors) (show_cmd show_user show_pid : bool)
    (p : gmap string string) (user pid used_memory : string) :
  p !! "user" = Some user ->
  p !! "pid" = Some pid ->
  p !! "used_memory" = Some used_memory ->
  process_repr colors show_cmd show_user show_pid p
  = Ok (process_token colors show_cmd show_user show_pid
          user (default pid (p !! "comm")) pid used_memory)
  /\ print_to_reps scenario_B false false true true 16
     = Ok (scenario_A_line +:+ " alice/123(50M)").
Proof.
  intros Hu Hp Hm. split; [|reflexivity].
  unfold process_repr, process_token, getitem.
  rewrite Hu, Hp, Hm.
  destruct show_cmd, show_user, show_pid; simpl;
    try destruct (CUser colors +:+ user +:+ C0 colors) eqn:E; simpl;
    autorewrite with str; reflexivity.
Qed.

(** Scenario B: show-user and show-pid, colours off. *)
Lemma process_repr_shape_scenario_B :
  process_repr no_colors false true true scenario_B_process = Ok "alice/123(50M)"
  /\ print_to_reps scenario_B false false true true 16
     = Ok "[0] GPU0             | 45'C,  10 % |   100 /  8000 MB | alice/123(50M)".
Proof.
  exact (process_repr_shape no_colors false true true scenario_B_process
           "alice" "123" "50" eq_refl eq_refl eq_refl).
Defined.

(** The process tokens are appended after the device part. *)
Lemma rfold_tokens_suffix (f : gmap string string -> res string)
    (ps : list (gmap string string)) (reps out : string) :
  rfold (fun reps p => t <- f p ;; Ok (reps +:+ " " +:+ t)) reps ps = Ok out ->
  exists tokens, out = reps +:+ tokens.
Proof.
  revert reps. induction ps as [|p ps IH]; intros reps H; simpl in H.
  - exists EmptyString. rewrite append_empty_r. congruence.
  - destruct (f p) as [t|e]; simpl in H; [|discriminate].
    destruct (IH _ H) as [tokens ->].
    exists (" " +:+ t +:+ tokens). now autorewrite with str.
Qed.

Lemma getitem_Ok (d : gmap string string) (k v : string) :
  getitem d k = Ok v <-> d !! k = Some v.
Proof. unfold getitem. destruct (d !! k); split; congruence. Qed.

(** C4: whenever a device is rendered with colours on, its temperature and
    utilization fields are integers [t] and [u], and the line consists of the
    index and name tokens, then the temperature token wrapped in bold red when
    [t >= 50] and in plain red otherwise, then the utilization token wrapped
    in bold green when [u >= 30] and in plain green otherwise, then the memory
    tokens and the process tokens.  A device at 65 degrees gets the bold red
    temperature token, one at 30 degrees the plain red one. *)
Theorem temperature_utilization_colors (self : GPUStat)
    (show_cmd show_user show_pid : bool) (gpuname_width : nat) (reps : string) :
  print_to_reps self true show_cmd show_user show_pid gpuname_width = Ok reps ->
  (exists (index name temp util mem_used mem_total tokens : string) (t u : Z),
     entry self !! "temperature.gpu" = Some temp /\ int temp = Ok t
     /\ entry self !! "utilization.gpu" = Some util /\ int util = Ok u
     /\ reps =
          ANSIColors.wrap ANSIColors.CYAN ("[" +:+ index +:+ "]") +:+ " "
          +:+ ANSIColors.wrap ANSIColors.BLUE (ljust gpuname_width name) +:+ " |"
          +:+ ANSIColors.wrap (temperature_color t) (rjust 3 temp +:+ "'C") +:+ ", "
          +:+ ANSIColors.wrap (utilization_color u) (rjust 3 util +:+ " %") +:+ " | "
          +:+ ANSIColors.CYAN
          +:+ ANSIColors.wrap ANSIColors.BOLD_YELLOW (rjust 5 mem_used) +:+ " / "
          +:+ ANSIColors.wrap ANSIColors.YELLOW (rjust 5 mem_total) +:+ " MB |"
          +:+ tokens)
  /\ temperature_color 65 = ANSIColors.BOLD_RED
  /\ temperature_color 30 = ANSIColors.RED
  /\ ANSIColors.BOLD_RED <> ANSIColors.RED
  /\ ANSIColors.BOLD_GREEN <> ANSIColors.GREEN.
Proof.
  intros H. split; [|repeat split; discriminate].
  unfold print_to_reps, color_settings in H.
  destruct (getitem (entry self) "temperature.gpu") as [temp|] eqn:Htemp;
    simpl in H; [|discriminate].
  destruct (int temp) as [t|] eqn:Ht; simpl in H; [|discriminate].
  destruct (getitem (entry self) "utilization.gpu") as [util|] eqn:Hutil;
    simpl in H; [|discriminate].
  destruct (int util) as [u|] eqn:Hu; simpl in H; [|discriminate].
  unfold device_repr in H. rewrite Htemp, Hutil in H.
  destruct (getitem (entry self) "index") as [index|]; simpl in H; [|discriminate].
  destruct (getitem (entry self) "name") as [name|]; simpl in H; [|discriminate].
  destruct (getitem (entry self) "memory.used") as [mem_used|]; simpl in H;
    [|discriminate].
  destruct (getitem (entry self) "memory.total") as [mem_total|]; simpl in H;
    [|discriminate].
  apply rfold_tokens_suffix in H as [tokens ->].
  apply getitem_Ok in Htemp, Hutil.
  exists index, name, temp, util, mem_used, mem_total, tokens, t, u.
  repeat split; try assumption.
  unfold ANSIColors.wrap, temperature_color, utilization_color.
  rewrite (Z.leb_antisym t 50), (Z.leb_antisym u 30).
  destruct (t <? 50)%Z, (u <? 30)%Z; simpl; autorewrite with str; reflexivity.
Qed.

(** A device at 65 degrees, rendered: the temperature token is bold red. *)
Lemma temperature_utilization_colors_at_65 :
  print_to_reps (at_temperature "65") true false false false 16
  = Ok scenario_C_hot_line
  /\ ((exists (index name temp util mem_used mem_total tokens : string) (t u : Z),
         entry (at_temperature "65") !! "temperature.gpu" = Some temp
         /\ int temp = Ok t
         /\ entry (at_temperature "65") !! "utilization.gpu" = Some util
         /\ int util = Ok u
         /\ scenario_C_hot_line =
              ANSIColors.wrap ANSIColors.CYAN ("[" +:+ index +:+ "]") +:+ " "
              +:+ ANSIColors.wrap ANSIColors.BLUE (ljust 16 name) +:+ " |"
              +:+ ANSIColors.wrap (temperature_color t) (rjust 3 temp +:+ "'C") +:+ ", "
              +:+ ANSIColors.wrap (utilization_color u) (rjust 3 util +:+ " %") +:+ " | "
              +:+ ANSIColors.CYAN
              +:+ ANSIColors.wrap ANSIColors.BOLD_YELLOW (rjust 5 mem_used) +:+ " / "
              +:+ ANSIColors.wrap ANSIColors.YELLOW (rjust 5 mem_total) +:+ " MB |"
              +:+ tokens)
      /\ temperature_color 65 = ANSIColors.BOLD_RED
      /\ temperature_color 30 = ANSIColors.RED
      /\ ANSIColors.BOLD_RED <> ANSIColors.RED
      /\ ANSIColors.BOLD_GREEN <> ANSIColors.GREEN).
Proof.
  split; [reflexivity|].
  exact (temperature_utilization_colors (at_temperature "65") false false false 16
           scenario_C_hot_line eq_refl).
Defined.

(** The two temperatures of scenario C, rendered in full. *)
Example scenario_C_renders :
  print_to_reps (at_temperature "65") true false false false 16
  = Ok scenario_C_hot_line
  /\ print_to_reps (at_temperature "30") true false false false 16
  = Ok (ANSIColors.wrap ANSIColors.CYAN "[0]" +:+ " "
        +:+ ANSIColors.wrap ANSIColors.BLUE "GPU0            " +:+ " |"
        +:+ ANSIColors.wrap ANSIColors.RED " 30'C" +:+ ", "
        +:+ ANSIColors.wrap ANSIColors.GREEN " 10 %" +:+ " | "
        +:+ ANSIColors.CYAN +:+ ANSIColors.wrap ANSIColors.BOLD_YELLOW "  100" +:+ " / "
        +:+ ANSIColors.wrap ANSIColors.YELLOW " 8000" +:+ " MB |").
Proof. split; reflexivity. Qed.

(** ** Insertion-ordered dictionaries *)

Section odict_facts.
Context {K V : Type} `{EqDecision K}.
Implicit Types (k : K) (v : V) (d : list (K * V)).

Lemma od_get_None k d : od_get k d = None <-> k ∉ od_keys d.
Proof.
  induction d as [|[k' v'] d IH]; csimpl.
  - split; [intros _; apply not_elem_of_nil | done].
  - rewrite not_elem_of_cons. destruct (decide (k = k')); [intuition congruence|].
    rewrite IH. intuition congruence.
Qed.

Lemma od_get_Some_elem k v d : od_get k d = Some v -> (k, v) ∈ d.
Proof.
  induction d as [|[k' v'] d IH]; csimpl; [done|].
  destruct (decide (k = k')) as [->|]; intros Hg.
  - injection Hg as ->. apply list_elem_of_here.
  - apply list_elem_of_further; auto.
Qed.

Lemma od_keys_set k v d :
  od_keys (od_set k v d) = if decide (k ∈ od_keys d) then od_keys d else od_keys d ++ [k].
Proof.
  unfold od_keys. induction d as [|[k' v'] d IH]; csimpl; [done|].
  destruct (decide (k = k')) as [->|Hne]; csimpl.
  - rewrite decide_True; [done | apply list_elem_of_here].
  - rewrite IH. destruct (decide (k ∈ d.*1)).
    + rewrite decide_True; [done | by apply list_elem_of_further].
    + rewrite decide_False; [done|]. rewrite not_elem_of_cons. done.
Qed.

Lemma od_get_set k k' v d :
  od_get k' (od_set k v d) = if decide (k' = k) then Some v else od_get k' d.
Proof.
  induction d as [|[k1 v1] d IH]; csimpl.
  - destruct (decide (k' = k)); done.
  - destruct (decide (k = k1)) as [->|Hne]; csimpl.
    + destruct (decide (k' = k1)); done.
    + destruct (decide (k' = k1)) as [->|].
      * rewrite decide_False; done.
      * apply IH.
Qed.

Lemma od_set_NoDup k v d : NoDup (od_keys d) -> NoDup (od_keys (od_set k v d)).
Proof.
  intros Hd. rewrite od_keys_set. destruct (decide (k ∈ od_keys d)); [done|].
  apply NoDup_app. repeat split; [done | | apply NoDup_singleton].
  intros x Hx ->%list_elem_of_singleton. done.
Qed.

Lemma first_occurrences_elem k (l : list K) : k ∈ first_occurrences l <-> k ∈ l.
Proof.
  induction l as [|k' l IH]; csimpl; [done|].
  rewrite !elem_of_cons, list_elem_of_filter, IH.
  destruct (decide (k = k')); intuition congruence.
Qed.

Lemma first_occurrences_NoDup (l : list K) : NoDup (first_occurrences l).
Proof.
  induction l as [|k l IH]; csimpl; [constructor|].
  constructor; [|by apply NoDup_filter].
  rewrite list_elem_of_filter. intuition congruence.
Qed.

Lemma first_occurrences_id (l : list K) : NoDup l -> first_occurrences l = l.
Proof.
  induction 1 as [|k l Hk Hl IH]; csimpl; [done|].
  rewrite IH. f_equal. clear IH Hl.
  induction l as [|k' l IH]; [done|].
  apply not_elem_of_cons in Hk as [Hne Hk].
  rewrite filter_cons_True by done. f_equal. auto.
Qed.

Lemma od_keys_set_all d kvs :
  od_keys (od_set_all d kvs)
  = od_keys d ++ filter (fun k => k ∉ od_keys d) (first_occurrences kvs.*1).
Proof.
  revert d. induction kvs as [|[k v] kvs IH]; intros d.
  - csimpl. by rewrite app_nil_r.
  - change (od_set_all d ((k, v) :: kvs)) with (od_set_all (od_set k v d) kvs).
    rewrite IH, od_keys_set. csimpl.
    destruct (decide (k ∈ od_keys d)) as [Hin|Hnin].
    + rewrite filter_cons_False by (intros Hk; by apply Hk).
      rewrite list_filter_filter_l; [done|]. intros x Hx ->. done.
    + rewrite filter_cons_True by done.
      rewrite <- app_assoc. csimpl. do 2 f_equal.
      rewrite list_filter_filter. apply list_filter_iff.
      intros x. rewrite elem_of_app, list_elem_of_singleton. intuition congruence.
Qed.

Lemma od_set_all_NoDup d kvs :
  NoDup (od_keys d) -> NoDup (od_keys (od_set_all d kvs)).
Proof.
  revert d. induction kvs as [|[k v] kvs IH]; intros d Hd; csimpl; [done|].
  apply IH. by apply od_set_NoDup.
Qed.

(** With fresh, distinct keys the pairs are appended as they come. *)
Lemma od_set_fresh k v d : k ∉ od_keys d -> od_set k v d = d ++ [(k, v)].
Proof.
  induction d as [|[k' v'] d IH]; csimpl; [done|].
  intros [Hne Hk]%not_elem_of_cons.
  rewrite decide_False by done. f_equal. auto.
Qed.

Lemma od_set_all_fresh d kvs :
  NoDup (od_keys d ++ kvs.*1) -> od_set_all d kvs = d ++ kvs.
Proof.
  revert d. induction kvs as [|[k v] kvs IH]; intros d Hd.
  - csimpl. by rewrite app_nil_r.
  - csimpl in Hd. apply NoDup_app in Hd as (Hd & Hdis & Hkvs).
    apply NoDup_cons in Hkvs as [Hk Hkvs].
    assert (k ∉ od_keys d) as Hfresh.
    { intros Hin. apply (Hdis k Hin). apply list_elem_of_here. }
    change (od_set_all d ((k, v) :: kvs)) with (od_set_all (od_set k v d) kvs).
    rewrite od_set_fresh by done.
    rewrite IH.
    + by rewrite <- app_assoc.
    + unfold od_keys. rewrite fmap_app. csimpl. rewrite <- app_assoc. csimpl.
      apply NoDup_app. repeat split; [done | | by constructor].
      intros x Hx. apply Hdis in Hx. done.
Qed.

(** A property of the pairs that holds of the dictionary and of everything
    assigned holds afterwards. *)
Lemma od_set_all_Forall (P : K * V -> Prop) d kvs :
  Forall P d -> Forall P kvs -> Forall P (od_set_all d kvs).
Proof.
  intros Hd Hkvs. revert d Hd.
  induction Hkvs as [|[k v] kvs Hkv Hkvs IH]; intros d Hd; csimpl; [done|].
  apply IH. clear IH. induction Hd as [|[k' v'] d Hx Hd IHd]; csimpl.
  - by constructor.
  - destruct (decide (k = k')) as [->|]; constructor; auto.
Qed.
End odict_facts.

(** ** Building the snapshot ([GPUStatCollection.__init__]) *)

Lemma filter_all {A} (P : A -> Prop) `{forall x, Decision (P x)} (l : list A) :
  (forall x, x ∈ l -> P x) -> filter P l = l.
Proof.
  induction l as [|x l IH]; intros HP; [done|].
  rewrite filter_cons_True by (apply HP, list_elem_of_here).
  f_equal. apply IH. intros y Hy. apply HP. by apply list_elem_of_further.
Qed.

(** [self.gpus] after lines 121-123, when every device has a uuid. *)
Lemma collect_gpus_from (acc : list (string * GPUStat)) (gpu_list : list GPUStat)
    (uuids : list string) :
  Forall2 (fun g u => uuid g = Ok u) gpu_list uuids ->
  rfold (fun gpus g => u <- uuid g ;; Ok (od_set u g gpus)) acc gpu_list
  = Ok (od_set_all acc (zip uuids gpu_list)).
Proof.
  intros H. revert acc. induction H as [|g u gs us Hg _ IH]; intros acc; [done|].
  simpl. rewrite Hg. simpl. apply IH.
Qed.

Lemma zip_fst_uuids (gpu_list : list GPUStat) (uuids : list string) :
  Forall2 (fun g u => uuid g = Ok u) gpu_list uuids ->
  (zip uuids gpu_list).*1 = uuids /\ (zip uuids gpu_list).*2 = gpu_list
  /\ Forall (fun kg => uuid kg.2 = Ok kg.1) (zip uuids gpu_list).
Proof.
  induction 1 as [|g u gs us Hg _ (IH1 & IH2 & IH3)]; csimpl; [done|].
  rewrite IH1, IH2. repeat split; [done..|]. by constructor.
Qed.

(** [add_process] on the object under a key changes neither the keys nor any
    entry. *)
Lemma od_set_add_process (gpus : list (string * GPUStat)) (k : string)
    (obj : GPUStat) (p : gmap string string) :
  od_get k gpus = Some obj ->
  od_keys (od_set k (add_process p obj) gpus) = od_keys gpus
  /\ (entry <$> od_values (od_set k (add_process p obj) gpus))
     = (entry <$> od_values gpus).
Proof.
  unfold od_keys, od_values.
  induction gpus as [|[k' g'] gpus IH]; csimpl; [done|].
  destruct (decide (k = k')) as [->|Hne]; csimpl.
  - intros [= ->]. done.
  - intros Hg. destruct (IH Hg) as [-> ->]. done.
Qed.

(** [update_process_information] changes process lists only. *)
Lemma attach_processes_frame (processes : list (gmap string string))
    (gpus gpus' : list (string * GPUStat)) (g : option string) :
  attach_processes gpus g processes = Ok gpus' ->
  od_keys gpus' = od_keys gpus
  /\ (entry <$> od_values gpus') = (entry <$> od_values gpus).
Proof.
  revert gpus g. induction processes as [|p ps IH]; intros gpus g H; simpl in H.
  - by injection H as ->.
  - match type of H with match ?g' with _ => _ end = _ => destruct g' as [k|] end;
      [|discriminate].
    destruct (od_get k gpus) as [obj|] eqn:Hk; [|discriminate].
    apply IH in H as [-> ->]. by apply od_set_add_process.
Qed.

(** What a successful [__init__] went through. *)
Lemma GPUStatCollection_init_Ok (gpu_list : list GPUStat) (env : Env) (o : output)
    (self : GPUStatCollection) :
  GPUStatCollection_init gpu_list env = (o, Ok self) ->
  exists gpus0 processes,
    collect_gpus gpu_list = Ok gpus0
    /\ snd (running_processes env) = Ok processes
    /\ attach_processes gpus0 None processes = Ok (gpus self)
    /\ hostname self = platform_node env
    /\ query_time self = datetime_now env.
Proof.
  unfold GPUStatCollection_init, update_process_information, bind, lift, ask, ret.
  destruct (collect_gpus gpu_list) as [gpus0|]; [|intros [=]].
  destruct (running_processes env) as [o1 [processes|]]; [|intros [=]].
  destruct (attach_processes gpus0 None processes) as [gpus1|] eqn:Ha; [|intros [=]].
  intros [= <- <-]. exists gpus0, processes. done.
Qed.

(** C7: when every device of [gpu_list] has a uuid, lines 121-123 build a
    dictionary whose keys are pairwise distinct and are the uuids of
    [gpu_list] in order of first occurrence; every key maps to one device,
    which carries that uuid; when the uuids of the rows are distinct the
    devices are the rows, in row order.  A collection that [__init__] returns
    has these keys, and iterating it yields the devices in that order. *)
Theorem snapshot_identities_unique_ordered (gpu_list : list GPUStat)
    (uuids : list string) :
  Forall2 (fun g u => uuid g = Ok u) gpu_list uuids ->
  exists gpus0,
    collect_gpus gpu_list = Ok gpus0
    /\ NoDup (od_keys gpus0)
    /\ od_keys gpus0 = first_occurrences uuids
    /\ Forall (fun kg => uuid kg.2 = Ok kg.1) gpus0
    /\ (NoDup uuids -> od_values gpus0 = gpu_list)
    /\ forall env o self,
         GPUStatCollection_init gpu_list env = (o, Ok self) ->
         od_keys (gpus self) = first_occurrences uuids
         /\ (uuid <$> GPUStatCollection_iter self) = (Ok <$> first_occurrences uuids)
         /\ (NoDup uuids ->
             (entry <$> GPUStatCollection_iter self) = (entry <$> gpu_list)).
Proof.
  intros Hu. destruct (zip_fst_uuids _ _ Hu) as (Hz1 & Hz2 & Hz3).
  assert (collect_gpus gpu_list = Ok (od_set_all [] (zip uuids gpu_list))) as Hc
    by (by apply collect_gpus_from).
  assert (od_keys (od_set_all [] (zip uuids gpu_list)) = first_occurrences uuids)
    as Hkeys.
  { rewrite (od_keys_set_all (V:=GPUStat) [] (zip uuids gpu_list)), Hz1. simpl.
    apply filter_all. intros x _. apply not_elem_of_nil. }
  assert (Forall (fun kg : string * GPUStat => uuid kg.2 = Ok kg.1)
            (od_set_all [] (zip uuids gpu_list))) as Hown
    by (by apply od_set_all_Forall).
  assert (NoDup uuids -> od_set_all [] (zip uuids gpu_list) = zip uuids gpu_list)
    as Hfresh.
  { intros Hnd. rewrite od_set_all_fresh; [done|]. simpl. by rewrite Hz1. }
  eexists. split; [exact Hc|]. repeat split.
  - apply od_set_all_NoDup. constructor.
  - exact Hkeys.
  - exact Hown.
  - intros Hnd. unfold od_values. by rewrite Hfresh.
  - apply GPUStatCollection_init_Ok in H as (gpus0 & ps & Hc' & _ & Ha & _).
    rewrite Hc in Hc'. injection Hc' as <-.
    apply attach_processes_frame in Ha as [-> _]. exact Hkeys.
  - apply GPUStatCollection_init_Ok in H as (gpus0 & ps & Hc' & _ & Ha & _).
    rewrite Hc in Hc'. injection Hc' as <-.
    apply attach_processes_frame in Ha as [Hk He].
    unfold GPUStatCollection_iter, uuid.
    rewrite <- Hkeys.
    assert ((fun self0 : GPUStat => getitem (entry self0) "uuid") <$> od_values (gpus self)
            = (fun e => getitem e "uuid") <$> (entry <$> od_values (gpus self))) as ->
      by (by rewrite <- list_fmap_compose).
    rewrite He, <- list_fmap_compose. unfold od_values, od_keys.
    rewrite <- !list_fmap_compose. apply Forall_fmap_ext_1.
    eapply Forall_impl; [exact Hown|]. intros [k g] Hkg. exact Hkg.
  - intros Hnd. apply GPUStatCollection_init_Ok in H as (gpus0 & ps & Hc' & _ & Ha & _).
    rewrite Hc in Hc'. injection Hc' as <-.
    apply attach_processes_frame in Ha as [_ He].
    unfold GPUStatCollection_iter. rewrite He, Hfresh by done.
    unfold od_values. by rewrite Hz2.
Qed.

(** Two devices with distinct uuids. *)
Lemma snapshot_identities_two_devices :
  exists gpus0,
    collect_gpus [gpu_aaa; gpu_bbb] = Ok gpus0
    /\ NoDup (od_keys gpus0)
    /\ od_keys gpus0 = ["GPU-aaa"; "GPU-bbb"]
    /\ od_values gpus0 = [gpu_aaa; gpu_bbb].
Proof.
  destruct (snapshot_identities_unique_ordered [gpu_aaa; gpu_bbb]
              ["GPU-aaa"; "GPU-bbb"]) as (gpus0 & Hc & Hnd & Hk & _ & Hv & _).
  - repeat constructor.
  - exists gpus0. repeat split; [exact Hc | exact Hnd | exact Hk |].
    apply Hv. apply (bool_decide_unpack _). reflexivity.
Defined.

(** A repeated uuid keeps its first place and its last device. *)
Example repeated_uuid :
  collect_gpus [gpu_aaa; gpu_bbb; add_process (process_on "GPU-aaa" "9") gpu_aaa]
  = Ok [("GPU-aaa", add_process (process_on "GPU-aaa" "9") gpu_aaa);
        ("GPU-bbb", gpu_bbb)].
Proof. reflexivity. Qed.

(** ** Attaching processes to devices ([update_process_information]) *)

(** C1 does not hold of the code: a process row whose [gpu_uuid] is not a
    key of [self.gpus] is not dropped.  The [except KeyError] clause passes,
    and [g.add_process(p)] then runs with the [g] of the previous row: when
    the row is the first one, [g] is unbound and the call raises
    [UnboundLocalError], which aborts the whole query; otherwise the row is
    attached to the device of the row before it. *)
Theorem orphan_process_is_not_dropped :
  attach_processes [("GPU-aaa", gpu_aaa)] None [process_on "GPU-zzz" "123"]
  = Raise UnboundLocalError
  /\ attach_processes [("GPU-aaa", gpu_aaa)] None
       [process_on "GPU-aaa" "456"; process_on "GPU-zzz" "123"]
     = Ok [("GPU-aaa",
            {| entry := entry gpu_aaa;
               processes := [process_on "GPU-aaa" "456"; process_on "GPU-zzz" "123"] |})]
  /\ new_query orphan_env = ([], Raise UnboundLocalError)
  /\ print_gpustat false false false false orphan_env = ([], Raise UnboundLocalError).
Proof. repeat split; reflexivity. Qed.

(** Rows that name a device of the snapshot are attached to it. *)
Example known_processes_are_attached :
  attach_processes [("GPU-aaa", gpu_aaa); ("GPU-bbb", gpu_bbb)] None
    [process_on "GPU-bbb" "1"; process_on "GPU-aaa" "2"; process_on "GPU-bbb" "3"]
  = Ok [("GPU-aaa",
         {| entry := entry gpu_aaa; processes := [process_on "GPU-aaa" "2"] |});
        ("GPU-bbb",
         {| entry := entry gpu_bbb;
            processes := [process_on "GPU-bbb" "1"; process_on "GPU-bbb" "3"] |})].
Proof. reflexivity. Qed.

(** ** Joining processes with their owners ([running_processes]) *)

Section attach.
Variable pid_map : list (Z * option (gmap string string)).

(** The owner fields never include a pid. *)
Hypothesis info_has_no_pid : forall pid info,
  od_get pid pid_map = Some (Some info) -> info !! "pid" = None.

Lemma heap_after_length l : length (heap_after pid_map l) = length l.
Proof. unfold heap_after. by rewrite length_fmap. Qed.

Lemma heap_after_snoc l e : heap_after pid_map (l ++ [e]) = heap_after pid_map l ++ [default e (with_owner pid_map e)].
Proof. unfold heap_after. by rewrite fmap_app. Qed.

Lemma live_of_snoc start l e :
  live_of pid_map start (l ++ [e])
  = live_of pid_map start l ++ (match with_owner pid_map e with Some _ => [(start + length l)%nat] | None => [] end).
Proof.
  revert start. induction l as [|x l IH]; intros start; simpl.
  - rewrite Nat.add_0_r. by destruct (with_owner pid_map e).
  - rewrite IH, Nat.add_succ_comm. by destruct (with_owner pid_map x).
Qed.

Lemma live_of_elem start l r :
  r ∈ live_of pid_map start l ->
  exists e e', (start <= r)%nat /\ l !! (r - start)%nat = Some e
               /\ with_owner pid_map e = Some e'.
Proof.
  revert start. induction l as [|x l IH]; intros start; simpl; [by intros ?%elem_of_nil|].
  destruct (with_owner pid_map x) as [x'|] eqn:Hx.
  - intros [->|Hr]%elem_of_cons.
    + exists x, x'. rewrite Nat.sub_diag. done.
    + destruct (IH _ Hr) as (e & e' & Hle & Hl & He). exists e, e'.
      split; [lia|]. split; [|done].
      replace (r - start)%nat with (S (r - S start)) by lia. done.
  - intros Hr. destruct (IH _ Hr) as (e & e' & Hle & Hl & He). exists e, e'.
    split; [lia|]. split; [|done].
    replace (r - start)%nat with (S (r - S start)) by lia. done.
Qed.

(** An updated row has the pid field it had before. *)
Lemma with_owner_pid e e' : with_owner pid_map e = Some e' -> e' !! "pid" = e !! "pid".
Proof.
  unfold with_owner, owner_of.
  destruct (pid_of e) as [pid|]; [|done].
  destruct (od_get pid pid_map) as [[info|]|] eqn:Hpid; [|done..].
  intros [= <-]. rewrite lookup_union_r; [done|]. eauto.
Qed.

(** A row with an owner is never equal to a row without. *)
Lemma with_owner_ne e e' x :
  with_owner pid_map e = Some e' -> owner_of pid_map x = Some None -> e' <> x.
Proof.
  intros He Hx ->. pose proof (with_owner_pid _ _ He) as Hpid.
  unfold with_owner in He. unfold owner_of, pid_of, getitem in *.
  rewrite Hpid in Hx. destruct (e !! "pid") as [s|]; simpl in *; [|done].
  destruct (int s); [|done]. rewrite Hx in He. done.
Qed.

(** [remove] passes over the references whose objects differ from [x] and
    drops the first whose object is [x]. *)
Lemma list_remove_app heap x (l1 l2 : list nat) (r : nat) :
  (forall r', r' ∈ l1 -> heap !! r' <> Some x) ->
  heap !! r = Some x ->
  list_remove heap x (l1 ++ r :: l2) = Ok (l1 ++ l2).
Proof.
  intros Hl1 Hr. induction l1 as [|r1 l1 IH]; simpl.
  - by rewrite decide_True.
  - rewrite decide_False by (apply Hl1, list_elem_of_here).
    rewrite IH; [done|]. intros r' Hr'. apply Hl1. by apply list_elem_of_further.
Qed.

(** The loop invariant of lines 190-198: when the rows [done] have been gone
    over and [todo] are left, the objects of [done] are updated or untouched,
    and the list holds the resolved references of [done] and all of [todo]. *)
Lemma attach_loop (done todo : list (gmap string string)) :
  Forall (fun e => is_Some (owner_of pid_map e)) todo ->
  rfold (attach_step pid_map)
    (heap_after pid_map done ++ todo,
     live_of pid_map 0 done ++ seq (length done) (length todo))
    (seq (length done) (length todo))
  = Ok (heap_after pid_map (done ++ todo), live_of pid_map 0 (done ++ todo)).
Proof.
  intros Htodo. revert done.
  induction Htodo as [|e todo [owner He] _ IH]; intros done; simpl.
  - by rewrite !app_nil_r.
  - assert ((heap_after pid_map done ++ e :: todo) !! length done = Some e) as Hr.
    { rewrite lookup_app_r by (rewrite heap_after_length; lia).
      by rewrite heap_after_length, Nat.sub_diag. }
    rewrite Hr. unfold owner_of, pid_of in He.
    destruct (getitem e "pid") as [s|] eqn:Hs; simpl in *; [|done].
    destruct (int s) as [pid|] eqn:Hpid; simpl in *; [|done].
    rewrite He.
    assert (owner_of pid_map e = Some owner) as Ho.
    { unfold owner_of, pid_of. rewrite Hs. simpl. by rewrite Hpid. }
    assert (with_owner pid_map e = (fun info => info ∪ e) <$> owner) as Hw.
    { unfold with_owner. rewrite Ho. by destruct owner. }
    specialize (IH (done ++ [e])).
    rewrite heap_after_snoc, live_of_snoc, length_app, Hw in IH. simpl in IH.
    rewrite Nat.add_1_r, <- !app_assoc in IH.
    destruct owner as [info|]; simpl in *.
    + replace (<[length done:=info ∪ e]> (heap_after pid_map done ++ e :: todo))
        with (heap_after pid_map done ++ (info ∪ e) :: todo).
      { rewrite <- IH. done. }
      rewrite insert_app_r_alt by (rewrite heap_after_length; lia).
      by rewrite heap_after_length, Nat.sub_diag.
    + rewrite list_remove_app; [apply IH | | exact Hr].
      intros r' Hr' Heq.
      destruct (live_of_elem _ _ _ Hr') as (x & x' & _ & Hx & Hx').
      rewrite Nat.sub_0_r in Hx.
      assert ((heap_after pid_map done ++ e :: todo) !! r' = Some x') as Hheap.
      { rewrite lookup_app_l by (rewrite heap_after_length; by eapply lookup_lt_Some).
        unfold heap_after. by rewrite list_lookup_fmap, Hx; simpl; rewrite Hx'. }
      rewrite Hheap in Heq. injection Heq as ->.
      by eapply with_owner_ne.
Qed.

(** Reading the list back through the references gives the updated rows. *)
Lemma read_live (pre l : list (gmap string string)) :
  omap (fun r => (pre ++ heap_after pid_map l) !! r) (live_of pid_map (length pre) l)
  = omap (with_owner pid_map) l.
Proof.
  revert pre. induction l as [|e l IH]; intros pre; [done|].
  specialize (IH (pre ++ [default e (with_owner pid_map e)])).
  rewrite length_app, Nat.add_1_r, <- app_assoc in IH.
  change (heap_after pid_map (e :: l)) with (default e (with_owner pid_map e) :: heap_after pid_map l).
  cbn [live_of omap list_omap]. change (list_omap ?f ?l) with (omap f l).
  destruct (with_owner pid_map e) as [e'|] eqn:He; cbn [default] in *.
  - cbn [omap list_omap]. change (list_omap ?f ?l) with (omap f l).
    rewrite lookup_app_r, Nat.sub_diag by lia. cbn [lookup list_lookup].
    f_equal. exact IH.
  - exact IH.
Qed.

(** Lines 190-200: the rows that come back are the resolved rows, in order,
    each updated with its owner's fields; no exception is raised. *)
Lemma attach_process_information_Ok (process_entries : list (gmap string string)) :
  Forall (fun e => is_Some (owner_of pid_map e)) process_entries ->
  attach_process_information pid_map process_entries
  = Ok (omap (with_owner pid_map) process_entries).
Proof.
  intros H. unfold attach_process_information.
  pose proof (attach_loop [] process_entries H) as Hloop. simpl in Hloop.
  rewrite Hloop. simpl. f_equal. apply (read_live []).
Qed.
End attach.

(** Line 173 lists the pid of every row, with no owner yet. *)
Lemma pid_map_init_from (process_entries : list (gmap string string))
    (acc pid_map : list (Z * option (gmap string string))) :
  rfold (fun pid_map e =>
           pid <- getitem e "pid" ;; pid <- int pid ;; Ok (od_set pid None pid_map))
        acc process_entries = Ok pid_map ->
  Forall (fun e => exists pid, pid_of e = Ok pid /\ pid ∈ od_keys pid_map) process_entries
  /\ (forall pid, pid ∈ od_keys acc -> pid ∈ od_keys pid_map)
  /\ (forall pid info, od_get pid pid_map = Some (Some info) ->
        od_get pid acc = Some (Some info)).
Proof.
  revert acc. induction process_entries as [|e l IH]; intros acc H; simpl in H.
  - injection H as <-. done.
  - destruct (getitem e "pid") as [s|] eqn:Hs; simpl in H; [|done].
    destruct (int s) as [pid|] eqn:Hpid; simpl in H; [|done].
    destruct (IH _ H) as (IH1 & IH2 & IH3).
    assert (pid ∈ od_keys (od_set pid (None : option (gmap string string)) acc)) as Hin.
    { rewrite od_keys_set. case_decide; [done|]. apply elem_of_app. right.
      apply list_elem_of_here. }
    repeat split.
    + constructor; [|done]. exists pid. split; [|by apply IH2].
      unfold pid_of. rewrite Hs. simpl. done.
    + intros pid' Hpid'. apply IH2. rewrite od_keys_set. case_decide; [done|].
      apply elem_of_app. by left.
    + intros pid' info Hget. apply IH3 in Hget. rewrite od_get_set in Hget.
      case_decide; done.
Qed.

(** Lines 181-187 keep every pid that is listed, and give owners only of the
    form [{'user': user, 'comm': comm}]. *)
Lemma read_pid_output_from (lines : list string)
    (acc pid_map : list (Z * option (gmap string string))) :
  rfold (fun pid_map line =>
           if negb (nonempty line) || contains "PID" line then Ok pid_map
           else
             fields <- unpack3 (split_ws line) ;;
             let '(pid, user, comm) := fields in
             pid <- int pid ;;
             Ok (od_set pid (Some {[ "user" := user; "comm" := comm ]}) pid_map))
        acc lines = Ok pid_map ->
  (forall pid, pid ∈ od_keys acc -> pid ∈ od_keys pid_map)
  /\ (forall pid info, od_get pid pid_map = Some (Some info) ->
        od_get pid acc = Some (Some info)
        \/ exists user comm, info = {[ "user" := user; "comm" := comm ]}).
Proof.
  revert acc. induction lines as [|line lines IH]; intros acc H; simpl in H.
  - injection H as <-. auto.
  - destruct (negb (nonempty line) || contains "PID" line); [by apply IH|].
    destruct (unpack3 (split_ws line)) as [[[pid user] comm]|]; simpl in H; [|done].
    destruct (int pid) as [z|]; simpl in H; [|done].
    destruct (IH _ H) as (IH1 & IH2). split.
    + intros pid' Hpid'. apply IH1. rewrite od_keys_set. case_decide; [done|].
      apply elem_of_app. by left.
    + intros pid' info Hget. destruct (IH2 _ _ Hget) as [Hacc|?]; [|by right].
      rewrite od_get_set in Hacc. case_decide; [|by left].
      injection Hacc as <-. right. eauto.
Qed.

(** After lines 173-187, every row's pid is in [pid_map], and an owner has
    exactly a user and a command. *)
Lemma resolve_owners_Ok (process_entries : list (gmap string string)) (env : Env)
    (pid_map0 pid_map : list (Z * option (gmap string string))) (o : output) :
  pid_map_init process_entries = Ok pid_map0 ->
  resolve_owners pid_map0 env = (o, Ok pid_map) ->
  o = []
  /\ Forall (fun e => is_Some (owner_of pid_map e)) process_entries
  /\ (forall pid info, od_get pid pid_map = Some (Some info) ->
        exists user comm, info = {[ "user" := user; "comm" := comm ]}).
Proof.
  intros H0 H. apply pid_map_init_from in H0 as (Hrows & _ & Hnone).
  assert (o = [] /\ (forall pid, pid ∈ od_keys pid_map0 -> pid ∈ od_keys pid_map)
          /\ (forall pid info, od_get pid pid_map = Some (Some info) ->
                od_get pid pid_map0 = Some (Some info)
                \/ exists user comm, info = {[ "user" := user; "comm" := comm ]}))
    as (-> & Hkeys & Hinfo).
  { unfold resolve_owners in H. destruct pid_map0 as [|kv pm].
    - injection H as <- <-. auto.
    - unfold bind, call, lift in H.
      destruct (ps env (od_keys (kv :: pm))) as [pid_output|]; [|done].
      simpl in H. injection H as <- H.
      apply read_pid_output_from in H. done. }
  split; [done|]. split.
  - eapply Forall_impl; [exact Hrows|]. intros e (pid & Hpid & Hin).
    unfold owner_of. rewrite Hpid.
    destruct (od_get pid pid_map) eqn:Hget; [eauto|].
    apply od_get_None in Hget. destruct Hget. by apply Hkeys.
  - intros pid info Hget. destruct (Hinfo _ _ Hget) as [Hbad|?]; [|done].
    apply Hnone in Hbad. done.
Qed.

(** C2: when the rows have integer pids (line 173 succeeds) and the owner
    lookup answers (lines 176-187 succeed), lines 190-200 raise nothing and
    [running_processes] returns exactly the rows whose pid has an owner in
    [pid_map], in their order, each updated with the owner's fields: a row
    whose pid has no owner is not among them, and every row that is returned
    has the ['user'] and ['comm'] of its owner. *)
Theorem unresolved_processes_are_dropped
    (process_entries : list (gmap string string)) (env : Env)
    (pid_map0 pid_map : list (Z * option (gmap string string))) (o : output) :
  pid_map_init process_entries = Ok pid_map0 ->
  resolve_owners pid_map0 env = (o, Ok pid_map) ->
  running_processes_from process_entries env
  = (o, Ok (omap (with_owner pid_map) process_entries))
  /\ Forall (fun e =>
       exists pid, pid_of e = Ok pid
         /\ (od_get pid pid_map = Some None /\ with_owner pid_map e = None
             \/ exists user comm,
                  od_get pid pid_map = Some (Some {[ "user" := user; "comm" := comm ]})
                  /\ with_owner pid_map e
                     = Some ({[ "user" := user; "comm" := comm ]} ∪ e)))
       process_entries
  /\ Forall (fun e' =>
       exists e user comm,
         e ∈ process_entries
         /\ e' = {[ "user" := user; "comm" := comm ]} ∪ e
         /\ e' !! "user" = Some user /\ e' !! "comm" = Some comm)
       (omap (with_owner pid_map) process_entries).
Proof.
  intros H0 H. destruct (resolve_owners_Ok _ _ _ _ _ H0 H) as (-> & Hrows & Hinfo).
  assert (Forall (fun e =>
       exists pid, pid_of e = Ok pid
         /\ (od_get pid pid_map = Some None /\ with_owner pid_map e = None
             \/ exists user comm,
                  od_get pid pid_map = Some (Some {[ "user" := user; "comm" := comm ]})
                  /\ with_owner pid_map e
                     = Some ({[ "user" := user; "comm" := comm ]} ∪ e)))
       process_entries) as Hcases.
  { eapply Forall_impl; [exact Hrows|]. intros e [owner Ho].
    unfold with_owner. rewrite Ho. unfold owner_of in Ho.
    destruct (pid_of e) as [pid|]; [|done]. exists pid. split; [done|].
    destruct owner as [info|]; [|by left].
    destruct (Hinfo _ _ Ho) as (user & comm & ->). right. eauto. }
  split; [|split; [exact Hcases|]].
  - unfold running_processes_from, bind, lift. rewrite H0, H.
    rewrite attach_process_information_Ok; [done | | done].
    intros pid info (user & comm & ->)%Hinfo. done.
  - apply Forall_forall. intros e' (e & He & He')%list_elem_of_omap.
    rewrite Forall_forall in Hcases.
    destruct (Hcases _ He) as (pid & _ & [[_ Hn]|(user & comm & _ & Hs)]);
      [congruence|].
    rewrite Hs in He'. injection He' as <-. exists e, user, comm.
    repeat split; [done|..]; apply lookup_union_Some_l; done.
Qed.

Lemma unresolved_processes_are_dropped_sample :
  running_processes_from sample_rows (sample_env locale_ymd noon)
  = ([], Ok (omap (with_owner sample_pid_map) sample_rows))
  /\ omap (with_owner sample_pid_map) sample_rows
     = [list_to_map [("gpu_uuid", "GPU-aaa"); ("pid", "123"); ("used_memory", "50");
                     ("user", "alice"); ("comm", "python")]].
Proof.
  split; [|reflexivity].
  apply (unresolved_processes_are_dropped sample_rows (sample_env locale_ymd noon)
           [(123%Z, None); (456%Z, None)] sample_pid_map []); reflexivity.
Defined.

(** ** Escape sequences in the rendered text ([print_formatted]) *)

Lemma has_esc_app (a b : string) : has_esc (a +:+ b) = has_esc a || has_esc b.
Proof.
  induction a as [|c a IH]; [done|].
  rewrite append_cons. simpl. by rewrite IH, orb_assoc.
Qed.

Lemma has_esc_spaces (n : nat) : has_esc (spaces n) = false.
Proof. induction n; [done|]. simpl. done. Qed.

Lemma has_esc_ljust (w : nat) (s : string) : has_esc (ljust w s) = has_esc s.
Proof. unfold ljust. by rewrite has_esc_app, has_esc_spaces, orb_false_r. Qed.

Lemma has_esc_rjust (w : nat) (s : string) : has_esc (rjust w s) = has_esc s.
Proof. unfold rjust. by rewrite has_esc_app, has_esc_spaces. Qed.

Create Rewrite HintDb esc.
#[local] Hint Rewrite has_esc_app has_esc_ljust has_esc_rjust orb_false_r : esc.

Lemma plain_getitem (d : gmap string string) (k v : string) :
  plain_dict d -> getitem d k = Ok v -> has_esc v = false.
Proof. intros Hd Hk%getitem_Ok. exact (Hd _ _ Hk). Qed.

(** Without colours every entry of [colors] is empty. *)
Lemma color_settings_off (e : gmap string string) (colors : Colors) :
  color_settings e false = Ok colors -> colors = no_colors.
Proof.
  unfold color_settings.
  destruct (getitem e "temperature.gpu") as [t|]; simpl; [|done].
  destruct (int t); simpl; [|done].
  destruct (getitem e "utilization.gpu") as [u|]; simpl; [|done].
  destruct (int u); simpl; [|done]. by intros [= <-].
Qed.

(** With colours the first entry used, [C1], is cyan. *)
Lemma color_settings_on (e : gmap string string) (colors : Colors) :
  color_settings e true = Ok colors -> C1 colors = ANSIColors.CYAN.
Proof.
  unfold color_settings.
  destruct (getitem e "temperature.gpu") as [t|]; simpl; [|done].
  destruct (int t); simpl; [|done].
  destruct (getitem e "utilization.gpu") as [u|]; simpl; [|done].
  destruct (int u); simpl; [|done]. by intros [= <-].
Qed.

Lemma device_repr_plain (e : gmap string string) (w : nat) (reps : string) :
  plain_dict e -> device_repr no_colors e w = Ok reps -> has_esc reps = false.
Proof.
  intros He. unfold device_repr.
  destruct (getitem e "index") as [index|] eqn:H1; simpl; [|done].
  destruct (getitem e "name") as [name|] eqn:H2; simpl; [|done].
  destruct (getitem e "temperature.gpu") as [temp|] eqn:H3; simpl; [|done].
  destruct (getitem e "utilization.gpu") as [util|] eqn:H4; simpl; [|done].
  destruct (getitem e "memory.used") as [mem_used|] eqn:H5; simpl; [|done].
  destruct (getitem e "memory.total") as [mem_total|] eqn:H6; simpl; [|done].
  intros [= <-]. autorewrite with esc. simpl.
  rewrite (plain_getitem _ _ _ He H1), (plain_getitem _ _ _ He H2),
    (plain_getitem _ _ _ He H3), (plain_getitem _ _ _ He H4),
    (plain_getitem _ _ _ He H5), (plain_getitem _ _ _ He H6). done.
Qed.

Lemma device_repr_prefix (colors : Colors) (e : gmap string string) (w : nat)
    (reps : string) :
  device_repr colors e w = Ok reps -> exists rest, reps = C1 colors +:+ rest.
Proof.
  unfold device_repr.
  destruct (getitem e "index") as [index|]; simpl; [|done].
  destruct (getitem e "name") as [name|]; simpl; [|done].
  destruct (getitem e "temperature.gpu") as [temp|]; simpl; [|done].
  destruct (getitem e "utilization.gpu") as [util|]; simpl; [|done].
  destruct (getitem e "memory.used") as [mem_used|]; simpl; [|done].
  destruct (getitem e "memory.total") as [mem_total|]; simpl; [|done].
  intros [= <-]. eauto.
Qed.

Lemma process_repr_plain (p : gmap string string) (show_cmd show_user show_pid : bool)
    (t : string) :
  plain_dict p -> process_repr no_colors show_cmd show_user show_pid p = Ok t ->
  has_esc t = false.
Proof.
  intros Hp.
  assert (forall pid, has_esc pid = false -> has_esc (default pid (p !! "comm")) = false)
    as Hcomm.
  { intros pid Hpid. destruct (p !! "comm") as [comm|] eqn:E; [exact (Hp _ _ E) | done]. }
  unfold process_repr.
  destruct show_cmd, show_user, show_pid; simpl;
    repeat match goal with
           | |- context [getitem p ?k] =>
               let H := fresh "H" in
               destruct (getitem p k) eqn:H; simpl; [|done];
               apply (plain_getitem _ _ _ Hp) in H
           end;
    intros [= <-]; autorewrite with str;
    repeat match goal with
           | |- context [nonempty ?s] => destruct (nonempty s)
           end;
    autorewrite with str; repeat (rewrite ?has_esc_app; simpl);
    repeat match goal with
           | H : has_esc ?v = false |- _ =>
               rewrite ?(Hcomm _ H); rewrite ?H; clear H
           end;
    done.
Qed.

Lemma tokens_plain (show_cmd show_user show_pid : bool)
    (ps : list (gmap string string)) (reps out : string) :
  Forall plain_dict ps -> has_esc reps = false ->
  rfold (fun reps p =>
           t <- process_repr no_colors show_cmd show_user show_pid p ;;
           Ok (reps +:+ " " +:+ t)) reps ps = Ok out ->
  has_esc out = false.
Proof.
  intros Hps. revert reps. induction Hps as [|p ps Hp _ IH]; intros reps Hreps H.
  - simpl in H. by injection H as <-.
  - simpl in H.
    destruct (process_repr no_colors show_cmd show_user show_pid p) as [t|] eqn:Ht;
      simpl in H; [|done].
    apply IH in H; [done|].
    rewrite !has_esc_app, Hreps. simpl. by eapply process_repr_plain.
Qed.

(** Without colours, a line has no escape character that its data lacks. *)
Lemma print_to_reps_plain (self : GPUStat) (show_cmd show_user show_pid : bool)
    (gpuname_width : nat) (reps : string) :
  plain_device self ->
  print_to_reps self false show_cmd show_user show_pid gpuname_width = Ok reps ->
  has_esc reps = false.
Proof.
  intros [He Hps]. unfold print_to_reps.
  destruct (color_settings (entry self) false) as [colors|] eqn:Hc; simpl; [|done].
  apply color_settings_off in Hc as ->.
  destruct (device_repr no_colors (entry self) gpuname_width) as [reps0|] eqn:Hd;
    simpl; [|done].
  apply tokens_plain; [done|]. by eapply device_repr_plain.
Qed.

(** With colours, a line starts with the cyan escape sequence. *)
Lemma print_to_reps_colored (self : GPUStat) (show_cmd show_user show_pid : bool)
    (gpuname_width : nat) (reps : string) :
  print_to_reps self true show_cmd show_user show_pid gpuname_width = Ok reps ->
  exists rest, reps = ANSIColors.CYAN +:+ rest.
Proof.
  unfold print_to_reps.
  destruct (color_settings (entry self) true) as [colors|] eqn:Hc; simpl; [|done].
  apply color_settings_on in Hc.
  destruct (device_repr colors (entry self) gpuname_width) as [reps0|] eqn:Hd;
    simpl; [|done].
  apply device_repr_prefix in Hd as [rest ->]. rewrite Hc.
  intros [tokens ->]%rfold_tokens_suffix. exists (rest +:+ tokens).
  by rewrite append_assoc.
Qed.

(** *** Sample environments *)

Example sample_snapshot_plain :
  (print_formatted sample_snapshot sys_stdout true false false false
     (sample_env locale_ymd midnight)).1
  = [(sys_stdout, "host1  2026-11-04 12:30:00"); (sys_stdout, nl);
     (sys_stdout, "[0] GPU0             | 45'C,  10 % |   100 /  8000 MB | alice(50M)");
     (sys_stdout, nl)].
Proof. reflexivity. Qed.

(** ** When a device can be rendered ([GPUStat.print_to]) *)

Lemma getitem_cases (d : gmap string string) (k : string) :
  (exists v, d !! k = Some v /\ getitem d k = Ok v)
  \/ (d !! k = None /\ getitem d k = Raise KeyError).
Proof. unfold getitem. destruct (d !! k); eauto. Qed.

Lemma int_cases (s : string) : (exists z, int s = Ok z) \/ int s = Raise ValueError.
Proof.
  unfold int. destruct (int_literal _); [|eauto].
  destruct (_ <? _)%nat; eauto.
Qed.

Lemma color_settings_cases (e : gmap string string) (with_colors : bool) :
  (exists colors, color_settings e with_colors = Ok colors
     /\ (exists temp t, e !! "temperature.gpu" = Some temp /\ int temp = Ok t)
     /\ (exists util u, e !! "utilization.gpu" = Some util /\ int util = Ok u))
  \/ ((color_settings e with_colors = Raise KeyError
       \/ color_settings e with_colors = Raise ValueError)
      /\ ~ ((exists temp t, e !! "temperature.gpu" = Some temp /\ int temp = Ok t)
            /\ (exists util u, e !! "utilization.gpu" = Some util /\ int util = Ok u))).
Proof.
  unfold color_settings.
  destruct (getitem_cases e "temperature.gpu") as [(temp & Ht & ->)|[Ht ->]]; simpl.
  2: { right. split; [by left|]. intros [(? & ? & ? & _) _]. congruence. }
  destruct (int_cases temp) as [[t Hti]|Hti]; rewrite Hti; simpl.
  2: { right. split; [by right|]. intros [(? & ? & ? & ?) _]. congruence. }
  destruct (getitem_cases e "utilization.gpu") as [(util & Hu & ->)|[Hu ->]]; simpl.
  2: { right. split; [by left|]. intros [_ (? & ? & ? & _)]. congruence. }
  destruct (int_cases util) as [[u Hui]|Hui]; rewrite Hui; simpl.
  2: { right. split; [by right|]. intros [_ (? & ? & ? & ?)]. congruence. }
  left. eexists. split; [done|]. eauto 10.
Qed.

Lemma device_repr_cases (colors : Colors) (e : gmap string string) (w : nat) :
  (exists reps, device_repr colors e w = Ok reps
     /\ is_Some (e !! "index") /\ is_Some (e !! "name")
     /\ is_Some (e !! "temperature.gpu") /\ is_Some (e !! "utilization.gpu")
     /\ is_Some (e !! "memory.used") /\ is_Some (e !! "memory.total"))
  \/ (device_repr colors e w = Raise KeyError
      /\ ~ (is_Some (e !! "index") /\ is_Some (e !! "name")
            /\ is_Some (e !! "memory.used") /\ is_Some (e !! "memory.total")
            /\ is_Some (e !! "temperature.gpu") /\ is_Some (e !! "utilization.gpu"))).
Proof.
  unfold device_repr.
  destruct (getitem_cases e "index") as [(v1 & H1 & ->)|[H1 ->]]; simpl;
    [|right; split; [done|]; rewrite H1; intros ([? ?] & _); done].
  destruct (getitem_cases e "name") as [(v2 & H2 & ->)|[H2 ->]]; simpl;
    [|right; split; [done|]; rewrite H2; intros (_ & [? ?] & _); done].
  destruct (getitem_cases e "temperature.gpu") as [(v3 & H3 & ->)|[H3 ->]]; simpl;
    [|right; split; [done|]; rewrite H3; intros (_ & _ & _ & _ & [? ?] & _); done].
  destruct (getitem_cases e "utilization.gpu") as [(v4 & H4 & ->)|[H4 ->]]; simpl;
    [|right; split; [done|]; rewrite H4; intros (_ & _ & _ & _ & _ & [? ?]); done].
  destruct (getitem_cases e "memory.used") as [(v5 & H5 & ->)|[H5 ->]]; simpl;
    [|right; split; [done|]; rewrite H5; intros (_ & _ & [? ?] & _); done].
  destruct (getitem_cases e "memory.total") as [(v6 & H6 & ->)|[H6 ->]]; simpl;
    [|right; split; [done|]; rewrite H6; intros (_ & _ & _ & [? ?] & _); done].
  left. eexists. rewrite H1, H2, H3, H4, H5, H6. eauto 10.
Qed.

Lemma process_repr_cases (colors : Colors) (show_cmd show_user show_pid : bool)
    (p : gmap string string) :
  (exists t, process_repr colors show_cmd show_user show_pid p = Ok t
     /\ renderable_process show_cmd show_user show_pid p)
  \/ (process_repr colors show_cmd show_user show_pid p = Raise KeyError
      /\ ~ renderable_process show_cmd show_user show_pid p).
Proof.
  unfold process_repr, renderable_process.
  destruct (getitem_cases p "user") as [(user & Hu & Hgu)|[Hu Hgu]];
  destruct (getitem_cases p "pid") as [(pid & Hp & Hgp)|[Hp Hgp]];
  destruct (getitem_cases p "used_memory") as [(mem & Hm & Hgm)|[Hm Hgm]];
  rewrite ?Hgu, ?Hgp, ?Hgm, Hu, Hp, Hm;
  destruct show_cmd, show_user, show_pid; simpl;
  first [ left; eexists; split; [reflexivity|];
          repeat split; first [by eauto | by intros [=]]
        | right; split; [reflexivity|];
          intros (H1 & H2 & H3);
          first [ by destruct H3
                | by destruct (H1 eq_refl)
                | by destruct (H2 eq_refl) ] ].
Qed.

Lemma tokens_cases (colors : Colors) (show_cmd show_user show_pid : bool)
    (ps : list (gmap string string)) (reps : string) :
  (exists out,
     rfold (fun reps p =>
              t <- process_repr colors show_cmd show_user show_pid p ;;
              Ok (reps +:+ " " +:+ t)) reps ps = Ok out
     /\ Forall (renderable_process show_cmd show_user show_pid) ps)
  \/ (rfold (fun reps p =>
               t <- process_repr colors show_cmd show_user show_pid p ;;
               Ok (reps +:+ " " +:+ t)) reps ps = Raise KeyError
      /\ ~ Forall (renderable_process show_cmd show_user show_pid) ps).
Proof.
  revert reps. induction ps as [|p ps IH]; intros reps; simpl.
  - left. eauto.
  - destruct (process_repr_cases colors show_cmd show_user show_pid p)
      as [(t & -> & Hp)|[-> Hp]]; simpl.
    + destruct (IH (reps +:+ " " +:+ t)) as [(out & -> & Hps)|[-> Hps]].
      * left. eauto.
      * right. split; [done|]. by intros [_ ?]%Forall_cons_1.
    + right. split; [done|]. by intros [? _]%Forall_cons_1.
Qed.

(** Whether a device line can be built, and what is raised when it cannot. *)
Lemma print_to_reps_cases (self : GPUStat)
    (with_colors show_cmd show_user show_pid : bool) (gpuname_width : nat) :
  (exists reps,
     print_to_reps self with_colors show_cmd show_user show_pid gpuname_width = Ok reps
     /\ renderable_entry (entry self)
     /\ Forall (renderable_process show_cmd show_user show_pid) (processes self))
  \/ ((print_to_reps self with_colors show_cmd show_user show_pid gpuname_width
       = Raise KeyError
       \/ print_to_reps self with_colors show_cmd show_user show_pid gpuname_width
          = Raise ValueError)
      /\ ~ (renderable_entry (entry self)
            /\ Forall (renderable_process show_cmd show_user show_pid)
                 (processes self))).
Proof.
  unfold print_to_reps, renderable_entry.
  destruct (color_settings_cases (entry self) with_colors)
    as [(colors & -> & Ht & Hu)|[Hc Hn]]; simpl.
  2: { right. split.
       - destruct Hc as [-> | ->]; auto.
       - intros [(_ & _ & _ & _ & Ht & Hu) _]. destruct Hn. done. }
  destruct (device_repr_cases colors (entry self) gpuname_width)
    as [(reps0 & -> & H1 & H2 & H3 & H4 & H5 & H6)|[-> Hn]]; simpl.
  2: { right. split; [by left|].
       intros [(? & ? & ? & ? & (? & ? & ? & _) & (? & ? & ? & _)) _].
       destruct Hn. eauto 10. }
  destruct (tokens_cases colors show_cmd show_user show_pid (processes self) reps0)
    as [(out & -> & Hps)|[-> Hps]].
  - left. eauto 10.
  - right. split; [by left|]. by intros [_ ?].
Qed.

(** ** The name column ([print_formatted], line 243) *)

Lemma length_append (a b : string) :
  String.length (a +:+ b) = (String.length a + String.length b)%nat.
Proof.
  induction a as [|c a IH]; [done|]. rewrite append_cons. simpl. by rewrite IH.
Qed.

Lemma length_spaces (n : nat) : String.length (spaces n) = n.
Proof. induction n; [done|]. simpl. by f_equal. Qed.

(** Padding never cuts: the padded text is as wide as the wider of the two. *)
Lemma length_ljust (w : nat) (s : string) :
  String.length (ljust w s) = Nat.max w (String.length s).
Proof. unfold ljust. rewrite length_append, length_spaces. lia. Qed.

Lemma length_rjust (w : nat) (s : string) :
  String.length (rjust w s) = Nat.max w (String.length s).
Proof. unfold rjust. rewrite length_append, length_spaces. lia. Qed.

(** [rmap] succeeds exactly when the function succeeds on every element. *)
Lemma rmap_Ok {A B} (f : A -> res B) (l : list A) (ys : list B) :
  rmap f l = Ok ys <-> Forall2 (fun x y => f x = Ok y) l ys.
Proof.
  revert ys. induction l as [|x l IH]; intros ys; simpl.
  - split; [intros [= <-]; constructor | by intros ->%Forall2_nil_inv_l].
  - destruct (f x) as [y|e] eqn:Hx; simpl.
    + destruct (rmap f l) as [ys'|e] eqn:Hl; simpl.
      * split.
        -- intros [= <-]. constructor; [done|]. by apply IH.
        -- intros (y' & ys'' & Hy & Hys & ->)%Forall2_cons_inv_l.
           apply IH in Hys. congruence.
      * split; [done|].
        intros (y' & ys'' & Hy & Hys & ->)%Forall2_cons_inv_l.
        apply IH in Hys. done.
    + split; [done|].
      intros (y' & ys'' & Hy & Hys & ->)%Forall2_cons_inv_l. congruence.
Qed.

Lemma rmap_Raise {A B} (f : A -> res B) (l : list A) (e : exc) :
  rmap f l = Raise e -> exists x, x ∈ l /\ f x = Raise e.
Proof.
  induction l as [|x l IH]; simpl; [done|].
  destruct (f x) as [y|e'] eqn:Hx; simpl.
  - destruct (rmap f l) as [ys'|e'] eqn:Hl; simpl; [done|].
    intros [= ->]. destruct (IH eq_refl) as (x' & Hin & Hx').
    exists x'. split; [by apply list_elem_of_further | done].
  - intros [= ->]. exists x. split; [apply list_elem_of_here | done].
Qed.

Lemma foldr_max_bounds (b : nat) (l : list nat) :
  (b <= foldr Nat.max b l)%nat
  /\ Forall (fun n => (n <= foldr Nat.max b l)%nat) l
  /\ (foldr Nat.max b l = b \/ foldr Nat.max b l ∈ l).
Proof.
  induction l as [|n l (IH1 & IH2 & IH3)]; simpl.
  - repeat split; [lia | constructor | by left].
  - split; [lia|]. split.
    + constructor; [lia|]. eapply Forall_impl; [exact IH2|]. simpl. lia.
    + destruct (Nat.max_spec n (foldr Nat.max b l)) as [[_ ->]|[_ ->]].
      * destruct IH3 as [?|?]; [by left | right; by apply list_elem_of_further].
      * right. apply list_elem_of_here.
Qed.

(** The width can be computed when every device has a name. *)
Lemma auto_gpuname_width_named (self : GPUStatCollection) :
  Forall (fun g => is_Some (entry g !! "name")) (GPUStatCollection_iter self) ->
  exists w, auto_gpuname_width self = Ok w.
Proof.
  intros Hall. unfold auto_gpuname_width.
  destruct (rmap (fun g => getitem (entry g) "name") (GPUStatCollection_iter self))
    as [names|e] eqn:Hn; simpl; [eauto|].
  apply rmap_Raise in Hn as (g & Hg & Hraise).
  rewrite Forall_forall in Hall. destruct (Hall _ Hg) as [name Hname].
  unfold getitem in Hraise. by rewrite Hname in Hraise.
Qed.

(** ** The header line ([print_formatted], lines 233-240) *)

(** The [%] operator copies a text that holds no conversion but [%%],
    turning each [%%] into [%], and goes on with what follows. *)
Lemma percent_scan_escaped (d : string -> res string) (a b : string) :
  percent_escaped a = true ->
  percent_scan d PLit (a +:+ b)
  = (r <- percent_scan d PLit b ;; Ok (unescape_percent a +:+ r)).
Proof.
  remember (String.length a) as n eqn:Hn.
  revert a Hn. induction n as [n IH] using lt_wf_ind. intros a -> Ha.
  destruct a as [|c a].
  - rewrite append_nil_l. by destruct (percent_scan d PLit b).
  - cbn [percent_escaped] in Ha. rewrite append_cons.
    cbn [percent_scan unescape_percent].
    destruct (Ascii.eqb c "%") eqn:Hc.
    + destruct a as [|c' a]; [done|].
      apply andb_prop in Ha as [Hc' Ha]. rewrite append_cons.
      cbn [percent_scan]. rewrite Hc'.
      rewrite (IH (String.length a)) by (simpl; done || lia).
      by destruct (percent_scan d PLit b).
    + rewrite (IH (String.length a)) by (simpl; done || lia).
      by destruct (percent_scan d PLit b).
Qed.

Lemma percent_scan_escaped_end (d : string -> res string) (a : string) :
  percent_escaped a = true -> percent_scan d PLit a = Ok (unescape_percent a).
Proof.
  intros Ha. rewrite <- (append_empty_r a) at 1.
  rewrite percent_scan_escaped by done. simpl. by rewrite append_empty_r.
Qed.

(** The header of a snapshot whose host name and time string hold no
    conversion but [%%]. *)
Lemma header_msg_escaped (lc : Locale) (self : GPUStatCollection) (no_color : bool) :
  percent_escaped (hostname self) = true ->
  percent_escaped (strftime lc (query_time self) (D_T_FMT lc)) = true ->
  header_msg lc self no_color
  = Ok (header_text no_color (hostname self)
          (strftime lc (query_time self) (D_T_FMT lc))).
Proof.
  intros Hhost Htime. unfold header_msg, percent_format, header_text.
  set (timestr := strftime lc (query_time self) (D_T_FMT lc)) in *.
  change (percent_scan (header_colors no_color) PLit
            ("%(WHITE)s" +:+ hostname self +:+ "%(RESET)s  " +:+ timestr))
    with (v <- header_colors no_color "WHITE" ;;
          r <- percent_scan (header_colors no_color) PLit
                 (hostname self +:+ "%(RESET)s  " +:+ timestr) ;;
          Ok (v +:+ r)).
  rewrite percent_scan_escaped by done.
  change (percent_scan (header_colors no_color) PLit ("%(RESET)s  " +:+ timestr))
    with (v <- header_colors no_color "RESET" ;;
          r <- percent_scan (header_colors no_color) PLit ("  " +:+ timestr) ;;
          Ok (v +:+ r)).
  rewrite (percent_scan_escaped _ "  " timestr) by done.
  rewrite percent_scan_escaped_end by done.
  destruct no_color; simpl; by rewrite ?append_empty_r.
Qed.

Lemma has_esc_unescape (s : string) :
  has_esc s = false -> has_esc (unescape_percent s) = false.
Proof.
  remember (String.length s) as n eqn:Hn.
  revert s Hn. induction n as [n IH] using lt_wf_ind. intros s -> Hs.
  destruct s as [|c s]; [done|].
  cbn [has_esc] in Hs. apply orb_false_iff in Hs as [Hc Hs].
  cbn [unescape_percent]. destruct (Ascii.eqb c "%") eqn:Hp.
  - destruct s as [|c' s]; [done|].
    cbn [has_esc] in Hs. apply orb_false_iff in Hs as [_ Hs].
    cbn [has_esc]. rewrite (IH (String.length s)) by (simpl; done || lia). done.
  - cbn [has_esc]. rewrite Hc. simpl.
    by rewrite (IH (String.length s)) by (simpl; done || lia).
Qed.

(** ** The output of [print_formatted] in closed form (lines 229-253) *)

(** The loop over the devices writes whole lines only. *)
Lemma device_loop_lines (devices : list GPUStat) (fp : file)
    (with_colors show_cmd show_user show_pid : bool) (w : nat) (env : Env) :
  for_each devices (fun g =>
    bind (print_to g fp with_colors show_cmd show_user show_pid w)
         (fun _ => write fp (String NL EmptyString))) env
  = (device_lines fp
       (render_lines
          (fun g => print_to_reps g with_colors show_cmd show_user show_pid w)
          devices).1,
     (render_lines
        (fun g => print_to_reps g with_colors show_cmd show_user show_pid w)
        devices).2).
Proof.
  induction devices as [|g devices IH]; [done|].
  cbn [for_each render_lines]. unfold bind at 1.
  assert (bind (print_to g fp with_colors show_cmd show_user show_pid w)
               (fun _ => write fp (String NL EmptyString)) env
          = match print_to_reps g with_colors show_cmd show_user show_pid w with
            | Ok line => ([(fp, line); (fp, String NL EmptyString)], Ok tt)
            | Raise e => ([], Raise e)
            end) as ->
    by (unfold bind, print_to, lift, write, ret;
        by destruct (print_to_reps g with_colors show_cmd show_user show_pid w)).
  destruct (print_to_reps g with_colors show_cmd show_user show_pid w)
    as [line|e]; [|done].
  rewrite IH. by destruct (render_lines _ devices).
Qed.

(** [print_formatted] on a snapshot whose host name and time string hold no
    conversion but [%%]. *)
Lemma print_formatted_render (self : GPUStatCollection) (fp : file)
    (no_color show_cmd show_user show_pid : bool) (env : Env) :
  percent_escaped (hostname self) = true ->
  percent_escaped
    (strftime (lc_time env) (query_time self) (D_T_FMT (lc_time env))) = true ->
  print_formatted self fp no_color show_cmd show_user show_pid env
  = render (strftime (lc_time env) (query_time self) (D_T_FMT (lc_time env)))
      self fp no_color show_cmd show_user show_pid.
Proof.
  intros Hhost Htime. unfold print_formatted, render.
  unfold bind at 1, ask. cbn iota beta.
  unfold bind at 1, lift. cbn iota beta.
  rewrite header_msg_escaped by done.
  cbn iota beta. unfold bind at 1, print. unfold bind at 1, write. cbn iota beta.
  unfold bind at 1. cbn iota beta.
  destruct (auto_gpuname_width self) as [w|e]; [|done].
  cbn iota beta. rewrite device_loop_lines.
  by destruct (render_lines _ _).
Qed.

(** The lines are those of the first devices, one each; the loop ends
    normally when every device got its line, and with the exception of the
    first device without a line otherwise. *)
Lemma render_lines_spec (line_of : GPUStat -> res string) (devices : list GPUStat) :
  Forall2 (fun g line => line_of g = Ok line)
    (take (length (render_lines line_of devices).1) devices)
    (render_lines line_of devices).1
  /\ match devices !! length (render_lines line_of devices).1 with
     | None => (render_lines line_of devices).2 = Ok tt
     | Some g =>
         exists e, line_of g = Raise e
           /\ (render_lines line_of devices).2 = Raise e
     end.
Proof.
  induction devices as [|g devices [IH1 IH2]]; simpl; [by split; [constructor|]|].
  destruct (line_of g) as [line|e] eqn:Hg; simpl; [|split; [constructor | eauto]].
  destruct (render_lines line_of devices) as [lines r]. simpl in *.
  split; [by constructor | done].
Qed.

Lemma render_lines_all (line_of : GPUStat -> res string) (devices : list GPUStat) :
  Forall (fun g => exists line, line_of g = Ok line) devices ->
  length (render_lines line_of devices).1 = length devices
  /\ (render_lines line_of devices).2 = Ok tt.
Proof.
  induction 1 as [|g devices [line Hg] _ [IH1 IH2]]; [done|].
  simpl. rewrite Hg. destruct (render_lines line_of devices) as [lines r].
  simpl in *. by rewrite IH1.
Qed.

Lemma render_lines_Forall (P : string -> Prop) (line_of : GPUStat -> res string)
    (devices : list GPUStat) :
  Forall (fun g => forall line, line_of g = Ok line -> P line) devices ->
  Forall P (render_lines line_of devices).1.
Proof.
  induction 1 as [|g devices Hg _ IH]; [constructor|].
  simpl. destruct (line_of g) as [line|e] eqn:Hl; [|constructor].
  destruct (render_lines line_of devices) as [lines r]. simpl in *.
  constructor; auto.
Qed.

(** ** Colours and escape sequences ([print_formatted]) *)

Lemma has_esc_header_plain (hostname timestr : string) :
  has_esc hostname = false -> has_esc timestr = false ->
  has_esc (header_text true hostname timestr) = false.
Proof.
  intros Hhost Htime. unfold header_text.
  rewrite append_nil_l, !has_esc_app.
  by rewrite (has_esc_unescape _ Hhost), (has_esc_unescape _ Htime).
Qed.

Lemma has_esc_header_colored (hostname timestr : string) :
  has_esc (header_text false hostname timestr) = true.
Proof. unfold header_text. by rewrite has_esc_app. Qed.

(** C5, as stated, fails: the renderer copies its data as they are, so with
    colours off a device name that contains an escape sequence puts that
    sequence in the output. *)
Lemma escape_in_name_is_printed :
  has_esc (written sys_stdout
             (print_formatted escape_named_snapshot sys_stdout true false false false
                (sample_env locale_ymd noon)).1) = true.
Proof. reflexivity. Qed.

(** C5 (amended): [print_formatted] writes the header line and then the
    line of every device (of all of them, and it returns normally, when every
    device can be rendered).  With colours off it adds no escape sequence:
    when the host name, the time string and the fields of the devices and of
    their processes contain no escape character, neither the header nor any
    device line contains one.  With colours on, the header and every device
    line contain an escape sequence; whether the output is a terminal is not
    an input of the renderer.  The host name and the time string hold no
    [%] conversion other than [%%]. *)
Theorem no_color_adds_no_escape (self : GPUStatCollection) (fp : file)
    (no_color show_cmd show_user show_pid : bool) (env : Env) :
  let timestr := strftime (lc_time env) (query_time self) (D_T_FMT (lc_time env)) in
  percent_escaped (hostname self) = true ->
  percent_escaped timestr = true ->
  exists header lines,
    (print_formatted self fp no_color show_cmd show_user show_pid env).1
    = (sys_stdout, header) :: (sys_stdout, String NL EmptyString)
        :: device_lines fp lines
    /\ (Forall (fun g => renderable_entry (entry g)
                         /\ Forall (renderable_process show_cmd show_user show_pid)
                              (processes g))
          (GPUStatCollection_iter self) ->
        length lines = length (GPUStatCollection_iter self)
        /\ (print_formatted self fp no_color show_cmd show_user show_pid env).2
           = Ok tt)
    /\ (no_color = true ->
        has_esc (hostname self) = false -> has_esc timestr = false ->
        Forall plain_device (GPUStatCollection_iter self) ->
        has_esc header = false /\ Forall (fun line => has_esc line = false) lines)
    /\ (no_color = false ->
        has_esc header = true /\ Forall (fun line => has_esc line = true) lines).
Proof.
  intros timestr Hhost Htime.
  rewrite print_formatted_render by done. fold timestr. unfold render.
  exists (header_text no_color (hostname self) timestr).
  destruct (auto_gpuname_width self) as [w|e] eqn:Hw.
  - set (line_of := fun g =>
           print_to_reps g (negb no_color) show_cmd show_user show_pid w).
    exists (render_lines line_of (GPUStatCollection_iter self)).1.
    destruct (render_lines line_of (GPUStatCollection_iter self)) as [lines r] eqn:Hl.
    cbn [fst snd]. split; [done|]. split; [|split].
    + intros Hall.
      destruct (render_lines_all line_of (GPUStatCollection_iter self)) as [H1 H2].
      { eapply Forall_impl; [exact Hall|]. intros g [He Hps]. unfold line_of.
        destruct (print_to_reps_cases g (negb no_color) show_cmd show_user show_pid w)
          as [(reps & -> & _)|[_ Hn]]; [eauto | by destruct Hn]. }
      by rewrite Hl in H1, H2.
    + intros -> Hh Ht Hplain. split; [by apply has_esc_header_plain|].
      replace lines with (render_lines line_of (GPUStatCollection_iter self)).1
        by (by rewrite Hl).
      apply render_lines_Forall. eapply Forall_impl; [exact Hplain|].
      intros g Hg line. by apply print_to_reps_plain.
    + intros ->. split; [apply has_esc_header_colored|].
      replace lines with (render_lines line_of (GPUStatCollection_iter self)).1
        by (by rewrite Hl).
      apply render_lines_Forall. apply Forall_forall. intros g _ line Hline.
      apply print_to_reps_colored in Hline as [rest ->]. by rewrite has_esc_app.
  - exists []. cbn [fst snd]. split; [done|]. split; [|split].
    + intros Hall. destruct (auto_gpuname_width_named self) as [w Hw'].
      { eapply Forall_impl; [exact Hall|]. by intros g [(_ & Hname & _) _]. }
      congruence.
    + intros -> Hh Ht _. split; [by apply has_esc_header_plain | constructor].
    + intros ->. split; [apply has_esc_header_colored | constructor].
Qed.

(** The sample snapshot, whose data are plain, printed without colours and
    with every option. *)
Lemma no_color_adds_no_escape_sample :
  exists header lines,
    (print_formatted sample_snapshot sys_stdout true true true true
       (sample_env locale_ymd noon)).1
    = (sys_stdout, header) :: (sys_stdout, String NL EmptyString)
        :: device_lines sys_stdout lines
    /\ (Forall (fun g => renderable_entry (entry g)
                         /\ Forall (renderable_process true true true) (processes g))
          (GPUStatCollection_iter sample_snapshot) ->
        length lines = length (GPUStatCollection_iter sample_snapshot)
        /\ (print_formatted sample_snapshot sys_stdout true true true true
              (sample_env locale_ymd noon)).2
           = Ok tt)
    /\ (true = true ->
        has_esc (hostname sample_snapshot) = false ->
        has_esc (strftime locale_ymd (query_time sample_snapshot) (D_T_FMT locale_ymd))
        = false ->
        Forall plain_device (GPUStatCollection_iter sample_snapshot) ->
        has_esc header = false /\ Forall (fun line => has_esc line = false) lines)
    /\ (true = false ->
        has_esc header = true /\ Forall (fun line => has_esc line = true) lines).
Proof.
  exact (no_color_adds_no_escape sample_snapshot sys_stdout true true true true
           (sample_env locale_ymd noon) eq_refl eq_refl).
Defined.

(** ** Rendering as a function of its inputs ([print_formatted]) *)

(** C10, as stated, fails: the header is formatted with the date and time
    format of the process locale, which is neither part of the snapshot nor
    an option.  The same snapshot with the same options prints two different
    headers under two locales. *)
Lemma header_follows_locale :
  written sys_stdout
    (print_formatted sample_snapshot sys_stdout true false false false
       (sample_env locale_ymd noon)).1
  = "host1  2026-11-04 12:30:00" +:+ nl
    +:+ "[0] GPU0             | 45'C,  10 % |   100 /  8000 MB | alice(50M)" +:+ nl
  /\ written sys_stdout
       (print_formatted sample_snapshot sys_stdout true false false false
          (sample_env locale_dmy noon)).1
     = "host1  04.11.2026 12:30:00" +:+ nl
       +:+ "[0] GPU0             | 45'C,  10 % |   100 /  8000 MB | alice(50M)" +:+ nl.
Proof. split; reflexivity. Qed.

(** C10 (amended): what [print_formatted] writes, and how it ends, is the
    value of [render], a function of the snapshot, the file, the options and
    the time string that the process locale makes of the snapshot's time
    stamp, and of nothing else: the clock, the host and the external commands
    of the moment play no part.  Two calls with the same snapshot and options
    under locales that give the same time string write the same strings to the
    same files.  The host name and the time string hold no [%] conversion
    other than [%%]. *)
Theorem print_formatted_pure_up_to_locale (self : GPUStatCollection) (fp : file)
    (no_color show_cmd show_user show_pid : bool) (env1 env2 : Env) :
  let timestr env :=
    strftime (lc_time env) (query_time self) (D_T_FMT (lc_time env)) in
  percent_escaped (hostname self) = true ->
  percent_escaped (timestr env1) = true ->
  timestr env2 = timestr env1 ->
  print_formatted self fp no_color show_cmd show_user show_pid env1
  = render (timestr env1) self fp no_color show_cmd show_user show_pid
  /\ print_formatted self fp no_color show_cmd show_user show_pid env2
     = print_formatted self fp no_color show_cmd show_user show_pid env1.
Proof.
  intros timestr Hhost Htime Heq. unfold timestr in *.
  rewrite (print_formatted_render _ _ _ _ _ _ env1) by done.
  rewrite (print_formatted_render _ _ _ _ _ _ env2) by (by rewrite ?Heq).
  by rewrite Heq.
Qed.

Lemma print_formatted_pure_sample :
  print_formatted sample_snapshot sys_stdout false true true true
    (sample_env locale_ymd noon)
  = render "2026-11-04 12:30:00" sample_snapshot sys_stdout false true true true
  /\ print_formatted sample_snapshot sys_stdout false true true true other_host_env
     = print_formatted sample_snapshot sys_stdout false true true true
         (sample_env locale_ymd noon).
Proof.
  exact (print_formatted_pure_up_to_locale sample_snapshot sys_stdout
           false true true true (sample_env locale_ymd noon) other_host_env
           eq_refl eq_refl eq_refl).
Defined.

(** ** Floating point: the sign of a difference *)

Lemma digits2_pos_size (m : positive) : digits2_pos m = Pos.size m.
Proof. induction m as [m IH|m IH|]; simpl; congruence. Qed.

Lemma iter_xO_pow (m d : positive) : Pos.iter xO m d = (m * 2 ^ d)%positive.
Proof.
  induction d as [|d IH] using Pos.peano_ind.
  - simpl. lia.
  - rewrite Pos.iter_succ, IH, Pos.pow_succ_r. lia.
Qed.

Lemma binary_round_sign (prec emax : Z) (s : bool) (m : positive) (e : Z) :
  signed_or_nan s (binary_round prec emax s m e).
Proof.
  unfold binary_round, binary_round_aux.
  destruct (shl_align _ _ _) as [mz ez].
  destruct (shr_fexp _ _ _ _ _) as [mrs' e'].
  destruct (shr_fexp _ _ _ _ _) as [mrs'' e''].
  destruct (shr_m mrs''); simpl; [done| |done].
  by destruct (Z.leb _ _).
Qed.

Lemma not_positive (x : spec_float) :
  signed_or_nan true x -> SFltb (S754_zero false) x = false.
Proof. destruct x as [s|s| |s m e]; simpl; try done; by intros ->. Qed.

(** Of two canonical mantissas, the one with the smaller exponent is the
    smaller once both are aligned. *)
Lemma aligned_le (m1 m2 : positive) (e1 e2 : Z) :
  bounded prec emax m1 e1 = true -> bounded prec emax m2 e2 = true ->
  (e1 < e2)%Z ->
  (Z.pos (shl_align m1 e1 e1).1 <= Z.pos (shl_align m2 e2 e1).1)%Z.
Proof.
  unfold bounded, canonical_mantissa, fexp, shl_align.
  rewrite !digits2_pos_size.
  intros [H1 _]%andb_prop [H2 _]%andb_prop Hlt.
  apply Z.eqb_eq in H1, H2. rewrite Z.sub_diag.
  destruct (e1 - e2)%Z as [|d|d] eqn:Hd; [lia|lia|].
  cbn [fst]. rewrite iter_xO_pow.
  assert (Pos.size m1 <= Pos.size m2)%positive as Hsize.
  { rewrite ?digits2_pos_size in H1. rewrite ?digits2_pos_size in H2.
    change IntDef.Z.max with Z.max in *. change IntDef.Z.sub with Z.sub in *.
    change IntDef.Z.add with Z.add in *. lia. }
  assert (Z.pos m1 < 2 ^ Z.pos (Pos.size m1))%Z as Hgt
    by (rewrite <- Pos2Z.inj_pow; apply Pos2Z.pos_lt_pos, Pos.size_gt).
  assert (2 ^ Z.pos (Pos.size m2) <= 2 * Z.pos m2)%Z as Hle
    by (rewrite <- Pos2Z.inj_pow; apply (Pos2Z.pos_le_pos _ (m2~0)), Pos.size_le).
  assert (2 ^ Z.pos (Pos.size m1) <= 2 ^ Z.pos (Pos.size m2))%Z as Hpow
    by (apply Z.pow_le_mono_r; lia).
  assert (2 ^ 1 <= 2 ^ Z.pos d)%Z as Hd2 by (apply Z.pow_le_mono_r; lia).
  rewrite Pos2Z.inj_mul, Pos2Z.inj_pow.
  nia.
Qed.

Lemma SFsub_not_positive (x y : spec_float) :
  SpecFloat.valid_binary prec emax x = true ->
  SpecFloat.valid_binary prec emax y = true ->
  SFleb x y = true ->
  SFltb (S754_zero false) (SFsub prec emax x y) = false.
Proof.
  intros Hx Hy Hle.
  destruct x as [sx|sx| |sx mx ex], y as [sy|sy| |sy my ey];
    [ unfold SFleb in Hle; simpl in Hle |- *;
      repeat match goal with s : bool |- _ => destruct s end; done .. | ].
  simpl in Hx, Hy. unfold SFleb, SFcompare in Hle.
  unfold SFsub, binary_normalize.
  set (ez := Z.min ex ey).
  set (m := (cond_Zopp sx (Z.pos (shl_align mx ex ez).1)
             - cond_Zopp sy (Z.pos (shl_align my ey ez).1))%Z).
  assert (m <= 0)%Z as Hm.
  { subst m. destruct sx, sy; simpl; [| lia | done |].
    - (* both negative *)
      destruct (Z.compare_spec ex ey) as [->|Hlt|Hgt]; [| done |].
      + subst ez. rewrite Z.min_id.
        unfold shl_align. rewrite Z.sub_diag. simpl.
        rewrite Pos.compare_cont_spec in Hle. simpl in Hle.
        destruct (Pos.compare_spec mx my); simpl in Hle; try done; lia.
      + subst ez. rewrite Z.min_r by lia.
        pose proof (aligned_le my mx ey ex Hy Hx Hgt). lia.
    - (* both positive *)
      destruct (Z.compare_spec ex ey) as [->|Hlt|Hgt]; [| | done].
      + subst ez. rewrite Z.min_id.
        unfold shl_align. rewrite Z.sub_diag. simpl.
        rewrite Pos.compare_cont_spec in Hle. simpl in Hle.
        destruct (Pos.compare_spec mx my); simpl in Hle; try done; lia.
      + subst ez. rewrite Z.min_l by lia.
        pose proof (aligned_le mx my ex ey Hx Hy Hlt). lia. }
  destruct m as [|p|p]; [done | lia |].
  apply not_positive, binary_round_sign.
Qed.

(** [a <= e] implies that [a - e > 0] is false, for all floats. *)
Lemma float_sub_not_positive (a e : float) :
  PrimFloat.leb a e = true -> PrimFloat.ltb 0 (PrimFloat.sub a e) = false.
Proof.
  rewrite leb_spec, ltb_spec, sub_spec. intros Hle.
  change (Prim2SF 0) with (S754_zero false).
  apply SFsub_not_positive; [apply Prim2SF_valid..|exact Hle].
Qed.

Lemma float_ltb_leb (x y : float) :
  PrimFloat.ltb x y = true -> PrimFloat.leb x y = true.
Proof.
  rewrite ltb_spec, leb_spec. unfold SFltb, SFleb.
  destruct (SFcompare _ _) as [[]|]; congruence.
Qed.

(** ** The command line ([src/gpustat/cli.py]) *)

Lemma apply_show_all_json (args : cli.Args) :
  cli.json (cli.apply_show_all args) = cli.json args
  /\ cli.interval (cli.apply_show_all args) = cli.interval args
  /\ cli.debug (cli.apply_show_all args) = cli.debug args.
Proof. unfold cli.apply_show_all. by destruct (cli.show_all args). Qed.

Lemma requested_interval_show_all (args : cli.Args) :
  cli.requested_interval (cli.apply_show_all args) = cli.requested_interval args.
Proof.
  unfold cli.requested_interval. by destruct (apply_show_all_json args) as (_ & -> & _).
Qed.

(** [max(0.1, i)] is one of the two, and at least 0.1. *)
Lemma effective_interval_floor (i : float) :
  cli.effective_interval i
  = (if PrimFloat.ltb cli.one_tenth i then i else cli.one_tenth)
  /\ PrimFloat.leb cli.one_tenth (cli.effective_interval i) = true.
Proof.
  unfold cli.effective_interval, cli.py_max, cli.gt.
  destruct (PrimFloat.ltb cli.one_tenth i) eqn:E; (split; [done|]).
  - by apply float_ltb_leb.
  - reflexivity.
Qed.

(** C8: with [--json] and a positive [--interval], [main] writes the usage
    error to standard error and exits with code 1, whatever the devices would
    have answered; no snapshot query takes place. *)
Theorem json_excludes_interval (args : cli.Args) (ticks : list cli.tick) (i : float) :
  cli.json args = true ->
  cli.interval args = Some i ->
  PrimFloat.ltb 0 i = true ->
  cli.main args ticks
  = ([cli.StderrWrite ("Error: --json and --interval/-i can't be used together."
                       +:+ String NL EmptyString)],
     cli.Raises (SystemExit 1))
  /\ cli.queries (cli.main args ticks).1 = [].
Proof.
  intros Hjson Hint Hpos.
  assert (cli.main args ticks
          = ([cli.StderrWrite ("Error: --json and --interval/-i can't be used together."
                               +:+ String NL EmptyString)],
             cli.Raises (SystemExit 1))) as Hmain.
  { unfold cli.main, cli.requested_interval, cli.gt.
    destruct (apply_show_all_json args) as (-> & -> & _).
    by rewrite Hint, Hjson, Hpos. }
  split; [exact Hmain|]. by rewrite Hmain.
Qed.

Lemma json_excludes_interval_scenario_D :
  cli.main scenario_D [pass 0 0.5]
  = ([cli.StderrWrite ("Error: --json and --interval/-i can't be used together."
                       +:+ String NL EmptyString)],
     cli.Raises (SystemExit 1))
  /\ cli.queries (cli.main scenario_D [pass 0 0.5]).1 = [].
Proof.
  apply (json_excludes_interval scenario_D [pass 0 0.5] 2%float); reflexivity.
Defined.

(** Passes that complete are passes of the loop, one after the other. *)
Lemma loop_body_passes (interval : float) (debug : bool) (kwargs : cli.Kwargs)
    (passes rest : list cli.tick) :
  Forall completes passes ->
  cli.loop_body interval false debug kwargs (passes ++ rest)
  = ((passes ≫= pass_events interval debug kwargs)
     ++ (cli.loop_body interval false debug kwargs rest).1,
     (cli.loop_body interval false debug kwargs rest).2).
Proof.
  induction 1 as [|t ticks (Hq & Hr & Hs) _ IH]; [by destruct (cli.loop_body _ _ _ _ _)|].
  rewrite <- app_comm_cons. cbn [cli.loop_body]. unfold cli.print_gpustat.
  rewrite Hq, Hr, Hs, IH. clear IH.
  destruct (cli.loop_body interval false debug kwargs rest) as [ev' out'].
  rewrite bind_cons.
  assert (pass_events interval debug kwargs t
          = [cli.MoveCursorHome; cli.NewQuery debug; cli.PrintFormatted kwargs;
             cli.ClearEos]
            ++ (if PrimFloat.ltb 0
                     (PrimFloat.sub interval
                        (PrimFloat.sub (cli.time_after t) (cli.time_before t)))
                then [cli.Sleep
                        (PrimFloat.sub interval
                           (PrimFloat.sub (cli.time_after t) (cli.time_before t)))]
                else [])) as ->
    by (unfold pass_events, sleep_after, elapsed; by destruct (PrimFloat.ltb _ _)).
  unfold cli.gt. cbn [fst snd].
  destruct (PrimFloat.ltb 0 _); simpl; by rewrite <- ?app_assoc.
Qed.

(** C9: in watch mode the interval that [main] works with is
    [max(0.1, requested)], which is at least 0.1.  Every pass in which the
    query, the printing and the sleep return is followed by the next pass;
    in it the loop takes the snapshot, prints it, and then calls
    [time.sleep(interval - elapsed)] when that difference is positive and
    does not sleep otherwise, that is for [max(0, interval - elapsed)] in
    all.  There is no sleep when the pass took as long as the interval or
    longer.  Interval, times and differences are binary64 floats. *)
Theorem watch_interval_and_sleep (args : cli.Args) (passes rest : list cli.tick) :
  cli.json args = false ->
  PrimFloat.ltb 0 (cli.requested_interval args) = true ->
  Forall completes passes ->
  let requested := cli.requested_interval args in
  let interval := cli.effective_interval requested in
  let kwargs := cli.kwargs_of (Some cli.clear_eol_linesep) (cli.apply_show_all args) in
  interval = (if PrimFloat.ltb cli.one_tenth requested then requested else cli.one_tenth)
  /\ PrimFloat.leb cli.one_tenth interval = true
  /\ (cli.main args (passes ++ rest)).1
     = cli.EnterFullscreen
       :: (passes ≫= pass_events interval (cli.debug args) kwargs)
       ++ tail (cli.main args rest).1
  /\ (cli.main args (passes ++ rest)).2 = (cli.main args rest).2
  /\ cli.main args [] = ([cli.EnterFullscreen], cli.Running)
  /\ (forall t, sleep_after interval t
                = (if PrimFloat.ltb 0 (PrimFloat.sub interval (elapsed t))
                   then Some (PrimFloat.sub interval (elapsed t)) else None))
  /\ (forall t, PrimFloat.leb interval (elapsed t) = true ->
                sleep_after interval t = None).
Proof.
  intros Hjson Hpos Hpasses requested interval kwargs.
  destruct (effective_interval_floor requested) as [Hmax Hfloor].
  split; [exact Hmax|]. split; [exact Hfloor|].
  assert (forall ticks,
            cli.main args ticks
            = (let '(ev, out) :=
                 cli.loop_body interval false (cli.debug args) kwargs ticks in
               match out with
               | cli.Running => (cli.EnterFullscreen :: ev, cli.Running)
               | cli.Returns _ =>
                   (cli.EnterFullscreen :: ev ++ [cli.LeaveFullscreen], cli.Returns None)
               | cli.Raises e =>
                   (cli.EnterFullscreen :: ev ++ [cli.LeaveFullscreen], cli.Raises e)
               end)) as Hmain.
  { intros ticks. unfold cli.main, cli.loop_gpustat, cli.gt.
    rewrite requested_interval_show_all, Hpos. fold requested interval kwargs.
    destruct (apply_show_all_json args) as (-> & _ & ->). rewrite Hjson.
    destruct (cli.loop_body interval false (cli.debug args) kwargs ticks) as [ev out].
    by destruct out. }
  split; [|split; [|split; [|split]]].
  - rewrite !Hmain, loop_body_passes by done.
    destruct (cli.loop_body interval false (cli.debug args) kwargs rest) as [ev out].
    cbn [fst snd]. destruct out; cbn [fst tail]; by rewrite <- ?app_assoc.
  - rewrite !Hmain, loop_body_passes by done.
    destruct (cli.loop_body interval false (cli.debug args) kwargs rest) as [ev out].
    cbn [fst snd]. by destruct out.
  - by rewrite Hmain.
  - done.
  - intros t Hle. unfold sleep_after.
    by rewrite (float_sub_not_positive _ _ Hle).
Qed.

(** A watch run with interval 0.0625, raised to 0.1: a pass of 0.03125
    seconds is followed by a sleep; a pass of 0.25 seconds is not. *)
Lemma watch_interval_and_sleep_sample :
  cli.main watch_args [pass 0 0.03125; pass 1 0.25]
  = ([cli.EnterFullscreen;
      cli.MoveCursorHome; cli.NewQuery false;
      cli.PrintFormatted (cli.kwargs_of (Some cli.clear_eol_linesep) watch_args);
      cli.ClearEos; cli.Sleep (PrimFloat.sub cli.one_tenth 0.03125);
      cli.MoveCursorHome; cli.NewQuery false;
      cli.PrintFormatted (cli.kwargs_of (Some cli.clear_eol_linesep) watch_args);
      cli.ClearEos],
     cli.Running).
Proof.
  assert (Forall completes [pass 0 0.03125; pass 1 0.25]) as H
    by (repeat apply List.Forall_cons; try apply List.Forall_nil; done).
  destruct (watch_interval_and_sleep watch_args [pass 0 0.03125; pass 1 0.25] []
              eq_refl eq_refl H) as (_ & _ & Hev & Hout & _).
  rewrite app_nil_r in Hev, Hout.
  rewrite (surjective_pairing (cli.main watch_args _)), Hev, Hout.
  reflexivity.
Defined.

(** ** Rendering one device: success and failure ([GPUStat.print_to]) *)


Example unsupported_temperature_raises :
  print_to_reps unsupported_temperature false false false false 16
  = Raise ValueError.
Proof. reflexivity. Qed.

(** X2: the width that [print_formatted] gives to the name column: it is at
    least 16 and at least as long as every device name, so every padded name
    is exactly that wide and the columns line up; it is no wider than needed
    (16, or the length of some name).  A device without a name makes the
    computation, and with it [print_formatted], raise [KeyError]. *)
Theorem gpuname_width_fits (self : GPUStatCollection) :
  (forall w, auto_gpuname_width self = Ok w ->
     (16 <= w)%nat
     /\ Forall (fun g => exists name,
                  entry g !! "name" = Some name
                  /\ (String.length name <= w)%nat
                  /\ String.length (ljust w name) = w)
          (GPUStatCollection_iter self)
     /\ (w = 16%nat
         \/ exists g name, g ∈ GPUStatCollection_iter self
              /\ entry g !! "name" = Some name /\ String.length name = w))
  /\ (Forall (fun g => is_Some (entry g !! "name")) (GPUStatCollection_iter self) ->
      exists w, auto_gpuname_width self = Ok w)
  /\ (forall g, g ∈ GPUStatCollection_iter self -> entry g !! "name" = None ->
      auto_gpuname_width self = Raise KeyError).
Proof.
  unfold auto_gpuname_width. repeat split.
  - destruct (rmap _ _) as [names|]; simpl in *; [|done].
    injection H as <-.
    destruct (foldr_max_bounds 0 (16%nat :: (String.length <$> names))) as (_ & Hb & _).
    by apply Forall_cons_1 in Hb as [Hb _].
  - destruct (rmap _ _) as [names|] eqn:Hn; simpl in *; [|done].
    injection H as <-. apply rmap_Ok in Hn.
    destruct (foldr_max_bounds 0 (16%nat :: (String.length <$> names))) as (_ & Hb & _).
    apply Forall_cons_1 in Hb as [_ Hb]. rewrite Forall_fmap in Hb.
    apply Forall_forall. intros g Hg.
    destruct (proj1 (list_elem_of_lookup _ _) Hg) as [i Hi].
    destruct (Forall2_lookup_l _ _ _ _ _ Hn Hi) as (name & Hname & Hget).
    apply getitem_Ok in Hget. exists name. split; [done|].
    assert (String.length name
            <= foldr Nat.max 0 (16 :: (String.length <$> names)))%nat as Hle.
    { rewrite Forall_forall in Hb. apply Hb.
      apply list_elem_of_lookup. eauto. }
    split; [exact Hle|]. rewrite length_ljust. apply Nat.max_l. exact Hle.
  - destruct (rmap _ _) as [names|] eqn:Hn; simpl in *; [|done].
    injection H as <-. apply rmap_Ok in Hn.
    destruct (foldr_max_bounds 0 (16%nat :: (String.length <$> names))) as (_ & _ & Hc).
    destruct Hc as [Hz|Hin].
    { left. simpl in Hz. simpl. lia. }
    apply elem_of_cons in Hin as [Hin|Hin]; [by left|]. right.
    apply list_elem_of_fmap in Hin as (name & Hlen & Hname).
    destruct (proj1 (list_elem_of_lookup _ _) Hname) as [i Hi].
    destruct (Forall2_lookup_r _ _ _ _ _ Hn Hi) as (g & Hg & Hget).
    apply getitem_Ok in Hget. exists g, name.
    split; [apply list_elem_of_lookup; eauto|]. split; [done|]. exact (eq_sym Hlen).
  - intros Hall.
    destruct (rmap (fun g => getitem (entry g) "name") (GPUStatCollection_iter self))
      as [names|e] eqn:Hn; simpl; [eauto|].
    apply rmap_Raise in Hn as (g & Hg & Hraise).
    rewrite Forall_forall in Hall. destruct (Hall _ Hg) as [name Hname].
    unfold getitem in Hraise. by rewrite Hname in Hraise.
  - intros g Hg Hnone.
    destruct (rmap (fun g => getitem (entry g) "name") (GPUStatCollection_iter self))
      as [names|e] eqn:Hn; simpl.
    + apply rmap_Ok in Hn.
      destruct (proj1 (list_elem_of_lookup _ _) Hg) as [i Hi].
      destruct (Forall2_lookup_l _ _ _ _ _ Hn Hi) as (name & _ & Hget).
      apply getitem_Ok in Hget. congruence.
    + apply rmap_Raise in Hn as (g' & _ & Hraise).
      unfold getitem in Hraise. destruct (entry g' !! "name"); [done|].
      by injection Hraise as <-.
Qed.

Lemma gpuname_width_of_long_name :
  auto_gpuname_width long_name_snapshot = Ok 19%nat
  /\ (16 <= 19)%nat
  /\ (19%nat = 16%nat
      \/ exists g name, g ∈ GPUStatCollection_iter long_name_snapshot
           /\ entry g !! "name" = Some name /\ String.length name = 19%nat).
Proof.
  assert (auto_gpuname_width long_name_snapshot = Ok 19%nat) as H
    by (vm_compute; reflexivity).
  destruct (proj1 (gpuname_width_fits long_name_snapshot) 19%nat H) as (H1 & _ & H3).
  exact (conj H (conj H1 H3)).
Defined.

(** ** The columns of the device lines ([print_to] under [print_formatted]) *)

Lemma auto_gpuname_width_bound (self : GPUStatCollection) (w : nat) (g : GPUStat)
    (name : string) :
  auto_gpuname_width self = Ok w ->
  g ∈ GPUStatCollection_iter self ->
  entry g !! "name" = Some name ->
  (String.length name <= w)%nat.
Proof.
  unfold auto_gpuname_width. intros Hw Hg Hname.
  destruct (rmap _ _) as [names|] eqn:Hn; simpl in Hw; [|done].
  injection Hw as <-. apply rmap_Ok in Hn.
  destruct (foldr_max_bounds 0 (16%nat :: (String.length <$> names))) as (_ & Hb & _).
  apply Forall_cons_1 in Hb as [_ Hb]. rewrite Forall_fmap in Hb.
  destruct (proj1 (list_elem_of_lookup _ _) Hg) as [i Hi].
  destruct (Forall2_lookup_l _ _ _ _ _ Hn Hi) as (name' & Hname' & Hget).
  apply getitem_Ok in Hget. assert (name' = name) as -> by congruence.
  rewrite Forall_forall in Hb. apply Hb. apply list_elem_of_lookup. eauto.
Qed.

(** The tokens of the processes, each after a blank, follow what was there. *)
Lemma rfold_tokens_rmap (f : gmap string string -> res string)
    (ps : list (gmap string string)) (reps out : string) :
  rfold (fun reps p => t <- f p ;; Ok (reps +:+ " " +:+ t)) reps ps = Ok out ->
  exists tokens,
    rmap f ps = Ok tokens
    /\ out = reps +:+ String.concat EmptyString ((fun t => " " +:+ t) <$> tokens).
Proof.
  revert reps. induction ps as [|p ps IH]; intros reps H; simpl in H.
  - exists []. split; [done|]. simpl. rewrite append_empty_r. congruence.
  - simpl. destruct (f p) as [t|e]; simpl in H |- *; [|discriminate].
    destruct (IH _ H) as (tokens & -> & ->). exists (t :: tokens). split; [done|].
    rewrite fmap_cons. cbn [String.concat].
    destruct ((fun t => " " +:+ t) <$> tokens) as [|t' ts] eqn:Hts.
    + simpl. by autorewrite with str.
    + by autorewrite with str.
Qed.

(** X3: without colours, a line of [print_formatted] is laid out in columns
    of fixed width whenever the readings of the device fit (three characters
    for temperature and utilization, five for the two memory figures): the
    index in brackets, the name in a column as wide as the name column of the
    snapshot, the two readings in columns of three, the memory figures in
    columns of five, with the same separators between them for every device,
    so that the bars of all devices with indices of one length stand in the
    same columns.  The tokens of the processes follow, each after a blank. *)
Theorem device_columns_line_up (self : GPUStatCollection) (g : GPUStat) (w : nat)
    (show_cmd show_user show_pid : bool) (reps : string) :
  auto_gpuname_width self = Ok w ->
  g ∈ GPUStatCollection_iter self ->
  readings_fit (entry g) ->
  print_to_reps g false show_cmd show_user show_pid w = Ok reps ->
  exists index name temp util mem_used mem_total tokens,
    entry g !! "index" = Some index /\ entry g !! "name" = Some name
    /\ entry g !! "temperature.gpu" = Some temp
    /\ entry g !! "utilization.gpu" = Some util
    /\ entry g !! "memory.used" = Some mem_used
    /\ entry g !! "memory.total" = Some mem_total
    /\ rmap (process_repr no_colors show_cmd show_user show_pid) (processes g)
       = Ok tokens
    /\ reps = "[" +:+ index +:+ "] " +:+ ljust w name +:+ " |"
              +:+ rjust 3 temp +:+ "'C, " +:+ rjust 3 util +:+ " % | "
              +:+ rjust 5 mem_used +:+ " / " +:+ rjust 5 mem_total +:+ " MB |"
              +:+ String.concat EmptyString ((fun t => " " +:+ t) <$> tokens)
    /\ String.length (ljust w name) = w
    /\ String.length (rjust 3 temp) = 3%nat
    /\ String.length (rjust 3 util) = 3%nat
    /\ String.length (rjust 5 mem_used) = 5%nat
    /\ String.length (rjust 5 mem_total) = 5%nat.
Proof.
  intros Hw Hg (Ht & Hu & Hmu & Hmt) Hreps. unfold print_to_reps in Hreps.
  destruct (color_settings (entry g) false) as [colors|] eqn:Hc; simpl in Hreps; [|done].
  apply color_settings_off in Hc as ->.
  destruct (device_repr no_colors (entry g) w) as [device|] eqn:Hd; simpl in Hreps; [|done].
  unfold device_repr in Hd.
  destruct (getitem (entry g) "index") as [index|] eqn:H1; simpl in Hd; [|done].
  destruct (getitem (entry g) "name") as [name|] eqn:H2; simpl in Hd; [|done].
  destruct (getitem (entry g) "temperature.gpu") as [temp|] eqn:H3; simpl in Hd; [|done].
  destruct (getitem (entry g) "utilization.gpu") as [util|] eqn:H4; simpl in Hd; [|done].
  destruct (getitem (entry g) "memory.used") as [mem_used|] eqn:H5; simpl in Hd; [|done].
  destruct (getitem (entry g) "memory.total") as [mem_total|] eqn:H6; simpl in Hd; [|done].
  apply getitem_Ok in H1, H2, H3, H4, H5, H6.
  apply rfold_tokens_rmap in Hreps as (tokens & Htokens & ->).
  injection Hd as <-.
  pose proof (auto_gpuname_width_bound self w g name Hw Hg H2).
  pose proof (Ht _ H3). pose proof (Hu _ H4).
  pose proof (Hmu _ H5). pose proof (Hmt _ H6).
  exists index, name, temp, util, mem_used, mem_total, tokens.
  repeat split; try done.
  - by autorewrite with str.
  - rewrite length_ljust. lia.
  - rewrite length_rjust. lia.
  - rewrite length_rjust. lia.
  - rewrite length_rjust. lia.
  - rewrite length_rjust. lia.
Qed.

(** ** The header of a host without [%] in its name (lines 233-238) *)

(** Text without [%] passes through the [%] operator unchanged. *)
Lemma percent_scan_literal (d : string -> res string) (a b : string) :
  has_char "%" a = false ->
  percent_scan d PLit (a +:+ b) = (r <- percent_scan d PLit b ;; Ok (a +:+ r)).
Proof.
  induction a as [|c a IH]; intros Ha.
  - rewrite append_nil_l. by destruct (percent_scan d PLit b).
  - simpl in Ha. apply orb_false_iff in Ha as [Hc Ha].
    rewrite append_cons. simpl. rewrite Hc, IH by done.
    by destruct (percent_scan d PLit b).
Qed.

(** X4: the header for a host name and a time string without [%]: the host name
    in bold (when colours are on), two spaces, the time string.  A [%%] in the
    host name or the time string comes out as a single [%], because the
    [%] operator is applied after [format] has put them in. *)
Theorem header_msg_plain_text (lc : Locale) (self : GPUStatCollection)
    (no_color : bool) :
  (has_char "%" (hostname self) = false ->
   has_char "%" (strftime lc (query_time self) (D_T_FMT lc)) = false ->
   header_msg lc self no_color
   = Ok ((if no_color then EmptyString else ANSIColors.WHITE)
         +:+ hostname self
         +:+ (if no_color then EmptyString else ANSIColors.RESET)
         +:+ "  " +:+ strftime lc (query_time self) (D_T_FMT lc)))
  /\ (forall a b,
        has_char "%" a = false -> has_char "%" b = false ->
        has_char "%" (strftime lc (query_time self) (D_T_FMT lc)) = false ->
        hostname self = a +:+ "%%" +:+ b ->
        header_msg lc self true
        = Ok (a +:+ "%" +:+ b +:+ "  " +:+ strftime lc (query_time self) (D_T_FMT lc))).
Proof.
  assert (forall t, has_char "%" t = false ->
            forall d, percent_scan d PLit t = Ok t) as Hlit.
  { intros t Ht d. rewrite <- (append_empty_r t) at 1.
    rewrite percent_scan_literal by done. simpl. by rewrite append_empty_r. }
  split.
  - intros Hhost Htime. unfold header_msg, percent_format.
    set (timestr := strftime lc (query_time self) (D_T_FMT lc)) in *.
    change (percent_scan (header_colors no_color) PLit
              ("%(WHITE)s" +:+ hostname self +:+ "%(RESET)s  " +:+ timestr))
      with (v <- header_colors no_color "WHITE" ;;
            r <- percent_scan (header_colors no_color) PLit
                   (hostname self +:+ "%(RESET)s  " +:+ timestr) ;;
            Ok (v +:+ r)).
    rewrite percent_scan_literal by done.
    change (percent_scan (header_colors no_color) PLit ("%(RESET)s  " +:+ timestr))
      with (v <- header_colors no_color "RESET" ;;
            r <- percent_scan (header_colors no_color) PLit ("  " +:+ timestr) ;;
            Ok (v +:+ r)).
    rewrite (percent_scan_literal _ "  " timestr) by done.
    rewrite Hlit by done.
    destruct no_color; simpl; reflexivity.
  - intros a b Ha Hb Htime Hhost. unfold header_msg, percent_format.
    set (timestr := strftime lc (query_time self) (D_T_FMT lc)) in *.
    rewrite Hhost.
    change (percent_scan (header_colors true) PLit
              ("%(WHITE)s" +:+ (a +:+ "%%" +:+ b) +:+ "%(RESET)s  " +:+ timestr))
      with (r <- percent_scan (header_colors true) PLit
                   ((a +:+ "%%" +:+ b) +:+ "%(RESET)s  " +:+ timestr) ;;
            Ok (EmptyString +:+ r)).
    rewrite !append_assoc.
    rewrite percent_scan_literal by done.
    change (percent_scan (header_colors true) PLit
              ("%%" +:+ b +:+ "%(RESET)s  " +:+ timestr))
      with (r <- percent_scan (header_colors true) PLit
                   (b +:+ "%(RESET)s  " +:+ timestr) ;;
            Ok (String "%" r)).
    rewrite percent_scan_literal by done.
    change (percent_scan (header_colors true) PLit ("%(RESET)s  " +:+ timestr))
      with (r <- percent_scan (header_colors true) PLit ("  " +:+ timestr) ;;
            Ok (EmptyString +:+ r)).
    rewrite (percent_scan_literal _ "  " timestr) by done.
    rewrite Hlit by done. simpl. by autorewrite with str.
Qed.

Lemma header_of_sample_snapshot :
  header_msg locale_ymd sample_snapshot true = Ok "host1  2026-11-04 12:30:00".
Proof.
  exact (proj1 (header_msg_plain_text locale_ymd sample_snapshot true)
           eq_refl eq_refl).
Defined.

(** ** The shape of the output ([print_formatted], lines 240-253) *)

(** X5: what [print_formatted] writes, whether it succeeds or not, for a
    host name and a time string that hold no [%] conversion other than
    [%%]: the header and a newline on [sys.stdout], in two writes, then on
    [fp] the complete lines of the devices before the first that cannot be
    rendered, each followed by a newline.  It returns normally when every
    device got its line; otherwise it raises what the computation of the name
    width or the first device without a line raises. *)
Theorem print_formatted_writes_whole_lines (self : GPUStatCollection) (fp : file)
    (no_color show_cmd show_user show_pid : bool) (env : Env) :
  let timestr := strftime (lc_time env) (query_time self) (D_T_FMT (lc_time env)) in
  let devices := GPUStatCollection_iter self in
  let run := print_formatted self fp no_color show_cmd show_user show_pid env in
  percent_escaped (hostname self) = true ->
  percent_escaped timestr = true ->
  exists lines,
    run.1 = (sys_stdout, header_text no_color (hostname self) timestr)
            :: (sys_stdout, String NL EmptyString) :: device_lines fp lines
    /\ match auto_gpuname_width self with
       | Raise e => lines = [] /\ run.2 = Raise e
       | Ok w =>
           Forall2 (fun g line =>
                      print_to_reps g (negb no_color) show_cmd show_user show_pid w
                      = Ok line)
             (take (length lines) devices) lines
           /\ match devices !! length lines with
              | None => run.2 = Ok tt
              | Some g =>
                  exists e,
                    print_to_reps g (negb no_color) show_cmd show_user show_pid w
                    = Raise e
                    /\ run.2 = Raise e
              end
       end.
Proof.
  intros timestr devices run Hhost Htime. subst run.
  rewrite print_formatted_render by done. fold timestr. unfold render.
  destruct (auto_gpuname_width self) as [w|e].
  - set (line_of := fun g =>
           print_to_reps g (negb no_color) show_cmd show_user show_pid w).
    exists (render_lines line_of devices).1.
    pose proof (render_lines_spec line_of devices) as [H1 H2].
    fold devices. destruct (render_lines line_of devices) as [lines r].
    cbn [fst snd] in *. done.
  - by exists [].
Qed.

Lemma print_formatted_stops_at_half_snapshot :
  exists lines,
    (print_formatted half_snapshot StringIO true false false false
       (sample_env locale_ymd midnight)).1
    = (sys_stdout, "host1  2026-11-04 12:30:00") :: (sys_stdout, nl)
        :: device_lines StringIO lines
    /\ Forall2 (fun g line => print_to_reps g false false false false 16 = Ok line)
         (take (length lines) (GPUStatCollection_iter half_snapshot)) lines
    /\ match GPUStatCollection_iter half_snapshot !! length lines with
       | None =>
           (print_formatted half_snapshot StringIO true false false false
              (sample_env locale_ymd midnight)).2 = Ok tt
       | Some g =>
           exists e,
             print_to_reps g false false false false 16 = Raise e
             /\ (print_formatted half_snapshot StringIO true false false false
                   (sample_env locale_ymd midnight)).2 = Raise e
       end.
Proof.
  exact (print_formatted_writes_whole_lines half_snapshot StringIO
           true false false false (sample_env locale_ymd midnight)
           eq_refl eq_refl).
Defined.

(** The run itself: one line, then [KeyError]. *)
Example half_snapshot_run :
  print_formatted half_snapshot StringIO true false false false
    (sample_env locale_ymd midnight)
  = ([(sys_stdout, "host1  2026-11-04 12:30:00"); (sys_stdout, nl);
      (StringIO, "[0] GPU0             | 45'C,  10 % |   100 /  8000 MB |");
      (StringIO, nl)],
     Raise KeyError).
Proof. reflexivity. Qed.

(** ** Reading the output of [nvidia-smi] (lines 144-151 and 164-171) *)

Lemma has_char_app (c : ascii) (a b : string) :
  has_char c (a +:+ b) = has_char c a || has_char c b.
Proof.
  induction a as [|c' a IH]; [by rewrite append_nil_l|].
  rewrite append_cons. simpl. by rewrite IH, orb_assoc.
Qed.

Lemma split_field (sep : ascii) (a b : string) :
  has_char sep a = false -> split sep (a +:+ String sep b) = a :: split sep b.
Proof.
  induction a as [|c a IH]; intros Ha.
  - rewrite append_nil_l. simpl. by rewrite Ascii.eqb_refl.
  - simpl in Ha. apply orb_false_iff in Ha as [Hc Ha].
    rewrite append_cons. simpl. by rewrite Hc, IH.
Qed.

Lemma split_last (sep : ascii) (a : string) :
  has_char sep a = false -> split sep a = [a].
Proof.
  induction a as [|c a IH]; intros Ha; [done|].
  simpl in Ha. apply orb_false_iff in Ha as [Hc Ha].
  simpl. by rewrite Hc, IH.
Qed.

(** The fields of a line, as [line.split(',')] returns them: every field but
    the first keeps the blank that followed its comma. *)
Lemma split_csv_line (f : string) (fs : list string) :
  Forall (fun f => has_char "," f = false) (f :: fs) ->
  split "," (csv_line (f :: fs)) = f :: (String " " <$> fs).
Proof.
  revert f. induction fs as [|g fs IH]; intros f Hf.
  - apply split_last. by inversion Hf.
  - inversion Hf as [|? ? Hf1 Hf2]; subst.
    change (csv_line (f :: g :: fs)) with (f +:+ ", " +:+ csv_line (g :: fs)).
    change (", " +:+ csv_line (g :: fs))
      with (String "," (String " " (csv_line (g :: fs)))).
    rewrite split_field by done. f_equal.
    change (split "," (String " " (csv_line (g :: fs))))
      with (match split "," (csv_line (g :: fs)) with
            | [] => [String " " EmptyString]
            | w :: ws => String " " w :: ws
            end).
    by rewrite IH.
Qed.

Lemma strip_after_blank (f : string) : strip (String " " f) = strip f.
Proof. done. Qed.

Lemma row_dict_csv_line (columns row : list string) :
  csv_row row -> row_dict columns (split "," (csv_line row)) = list_to_map (zip columns row).
Proof.
  intros [Hrow Hne]. destruct row as [|f fs]; [done|].
  unfold row_dict. rewrite split_csv_line.
  2: { eapply Forall_impl; [exact Hrow|]. by intros g (? & _). }
  do 2 f_equal. rewrite fmap_cons. inversion Hrow as [|? ? (_ & _ & Hf) Hfs]; subst.
  rewrite Hf. f_equal. clear -Hfs.
  induction Hfs as [|g fs (_ & _ & Hg) _ IH]; [done|].
  rewrite !fmap_cons, strip_after_blank, Hg. by f_equal.
Qed.

Lemma has_char_csv_line (c : ascii) (row : list string) :
  Forall (fun f => has_char c f = false) row ->
  has_char c ", " = false ->
  has_char c (csv_line row) = false.
Proof.
  intros Hrow Hsep. induction Hrow as [|f fs Hf Hfs IH]; [done|].
  destruct fs as [|g fs]; [done|].
  change (csv_line (f :: g :: fs)) with (f +:+ ", " +:+ csv_line (g :: fs)).
  by rewrite !has_char_app, Hf, Hsep, IH.
Qed.

Lemma split_csv_text (rows : list (list string)) :
  Forall csv_row rows ->
  split NL (csv_text rows) = (csv_line <$> rows) ++ [EmptyString].
Proof.
  induction 1 as [|row rows [Hrow _] _ IH]; [done|].
  cbn [csv_text foldr]. rewrite split_field.
  - rewrite fmap_cons. simpl. f_equal. exact IH.
  - apply has_char_csv_line; [|done].
    eapply Forall_impl; [exact Hrow|]. by intros g (_ & ? & _).
Qed.

(** X6: the two loops that read the output of [nvidia-smi].  For a table of
    values that hold no comma, no newline and no blank at either end, written
    one row per line with ", " between the values, the loop builds one dict
    per row, in order, that maps the columns to the values of the row: the
    blank after each comma is stripped, the empty string after the last
    newline gives no row, and [zip] drops what has no partner. *)
Theorem parse_rows_reads_csv (columns : list string) (rows : list (list string)) :
  Forall csv_row rows ->
  parse_rows columns (csv_text rows)
  = (fun row => list_to_map (zip columns row)) <$> rows.
Proof.
  intros Hrows. unfold parse_rows. rewrite split_csv_text by done.
  rewrite filter_app.
  replace (filter (fun line => nonempty line = true) [EmptyString])
    with (@nil string) by done.
  rewrite app_nil_r.
  induction Hrows as [|row rows Hrow _ IH]; [done|].
  rewrite fmap_cons, filter_cons_True by apply Hrow.
  rewrite !fmap_cons, row_dict_csv_line by done. by f_equal.
Qed.

Lemma parse_rows_reads_sample_row :
  Forall csv_row [sample_gpu_row]
  /\ parse_rows gpu_query_columns
       ("0, GPU-aaa, GeForce GTX 1080, 65, 10, 100, 8000" +:+ nl)
     = [list_to_map (zip gpu_query_columns sample_gpu_row)].
Proof.
  assert (Forall csv_row [sample_gpu_row]) as H.
  { apply Forall_singleton. split; [|vm_compute; reflexivity].
    unfold sample_gpu_row.
    repeat (apply List.Forall_cons;
            [split; [vm_compute; reflexivity | split; vm_compute; reflexivity]|]).
    apply List.Forall_nil. }
  split; [exact H|].
  change ("0, GPU-aaa, GeForce GTX 1080, 65, 10, 100, 8000" +:+ nl)
    with (csv_text [sample_gpu_row]).
  exact (parse_rows_reads_csv gpu_query_columns [sample_gpu_row] H).
Defined.

(** ** Attaching the processes of known devices ([update_process_information]) *)

Lemma with_processes_nil (gpus : list (string * GPUStat)) :
  with_processes [] <$> gpus = gpus.
Proof.
  induction gpus as [|[k [e procs]] gpus IH]; csimpl; [done|].
  unfold with_processes at 1. simpl. by rewrite app_nil_r, IH.
Qed.

(** With distinct keys, assigning to a key that is present changes that
    pair and no other. *)
Lemma od_set_present {V} (k : string) (v obj : V) (d : list (string * V)) :
  NoDup (od_keys d) -> od_get k d = Some obj ->
  od_set k v d = (fun kv => if decide (kv.1 = k) then (kv.1, v) else kv) <$> d.
Proof.
  unfold od_keys. induction d as [|[k' v'] d IH]; csimpl; [done|].
  intros [Hk' Hd]%NoDup_cons. destruct (decide (k = k')) as [->|Hne].
  - intros _. rewrite decide_True by done. f_equal.
    clear IH. induction d as [|[k1 v1] d IH]; csimpl; [done|].
    csimpl in Hk'. apply not_elem_of_cons in Hk' as [Hne Hk'].
    apply NoDup_cons in Hd as [_ Hd].
    rewrite decide_False by done. f_equal. by apply IH.
  - intros Hget. rewrite decide_False by done. f_equal. by apply IH.
Qed.

(** X7: when every row names a device of the snapshot, no exception is raised
    and every row is appended to the process list of the device it names,
    and to no other, in the order of the rows; entries and keys stay as they
    are.  The local variable [g] plays no part. *)
Theorem known_processes_are_partitioned (gpus : list (string * GPUStat))
    (g : option string) (ps : list (gmap string string)) :
  NoDup (od_keys gpus) ->
  Forall (fun p => exists u, p !! "gpu_uuid" = Some u /\ u ∈ od_keys gpus) ps ->
  attach_processes gpus g ps = Ok (with_processes ps <$> gpus).
Proof.
  intros Hnd Hps. remember (od_keys gpus) as keys eqn:Hkeys.
  revert gpus g Hkeys.
  induction Hps as [|p ps (u & Hu & Hin) _ IH]; intros gpus g Hkeys; simpl.
  - by rewrite with_processes_nil.
  - rewrite Hu. subst keys.
    destruct (od_get u gpus) as [obj|] eqn:Hget;
      [|apply od_get_None in Hget; by destruct Hget].
    rewrite Hget.
    assert (od_keys (od_set u (add_process p obj) gpus) = od_keys gpus) as Hsame
      by (by apply od_set_add_process).
    rewrite IH by done.
    f_equal. rewrite (od_set_present u _ obj) by done.
    rewrite <- list_fmap_compose. apply list_fmap_ext.
    intros i [k d] Hi. simpl. unfold with_processes. simpl.
    destruct (decide (k = u)) as [->|Hne]; simpl.
    + assert (d = obj) as ->.
      { apply list_elem_of_lookup_2 in Hi.
        clear -Hi Hget Hnd. unfold od_keys in Hnd.
        induction gpus as [|[k' v'] gpus IHg]; [by apply elem_of_nil in Hi|].
        csimpl in *. apply NoDup_cons in Hnd as [Hk' Hnd].
        destruct (decide (u = k')) as [->|Hne].
        - apply elem_of_cons in Hi as [[= <-]|Hi]; [congruence|].
          destruct Hk'. apply list_elem_of_fmap. by exists (k', d).
        - apply elem_of_cons in Hi as [[= ? ?]|Hi]; [congruence|]. by apply IHg. }
      rewrite filter_cons_True by done. by rewrite <- app_assoc.
    + rewrite filter_cons_False by congruence. done.
Qed.

Lemma known_processes_on_two_gpus :
  attach_processes two_gpus None rows_on_two_gpus
  = Ok [("GPU-aaa", add_process (process_on "GPU-aaa" "2") gpu_aaa);
        ("GPU-bbb", add_process (process_on "GPU-bbb" "3")
                      (add_process (process_on "GPU-bbb" "1") gpu_bbb))].
Proof.
  assert (NoDup (od_keys two_gpus)) as Hkeys.
  { apply (bool_decide_unpack _). vm_compute. reflexivity. }
  assert (Forall (fun p => exists u, p !! "gpu_uuid" = Some u /\ u ∈ od_keys two_gpus)
            rows_on_two_gpus) as Hrows.
  { unfold rows_on_two_gpus.
    repeat (apply List.Forall_cons;
            [eexists; split; [vm_compute; reflexivity |
                              apply (bool_decide_unpack _); vm_compute; reflexivity]|]).
    apply List.Forall_nil. }
  rewrite (known_processes_are_partitioned two_gpus None rows_on_two_gpus Hkeys Hrows).
  vm_compute. reflexivity.
Defined.

Lemma device_columns_of_two_gpus :
  exists index name temp util mem_used mem_total tokens,
    entry gpu_bbb !! "index" = Some index /\ entry gpu_bbb !! "name" = Some name
    /\ entry gpu_bbb !! "temperature.gpu" = Some temp
    /\ entry gpu_bbb !! "utilization.gpu" = Some util
    /\ entry gpu_bbb !! "memory.used" = Some mem_used
    /\ entry gpu_bbb !! "memory.total" = Some mem_total
    /\ rmap (process_repr no_colors false false false) (processes gpu_bbb)
       = Ok tokens
    /\ "[1] GPU0             | 45'C,  10 % |   100 /  8000 MB |"
       = "[" +:+ index +:+ "] " +:+ ljust 16 name +:+ " |"
         +:+ rjust 3 temp +:+ "'C, " +:+ rjust 3 util +:+ " % | "
         +:+ rjust 5 mem_used +:+ " / " +:+ rjust 5 mem_total +:+ " MB |"
         +:+ String.concat EmptyString ((fun t => " " +:+ t) <$> tokens)
    /\ String.length (ljust 16 name) = 16%nat
    /\ String.length (rjust 3 temp) = 3%nat
    /\ String.length (rjust 3 util) = 3%nat
    /\ String.length (rjust 5 mem_used) = 5%nat
    /\ String.length (rjust 5 mem_total) = 5%nat.
Proof.
  apply (device_columns_line_up two_gpu_snapshot gpu_bbb 16 false false false).
  - vm_compute. reflexivity.
  - change (GPUStatCollection_iter two_gpu_snapshot) with [gpu_aaa; gpu_bbb].
    apply list_elem_of_further, list_elem_of_here.
  - repeat split; intros v Hv; vm_compute in Hv; injection Hv as <-; simpl; lia.
  - vm_compute. reflexivity.
Defined.

(** ** A host without compute processes ([running_processes], line 176) *)

Lemma od_set_Forall {V} (P : string * V -> Prop) (k : string) (v : V)
    (d : list (string * V)) :
  Forall P d -> P (k, v) -> Forall P (od_set k v d).
Proof.
  intros Hd Hkv. induction Hd as [|[k' v'] d Hx Hd IH]; csimpl.
  - by constructor.
  - destruct (decide (k = k')) as [->|]; constructor; auto.
Qed.

(** What holds of every device of the list holds of every device kept. *)
Lemma collect_gpus_Forall (P : GPUStat -> Prop) (gpu_list : list GPUStat)
    (gpus : list (string * GPUStat)) :
  Forall P gpu_list -> collect_gpus gpu_list = Ok gpus -> Forall P (od_values gpus).
Proof.
  unfold collect_gpus, od_values. intros Hl.
  assert (Forall (fun kg : string * GPUStat => P kg.2) []) as Hacc by constructor.
  revert Hacc. generalize (@nil (string * GPUStat)) as acc.
  induction Hl as [|g gs Hg _ IH]; intros acc Hacc; simpl.
  - intros [= <-]. by apply Forall_fmap.
  - destruct (uuid g) as [u|]; simpl; [|done].
    apply IH. by apply od_set_Forall.
Qed.

Lemma parse_rows_blank (columns : list string) (smi_output : string) :
  Forall (fun line => line = EmptyString) (split NL smi_output) ->
  parse_rows columns smi_output = [].
Proof.
  unfold parse_rows. intros H.
  induction H as [|line lines -> _ IH]; [done|].
  rewrite filter_cons_False by done. exact IH.
Qed.

(** X8: when [nvidia-smi] reports no compute process (every line of its
    output is empty), the query does not depend on [ps] in any way: it
    returns or raises the same with any other [ps], one that fails included.
    Every device of the snapshot it returns has an empty process list. *)
Theorem idle_host_ignores_ps (env : Env) (apps : string)
    (ps' : list Z -> res string) :
  nvidia_smi_query_compute_apps env = Ok apps ->
  Forall (fun line => line = EmptyString) (split NL apps) ->
  new_query (with_ps env ps') = new_query env
  /\ forall gpu_stats, (new_query env).2 = Ok gpu_stats ->
       Forall (fun g => processes g = []) (GPUStatCollection_iter gpu_stats).
Proof.
  intros Happs Hblank.
  pose proof (parse_rows_blank process_query_columns apps Hblank) as Hrows.
  unfold new_query, GPUStatCollection_init, update_process_information,
    running_processes, running_processes_from, bind, call, lift, ask, ret.
  cbn [with_ps nvidia_smi_query_gpu nvidia_smi_query_compute_apps
       platform_node datetime_now].
  rewrite Happs, Hrows.
  destruct (nvidia_smi_query_gpu env) as [out|e]; [|done].
  destruct (collect_gpus _) as [gpus|e] eqn:Hgpus; [|done].
  split; [done|]. simpl. intros gpu_stats [= <-].
  unfold GPUStatCollection_iter. simpl.
  eapply collect_gpus_Forall; [|exact Hgpus].
  apply Forall_fmap. by apply Forall_true.
Qed.

Lemma idle_env_ignores_failing_ps :
  new_query (with_ps idle_env (fun _ => Raise CalledProcessError)) = new_query idle_env
  /\ forall gpu_stats, (new_query idle_env).2 = Ok gpu_stats ->
       Forall (fun g => processes g = []) (GPUStatCollection_iter gpu_stats).
Proof.
  apply (idle_host_ignores_ps idle_env EmptyString).
  - reflexivity.
  - vm_compute. apply List.Forall_cons; [reflexivity | apply List.Forall_nil].
Defined.

(** ** Failures of the query ([new_query], [print_gpustat]) *)

(** An exception of a loop is the exception of one of its steps. *)
Lemma rfold_Raise {A B} (f : B -> A -> res B) (acc : B) (l : list A) (e : exc) :
  rfold f acc l = Raise e -> exists acc' x, x ∈ l /\ f acc' x = Raise e.
Proof.
  revert acc. induction l as [|x l IH]; intros acc; simpl; [done|].
  destruct (f acc x) as [acc'|e'] eqn:Hx; simpl.
  - intros (acc'' & x' & Hin & Hx')%IH. exists acc'', x'.
    split; [by apply list_elem_of_further | done].
  - intros [= ->]. exists acc, x. split; [apply list_elem_of_here | done].
Qed.

Lemma collect_gpus_Raise (gpu_list : list GPUStat) (e : exc) :
  collect_gpus gpu_list = Raise e -> e = KeyError.
Proof.
  intros (gpus & g & _ & Hg)%rfold_Raise. unfold uuid in Hg.
  destruct (getitem_cases (entry g) "uuid") as [(v & _ & Hv)|[_ Hv]];
    rewrite Hv in Hg; simpl in Hg; congruence.
Qed.

Lemma pid_map_init_Raise (process_entries : list (gmap string string)) (e : exc) :
  pid_map_init process_entries = Raise e -> e = KeyError \/ e = ValueError.
Proof.
  intros (pm & p & _ & Hp)%rfold_Raise.
  destruct (getitem_cases p "pid") as [(v & _ & Hv)|[_ Hv]];
    rewrite Hv in Hp; simpl in Hp; [|left; congruence].
  destruct (int_cases v) as [[z Hz]|Hz]; rewrite Hz in Hp; simpl in Hp;
    [done | right; congruence].
Qed.

Lemma read_pid_output_Raise (pid_map : list (Z * option (gmap string string)))
    (pid_output : string) (e : exc) :
  read_pid_output pid_map pid_output = Raise e -> e = ValueError.
Proof.
  intros (pm & line & _ & Hl)%rfold_Raise.
  destruct (negb (nonempty line) || contains "PID" line); [done|].
  destruct (split_ws line) as [|a [|b [|c rest]]]; simpl in Hl; try congruence.
  destruct (int_cases a) as [[z Hz]|Hz]; rewrite Hz in Hl; simpl in Hl; congruence.
Qed.

Lemma list_remove_Raise (heap : list (gmap string string)) (x : gmap string string)
    (l : list nat) (e : exc) :
  list_remove heap x l = Raise e -> e = ValueError.
Proof.
  induction l as [|r l IH]; simpl; [congruence|].
  destruct (decide (heap !! r = Some x)); [done|].
  destruct (list_remove heap x l); simpl; [done|]. intros [= ->]. by apply IH.
Qed.

Lemma attach_process_information_Raise
    (pid_map : list (Z * option (gmap string string)))
    (process_entries : list (gmap string string)) (e : exc) :
  attach_process_information pid_map process_entries = Raise e ->
  e = KeyError \/ e = ValueError.
Proof.
  unfold attach_process_information.
  destruct (rfold _ _ _) as [[heap live]|e'] eqn:Hf; simpl; [done|].
  intros [= ->]. apply rfold_Raise in Hf as ([heap live] & r & _ & Hr).
  unfold attach_step in Hr. destruct (heap !! r) as [p|]; [|left; congruence].
  destruct (getitem_cases p "pid") as [(v & _ & Hv)|[_ Hv]];
    rewrite Hv in Hr; simpl in Hr; [|left; congruence].
  destruct (int_cases v) as [[z Hz]|Hz]; rewrite Hz in Hr; simpl in Hr;
    [|right; congruence].
  destruct (od_get z pid_map) as [[info|]|]; [done| |left; congruence].
  destruct (list_remove heap p live) eqn:Hrm; simpl in Hr; [done|].
  injection Hr as ->. right. by eapply list_remove_Raise.
Qed.

Lemma attach_processes_Raise (processes : list (gmap string string))
    (gpus : list (string * GPUStat)) (g : option string) (e : exc) :
  attach_processes gpus g processes = Raise e ->
  e = UnboundLocalError \/ e = KeyError.
Proof.
  revert gpus g. induction processes as [|p ps IH]; intros gpus g; simpl; [done|].
  match goal with |- match ?g' with _ => _ end = _ -> _ => destruct g' as [k|] end;
    [|left; congruence].
  destruct (od_get k gpus); [apply IH | right; congruence].
Qed.

Lemma quiet_bind {A B} (P : exc -> Prop) (m : M A) (k : A -> M B) (env : Env) :
  quiet_raising P m env ->
  (forall a, (m env).2 = Ok a -> quiet_raising P (k a) env) ->
  quiet_raising P (bind m k) env.
Proof.
  unfold quiet_raising, bind. intros [Ho He] Hk.
  destruct (m env) as [o1 [a|e1]]; simpl in *; subst o1.
  - specialize (Hk a eq_refl). destruct (k a env) as [o2 r]; simpl in *.
    destruct Hk as [-> Hk]. done.
  - split; [done|]. intros e [= <-]. by apply He.
Qed.

Lemma quiet_lift {A} (P : exc -> Prop) (r : res A) (env : Env) :
  (forall e, r = Raise e -> P e) -> quiet_raising P (lift r) env.
Proof. intros Hr. split; [done | exact Hr]. Qed.

Lemma quiet_call {A} (P : exc -> Prop) (f : Env -> res A) (env : Env) :
  (forall e, f env = Raise e -> P e) -> quiet_raising P (call f) env.
Proof. intros Hr. split; [done | exact Hr]. Qed.

Lemma quiet_ask {A} (P : exc -> Prop) (f : Env -> A) (env : Env) :
  quiet_raising P (ask f) env.
Proof. split; [done | intros e [=]]. Qed.

Lemma quiet_ret {A} (P : exc -> Prop) (a : A) (env : Env) :
  quiet_raising P (ret a) env.
Proof. split; [done | intros e [=]]. Qed.

Lemma new_query_quiet (env : Env) :
  commands_raise_CalledProcessError env ->
  quiet_raising query_exception new_query env.
Proof.
  intros (Hgpu & Happs & Hps). unfold query_exception.
  apply quiet_bind; [apply quiet_call; intros e He; left; by apply Hgpu|].
  intros smi_output _. apply quiet_bind.
  { apply quiet_lift. intros e ->%collect_gpus_Raise. auto. }
  intros gpus _. apply quiet_bind; [|intros gpus' _].
  - apply quiet_bind; [|intros processes _].
    + apply quiet_bind; [apply quiet_call; intros e He; left; by apply Happs|].
      intros apps _. apply quiet_bind.
      { apply quiet_lift. intros e [-> | ->]%pid_map_init_Raise; auto. }
      intros pm0 _. apply quiet_bind; [|intros pm1 _].
      * destruct pm0 as [|kv pm0]; [apply quiet_ret|].
        apply quiet_bind; [apply quiet_call; intros e He; left; by eapply Hps|].
        intros pid_output _. apply quiet_lift.
        intros e ->%read_pid_output_Raise. auto.
      * apply quiet_lift.
        intros e [-> | ->]%attach_process_information_Raise; auto.
    + apply quiet_lift. intros e [-> | ->]%attach_processes_Raise; auto.
  - apply quiet_bind; [apply quiet_ask|]. intros hostname _.
    apply quiet_bind; [apply quiet_ask|]. intros query_time _. apply quiet_ret.
Qed.

(** X9: [print_gpustat] of [src/gpustat.py], when the external commands fail
    with [CalledProcessError] only.  The query itself writes nothing.  When it
    raises [CalledProcessError], the program writes the one line
    "Error on calling nvidia-smi" to the standard error, nothing to the
    standard output, and exits with status 1.  Any other exception of the
    query is a [KeyError], a [ValueError] or an [UnboundLocalError], and it
    leaves [print_gpustat] uncaught with nothing written.  When the query
    returns a snapshot, the output is that of [print_formatted] on it. *)
Theorem print_gpustat_query_failures (env : Env)
    (no_color show_cmd show_user show_pid : bool) :
  commands_raise_CalledProcessError env ->
  (new_query env).1 = []
  /\ match (new_query env).2 with
     | Ok gpu_stats =>
         print_gpustat no_color show_cmd show_user show_pid env
         = print_formatted gpu_stats sys_stdout no_color show_cmd show_user show_pid env
     | Raise CalledProcessError =>
         print_gpustat no_color show_cmd show_user show_pid env
         = ([(sys_stderr, "Error on calling nvidia-smi" +:+ String NL EmptyString)],
            Raise (SystemExit 1))
     | Raise e =>
         (e = KeyError \/ e = ValueError \/ e = UnboundLocalError)
         /\ print_gpustat no_color show_cmd show_user show_pid env = ([], Raise e)
     end.
Proof.
  intros Henv. destruct (new_query_quiet env Henv) as [Ho He].
  split; [exact Ho|].
  unfold print_gpustat, bind, try_except.
  destruct (new_query env) as [o [gpu_stats|e]]; simpl in *; subst o.
  - by destruct (print_formatted _ _ _ _ _ _ env).
  - specialize (He e eq_refl). unfold query_exception in He.
    destruct e; try done; try (split; [|done]); intuition congruence.
Qed.

Lemma print_gpustat_on_failing_env :
  commands_raise_CalledProcessError failing_env
  /\ print_gpustat false false false false failing_env
     = ([(sys_stderr, "Error on calling nvidia-smi" +:+ String NL EmptyString)],
        Raise (SystemExit 1)).
Proof.
  assert (commands_raise_CalledProcessError failing_env) as H.
  { repeat split; simpl; congruence. }
  split; [exact H|].
  exact (proj2 (print_gpustat_query_failures failing_env false false false false H)).
Defined.

(** ** How the watch loop ends ([loop_gpustat]) *)





(** A run of three passes: the second query fails under [--debug] and the
    traceback cannot be printed, so the exception of the query leaves the
    loop; the third pass does not take place. *)
Example failing_watch_run :
  cli.loop_gpustat cli.one_tenth
    {| cli.force_color := false; cli.no_color := false; cli.show_all := false;
       cli.show_cmd := false; cli.show_full_cmd := false; cli.show_user := false;
       cli.show_pid := false; cli.show_fan_speed := false;
       cli.show_codec := EmptyString; cli.show_power := None;
       cli.json := true; cli.interval := Some 1%float;
       cli.show_header := true; cli.gpuname_width := None;
       cli.debug := true; cli.no_processes := false |}
    [pass 0 0.25;
     {| cli.time_before := 1; cli.query := Some (Exception "NVMLError");
        cli.traceback := Some TypeError; cli.render := None;
        cli.time_after := 2; cli.sleep := None |};
     pass 2 0.25]
  = ([cli.EnterFullscreen;
      cli.MoveCursorHome; cli.NewQuery true; cli.PrintJson; cli.ClearEos;
      cli.MoveCursorHome; cli.NewQuery true;
      cli.StderrWrite ("Error on querying NVIDIA devices. Use --debug flag for details"
                       +:+ String NL EmptyString);
      cli.PrintTraceback;
      cli.LeaveFullscreen],
     cli.Raises (Exception "NVMLError")).
Proof. reflexivity. Qed.
